(** * tai-x402: the survival-gated revenue service

    A shallow embedding of the parts of tai-x402 that carry policy: the
    balance-to-state classification of the runtime entry point
    ([showBalance] and [run]), the multi-provider inference client
    ([createMultiProviderClient], [chatViaAnthropic],
    [chatViaOpenAiCompatible]), the resource monitor ([checkResources]) and
    the x402 revenue server ([createRevenueServer], [RevenueTracker]); and
    of what stands around them: the built-in services
    ([createDefaultServices]), the agent loop and its tools
    ([runSimpleAgentLoop], [executeToolCall]), the redaction of keys in saved
    configurations ([sanitizeProviders]) and the chat of the message handler
    ([handleChat]).

    JavaScript numbers are IEEE 754 binary64 values; they are modelled by
    Rocq's primitive floats, which are the same format with the same
    round-to-nearest-even arithmetic and the same comparisons (every
    comparison with NaN is false). *)

From Stdlib Require Import ZArith Bool List Ascii String Lia.
From Stdlib Require Import Floats.
From Stdlib Require Uint63.
From stdpp Require Import base option gmap strings list fin_maps.
Import ListNotations.

Local Open Scope string_scope.
Local Open Scope list_scope.
#[local] Set Warnings "-inexact-float,-register-all".

(** ** JavaScript values used by the program *)

Module JS.

(** [number]: an IEEE 754 double. *)
Abbreviation number := float.

(** [a >= b] of JavaScript: IEEE "greater or equal", false on NaN. *)
Definition ge (a b : number) : bool := (b <=? a)%float.

(** [a < b] of JavaScript. *)
Definition lt (a b : number) : bool := (a <? b)%float.

(** [a <= b] and [a > b] of JavaScript. *)
Definition le (a b : number) : bool := (a <=? b)%float.
Definition gt (a b : number) : bool := (b <? a)%float.

(** ToBoolean on a number: [0], [-0] and [NaN] are falsy. *)
Definition truthy_number (x : number) : bool :=
  negb (is_zero x || is_nan x).

(** ToBoolean on a string: only the empty string is falsy. *)
Definition truthy_string (s : string) : bool :=
  match s with
  | EmptyString => false
  | String _ _ => true
  end.

(** [x || d] where [x] is a possibly missing number. *)
Definition or_number (x : option number) (d : number) : number :=
  match x with
  | Some v => if truthy_number v then v else d
  | None => d
  end.

(** [x || d] where [x] is a possibly missing string. *)
Definition or_string (x : option string) (d : string) : string :=
  match x with
  | Some s => if truthy_string s then s else d
  | None => d
  end.

(** The one-character string ["\n"]. *)
Definition newline : string := String (ascii_of_nat 10) EmptyString.

(** [x || null] where [x] is a possibly missing string. *)
Definition or_null (x : option string) : option string :=
  match x with
  | Some s => if truthy_string s then Some s else None
  | None => None
  end.

(** Conversion of an integer below 2^53 in magnitude to the double with that
    value. *)
Definition of_Z (z : Z) : number :=
  match z with
  | Z0 => zero
  | Zpos _ => of_uint63 (Uint63.of_Z z)
  | Zneg p => (- of_uint63 (Uint63.of_Z (Zpos p)))%float
  end.

(** [Math.ceil]: the least integral double not below [x]. NaN, the zeros and
    the infinities are returned as they are; a finite [x = ± m * 2^e] with
    [0 <= e] is integral already; otherwise [|x| < 2^53] and the ceiling is
    computed on the integer quotient. A negative [x] above [-1] gives [-0]. *)
Definition Math_ceil (x : number) : number :=
  match Prim2SF x with
  | S754_finite s m e =>
      if (0 <=? e)%Z then x
      else
        let d := (2 ^ (- e))%Z in
        let q := (Z.pos m / d)%Z in
        let r := (Z.pos m mod d)%Z in
        if s then (if (q =? 0)%Z then neg_zero else of_Z (- q))
        else of_Z (if (r =? 0)%Z then q else q + 1)
  | _ => x
  end.

(** JSON values, as [JSON.parse] builds them and [JSON.stringify] prints
    them. Object fields keep their order. *)
Inductive json : Type :=
  | JNull
  | JBool (b : bool)
  | JNum (x : number)
  | JStr (s : string)
  | JArr (items : list json)
  | JObj (fields : list (string * json)).

(** Property access [o.k] and index access [a[i]] on a JSON value; [None] is
    [undefined]. *)
Fixpoint assoc (k : string) (fields : list (string * json)) : option json :=
  match fields with
  | [] => None
  | (k', v) :: rest => if String.eqb k k' then Some v else assoc k rest
  end.

Definition get_field (k : string) (j : json) : option json :=
  match j with
  | JObj fields => assoc k fields
  | _ => None
  end.

Definition get_index (i : nat) (j : json) : option json :=
  match j with
  | JArr items => nth_error items i
  | _ => None
  end.

(** The names of the fields of an object, in order. *)
Definition field_names (j : json) : list string :=
  match j with
  | JObj fields => map fst fields
  | _ => []
  end.

(** What a call either returns or throws. *)
Inductive outcome (A : Type) : Type :=
  | Returns (a : A)
  | Throws (message : string).
Arguments Returns {A} a.
Arguments Throws {A} message.

(** The built-ins of the JavaScript runtime that the program calls and that
    are not part of it. [JSON_parse s = None] stands for a thrown
    SyntaxError. [Number_toString] is [String(n)]. *)
Class Builtins : Type := {
  JSON_parse : string -> option json;
  JSON_stringify : json -> string;
  Number_toString : number -> string;
}.

End JS.


(** ** The runtime entry point (the tai-x402 command): balance to agent state *)

Module State.

(** The values of [AgentState] that the entry point assigns from a balance.
    The normal tier of the documentation is the state ["running"]. *)
Inductive AgentState : Type :=
  | running
  | low_compute
  | critical
  | dead.

(** Rank of a state by distress: [running] is the best, [dead] the worst. *)
Definition distress (s : AgentState) : nat :=
  match s with
  | running => 0
  | low_compute => 1
  | critical => 2
  | dead => 3
  end.

End State.

Module Runtime.

Import JS.
Export State.

(** [config.survivalThresholds], in USDC. *)
Record SurvivalThresholds : Type := {
  normal : number;
  lowCompute : number;
  critical : number;
}.

(** [DEFAULT_CONFIG.survivalThresholds] of tai-config.ts. *)
Definition DEFAULT_survivalThresholds : SurvivalThresholds :=
  {| normal := 10; lowCompute := 5; critical := 1 |}.

(** The status computed by [showBalance]: it starts as ["dead"] and is raised
    by the first threshold, from the top, that the balance reaches. *)
Definition showBalance_status (balance : number) (t : SurvivalThresholds)
  : AgentState :=
  if ge balance (normal t) then running
  else if ge balance (lowCompute t) then low_compute
  else if ge balance (critical t) then State.critical
  else dead.

(** The initial state computed by [run]: it starts as ["running"] and is
    lowered by the first threshold, from the bottom, that the balance misses. *)
Definition run_initialState (balance : number) (t : SurvivalThresholds)
  : AgentState :=
  if lt balance (critical t) then dead
  else if lt balance (lowCompute t) then State.critical
  else if lt balance (normal t) then low_compute
  else running.

(** What [run] does with the state before the agent loop starts: it exits
    when dead and switches the inference client to low-compute mode in the
    two degraded states. *)
Record Boot : Type := {
  initialState : AgentState;
  exits : bool;
  lowComputeMode : bool;
}.

Definition run_boot (balance : number) (t : SurvivalThresholds) : Boot :=
  match run_initialState balance t with
  | dead => {| initialState := dead; exits := true; lowComputeMode := false |}
  | State.critical =>
      {| initialState := State.critical; exits := false; lowComputeMode := true |}
  | low_compute =>
      {| initialState := low_compute; exits := false; lowComputeMode := true |}
  | running =>
      {| initialState := running; exits := false; lowComputeMode := false |}
  end.

(** The thresholds are ordered as the configuration documents them:
    normal above lowCompute above critical, and critical not negative. *)
Definition ordered (t : SurvivalThresholds) : Prop :=
  gt (normal t) (lowCompute t) = true /\
  gt (lowCompute t) (critical t) = true /\
  ge (critical t) 0 = true.

(** The thresholds do not increase from normal to lowCompute to critical. *)
Definition descending (t : SurvivalThresholds) : Prop :=
  ge (normal t) (lowCompute t) = true /\
  ge (lowCompute t) (critical t) = true.

End Runtime.

(** ** Shared types (the shapes the code reads and builds; types.ts) *)

Module Types.

Import JS.

Record ToolFunction : Type := {
  fn_name : string;
  fn_arguments : string;
}.

(** [InferenceToolCall]: [type] is always ["function"]. *)
Record InferenceToolCall : Type := {
  call_id : string;
  call_function : ToolFunction;
}.

(** [InferenceToolDefinition], of which the code reads [function.name],
    [function.description] and [function.parameters]. *)
Record InferenceToolDefinition : Type := {
  def_name : string;
  def_description : string;
  def_parameters : json;
}.

(** [ChatMessage]. The role is a string at run time; the code tests it
    against ["system"] and ["assistant"]. *)
Record ChatMessage : Type := {
  role : string;
  content : string;
  name : option string;
  tool_calls : option (list InferenceToolCall);
  tool_call_id : option string;
}.

Record TokenUsage : Type := {
  promptTokens : number;
  completionTokens : number;
  totalTokens : number;
}.

Record ResponseMessage : Type := {
  msg_role : string;
  msg_content : string;
  msg_tool_calls : option (list InferenceToolCall);
}.

Record InferenceResponse : Type := {
  id : string;
  model : string;
  message : ResponseMessage;
  toolCalls : option (list InferenceToolCall);
  usage : TokenUsage;
  finishReason : string;
}.

(** What [httpClient.request] resolves to: [ok], [status], the body as text
    ([resp.text()]) and the body decoded ([resp.json()], which may throw). *)
Record HttpResponse (D : Type) : Type := {
  ok : bool;
  status : number;
  text : string;
  json_body : outcome D;
}.
Arguments ok {D} _.
Arguments status {D} _.
Arguments text {D} _.
Arguments json_body {D} _.

End Types.

(** ** The inference client (inference/providers.ts) *)

Module Providers.

Import JS Types.

Record ProviderConfig : Type := {
  name : string;
  apiUrl : string;
  apiKey : string;
  defaultModel : string;
  maxTokens : option number;
}.

Record InferenceProviders : Type := {
  deepseek : option ProviderConfig;
  tongyi : option ProviderConfig;
  openai : option ProviderConfig;
  anthropic : option ProviderConfig;
  custom : option ProviderConfig;
}.

(** [a || b] on possibly missing objects: an object is always truthy. *)
Definition or_else {A : Type} (a b : option A) : option A :=
  match a with
  | Some _ => a
  | None => b
  end.

(** The mutable variables of the closure that [createMultiProviderClient]
    returns: [currentProvider], [currentModel] and [maxTokens]. *)
Module Closure.
Record t : Type := {
  currentProvider : ProviderConfig;
  currentModel : string;
  maxTokens : number;
}.
End Closure.

(** The constants the closure captures. *)
Record Client : Type := {
  providers : InferenceProviders;
  primaryProvider : ProviderConfig;
}.

(** The state right after construction. *)
Definition initial (primary : ProviderConfig) : Closure.t :=
  {| Closure.currentProvider := primary;
     Closure.currentModel := defaultModel primary;
     Closure.maxTokens := or_number (maxTokens primary) 4096 |}.

(** [createMultiProviderClient]: the primary provider is the first one
    configured, in the order deepseek, tongyi, openai, anthropic, custom;
    construction throws when there is none. *)
Definition createMultiProviderClient (p : InferenceProviders)
  : outcome (Client * Closure.t) :=
  match or_else (deepseek p)
          (or_else (tongyi p)
             (or_else (openai p) (or_else (anthropic p) (custom p)))) with
  | None => Throws "No inference provider configured"
  | Some primary =>
      Returns ({| providers := p; primaryProvider := primary |}, initial primary)
  end.

(** [setLowComputeMode(enabled)]. *)
Definition setLowComputeMode (c : Client) (enabled : bool) (s : Closure.t)
  : Closure.t :=
  if enabled then
    let s1 :=
      match deepseek (providers c) with
      | Some d =>
          {| Closure.currentProvider := d;
             Closure.currentModel := "deepseek-chat";
             Closure.maxTokens := Closure.maxTokens s |}
      | None =>
          match tongyi (providers c) with
          | Some q =>
              {| Closure.currentProvider := q;
                 Closure.currentModel := "qwen-turbo";
                 Closure.maxTokens := Closure.maxTokens s |}
          | None => s
          end
      end in
    {| Closure.currentProvider := Closure.currentProvider s1;
       Closure.currentModel := Closure.currentModel s1;
       Closure.maxTokens := 2048 |}
  else
    {| Closure.currentProvider := primaryProvider c;
       Closure.currentModel := defaultModel (primaryProvider c);
       Closure.maxTokens := or_number (maxTokens (primaryProvider c)) 4096 |}.

(** [getDefaultModel()]. *)
Definition getDefaultModel (s : Closure.t) : string := Closure.currentModel s.

(** The states the closure can be in: the one after construction and those
    reached from it by calls of [setLowComputeMode], the only writer. *)
Inductive reachable (c : Client) : Closure.t -> Prop :=
  | reach_initial : reachable c (initial (primaryProvider c))
  | reach_set (enabled : bool) (s : Closure.t) :
      reachable c s -> reachable c (setLowComputeMode c enabled s).

(** *** The OpenAI-compatible wire format *)

Module OpenAI.

Record Usage : Type := {
  prompt_tokens : option number;
  completion_tokens : option number;
  total_tokens : option number;
}.

Record ToolCall : Type := {
  tc_id : string;
  tc_name : string;
  tc_arguments : string;
}.

Record Message : Type := {
  role : string;
  content : option string;
  tool_calls : option (list ToolCall);
}.

Record Choice : Type := {
  message : Message;
  finish_reason : option string;
}.

(** The decoded body of a response ([data]). *)
Record Data : Type := {
  id : option string;
  model : option string;
  choices : option (list Choice);
  usage : option Usage;
}.

(** A message as [formatMessage] sends it: the optional fields are present
    only when they are truthy. *)
Record Formatted : Type := {
  f_role : string;
  f_content : string;
  f_name : option string;
  f_tool_calls : option (list InferenceToolCall);
  f_tool_call_id : option string;
}.

(** The request body; [stream] is always [false] and [tool_choice] is
    ["auto"] exactly when [tools] is present. *)
Record Body : Type := {
  body_model : string;
  messages : list Formatted;
  max_tokens : number;
  temperature : option number;
  tools : option (list InferenceToolDefinition);
}.

End OpenAI.

Record OpenAiParams : Type := {
  o_model : string;
  o_messages : list ChatMessage;
  o_tools : option (list InferenceToolDefinition);
  o_temperature : option number;
  o_maxTokens : number;
  o_apiUrl : string;
  o_apiKey : string;
}.

Definition formatMessage (msg : ChatMessage) : OpenAI.Formatted :=
  {| OpenAI.f_role := Types.role msg;
     OpenAI.f_content := Types.content msg;
     OpenAI.f_name := or_null (Types.name msg);
     OpenAI.f_tool_calls := Types.tool_calls msg;
     OpenAI.f_tool_call_id := or_null (Types.tool_call_id msg) |}.

Definition openai_body (params : OpenAiParams) : OpenAI.Body :=
  {| OpenAI.body_model := o_model params;
     OpenAI.messages := map formatMessage (o_messages params);
     OpenAI.max_tokens := o_maxTokens params;
     OpenAI.temperature := o_temperature params;
     OpenAI.tools :=
       match o_tools params with
       | Some (t :: ts) => Some (t :: ts)
       | _ => None
       end |}.

(** The token usage reported on the OpenAI-compatible path: each of the three
    fields is the one of the response, or [0] when it is missing or falsy. *)
Definition openai_usage (u : option OpenAI.Usage) : TokenUsage :=
  {| promptTokens := or_number (u ≫= OpenAI.prompt_tokens) 0;
     completionTokens := or_number (u ≫= OpenAI.completion_tokens) 0;
     totalTokens := or_number (u ≫= OpenAI.total_tokens) 0 |}.

Definition openai_tool_call (tc : OpenAI.ToolCall) : InferenceToolCall :=
  {| call_id := OpenAI.tc_id tc;
     call_function :=
       {| fn_name := OpenAI.tc_name tc; fn_arguments := OpenAI.tc_arguments tc |} |}.

(** [data.choices?.[0]]. *)
Definition first_choice (data : OpenAI.Data) : option OpenAI.Choice :=
  OpenAI.choices data ≫= head.

(** What [chatViaOpenAiCompatible] returns for a decoded response body; it
    throws when there is no first choice. *)
Definition openai_result (params : OpenAiParams) (data : OpenAI.Data)
  : outcome InferenceResponse :=
  match first_choice data with
  | None => Throws "No completion choice returned from inference"
  | Some choice =>
      let message := OpenAI.message choice in
      let toolCalls := map openai_tool_call <$> OpenAI.tool_calls message in
      Returns
        {| Types.id := or_string (OpenAI.id data) "";
           Types.model := or_string (OpenAI.model data) (o_model params);
           Types.message :=
             {| msg_role := OpenAI.role message;
                msg_content := or_string (OpenAI.content message) "";
                msg_tool_calls := toolCalls |};
           Types.toolCalls := toolCalls;
           Types.usage := openai_usage (OpenAI.usage data);
           finishReason := or_string (OpenAI.finish_reason choice) "stop" |}
  end.

Section OpenAiWithBuiltins.

Context {rt : Builtins}.

(** [chatViaOpenAiCompatible]. *)
Definition chatViaOpenAiCompatible
  (request : string -> string -> OpenAI.Body -> outcome (HttpResponse OpenAI.Data))
  (params : OpenAiParams) : outcome InferenceResponse :=
  match request (o_apiUrl params +:+ "/v1/chat/completions") (o_apiKey params)
          (openai_body params) with
  | Throws e => Throws e
  | Returns resp =>
      if negb (ok resp) then
        Throws ("Inference error: " +:+ Number_toString (status resp) +:+ ": "
                  +:+ text resp)
      else
        match json_body resp with
        | Throws e => Throws e
        | Returns data => openai_result params data
        end
  end.

End OpenAiWithBuiltins.

(** *** The Anthropic wire format *)

Module Anthropic.

(** A content block of a response: text, a tool use, or anything else. *)
Inductive Block : Type :=
  | text_block (text : string)
  | tool_use_block (id name : string) (input : json)
  | other_block.

Record Usage : Type := {
  input_tokens : option number;
  output_tokens : option number;
}.

(** The decoded body of a response ([data]). *)
Record Data : Type := {
  id : option string;
  model : option string;
  content : option (list Block);
  usage : option Usage;
  stop_reason : option string;
}.

Record Tool : Type := {
  name : string;
  description : string;
  input_schema : json;
}.

Record Message : Type := {
  role : string;
  content_ : string;
}.

(** The request body. *)
Record Body : Type := {
  body_model : string;
  max_tokens : number;
  messages : list Message;
  system : option string;
  temperature : option number;
  tools : option (list Tool);
}.

End Anthropic.

Record AnthropicParams : Type := {
  a_model : string;
  a_tokenLimit : number;
  a_messages : list ChatMessage;
  a_tools : option (list InferenceToolDefinition);
  a_temperature : option number;
  a_apiKey : string;
}.

(** The loop that splits the transcript: the contents of the system
    messages are accumulated into [systemPrompt], with a newline put in front
    of an entry when the accumulator is not empty; the other messages are
    pushed on [nonSystemMessages]. *)
Definition split_step (acc : string * list ChatMessage) (msg : ChatMessage)
  : string * list ChatMessage :=
  let (systemPrompt, nonSystemMessages) := acc in
  if String.eqb (Types.role msg) "system" then
    (systemPrompt +:+
       ((if truthy_string systemPrompt then newline else "") +:+ Types.content msg),
     nonSystemMessages)
  else (systemPrompt, nonSystemMessages ++ [msg]).

Definition split_messages (msgs : list ChatMessage) : string * list ChatMessage :=
  fold_left split_step msgs ("", []).

(** The role sent for a message that is not a system message. *)
Definition anthropic_message (msg : ChatMessage) : Anthropic.Message :=
  {| Anthropic.role :=
       if String.eqb (Types.role msg) "assistant" then "assistant" else "user";
     Anthropic.content_ := Types.content msg |}.

Definition anthropic_tool (t : InferenceToolDefinition) : Anthropic.Tool :=
  {| Anthropic.name := def_name t;
     Anthropic.description := def_description t;
     Anthropic.input_schema := def_parameters t |}.

(** The request body built by [chatViaAnthropic]. *)
Definition anthropic_body (params : AnthropicParams) : Anthropic.Body :=
  let (systemPrompt, nonSystemMessages) := split_messages (a_messages params) in
  {| Anthropic.body_model := a_model params;
     Anthropic.max_tokens := a_tokenLimit params;
     Anthropic.messages := map anthropic_message nonSystemMessages;
     Anthropic.system :=
       if truthy_string systemPrompt then Some systemPrompt else None;
     Anthropic.temperature := a_temperature params;
     Anthropic.tools :=
       match a_tools params with
       | Some (t :: ts) => Some (map anthropic_tool (t :: ts))
       | _ => None
       end |}.

Section AnthropicWithBuiltins.

Context {rt : Builtins}.

(** The loop over the content blocks of a response. *)
Definition block_step (acc : string * list InferenceToolCall)
  (block : Anthropic.Block) : string * list InferenceToolCall :=
  let (content, toolCalls) := acc in
  match block with
  | Anthropic.text_block t => (content +:+ t, toolCalls)
  | Anthropic.tool_use_block i n input =>
      (content,
       toolCalls ++
         [{| call_id := i;
             call_function :=
               {| fn_name := n; fn_arguments := JSON_stringify input |} |}])
  | Anthropic.other_block => (content, toolCalls)
  end.

(** [toolCalls.length > 0 ? toolCalls : undefined]. *)
Definition non_empty {A : Type} (l : list A) : option (list A) :=
  match l with
  | [] => None
  | _ :: _ => Some l
  end.

(** The token usage reported on the Anthropic path. *)
Definition anthropic_usage (u : option Anthropic.Usage) : TokenUsage :=
  let input := or_number (u ≫= Anthropic.input_tokens) 0 in
  let output := or_number (u ≫= Anthropic.output_tokens) 0 in
  {| promptTokens := input;
     completionTokens := output;
     totalTokens := (input + output)%float |}.

(** What [chatViaAnthropic] returns for a decoded response body. *)
Definition anthropic_result (params : AnthropicParams) (data : Anthropic.Data)
  : InferenceResponse :=
  let (content, toolCalls) :=
    fold_left block_step (default [] (Anthropic.content data)) ("", []) in
  {| Types.id := or_string (Anthropic.id data) "";
     Types.model := or_string (Anthropic.model data) (a_model params);
     message :=
       {| msg_role := "assistant";
          msg_content := content;
          msg_tool_calls := non_empty toolCalls |};
     toolCalls := non_empty toolCalls;
     Types.usage := anthropic_usage (Anthropic.usage data);
     finishReason := or_string (Anthropic.stop_reason data) "stop" |}.

(** [chatViaAnthropic]: [request] is the call of the HTTP client with the
    URL, the key put in the headers and the body; it may throw. A response
    that is not ok is thrown as an error that carries the status and the body
    text. *)
Definition chatViaAnthropic
  (request : string -> string -> Anthropic.Body
             -> outcome (HttpResponse Anthropic.Data))
  (params : AnthropicParams) : outcome InferenceResponse :=
  match request "https://api.anthropic.com/v1/messages" (a_apiKey params)
          (anthropic_body params) with
  | Throws e => Throws e
  | Returns resp =>
      if negb (ok resp) then
        Throws ("Anthropic error: " +:+ Number_toString (status resp) +:+ ": "
                  +:+ text resp)
      else
        match json_body resp with
        | Throws e => Throws e
        | Returns data => Returns (anthropic_result params data)
        end
  end.

End AnthropicWithBuiltins.

(** *** Routing a call *)

(** [toLowerCase], on the letters A to Z. *)
Definition lower_char (c : ascii) : ascii :=
  let n := nat_of_ascii c in
  if (65 <=? n)%nat && (n <=? 90)%nat then ascii_of_nat (n + 32) else c.

Fixpoint toLowerCase (s : string) : string :=
  match s with
  | EmptyString => EmptyString
  | String c rest => String (lower_char c) (toLowerCase rest)
  end.

(** [s.includes(sub)]. *)
Fixpoint includes (s sub : string) : bool :=
  String.prefix sub s ||
  match s with
  | EmptyString => false
  | String _ rest => includes rest sub
  end.

(** [cond && provider]: the provider when the model name matches and the
    provider is configured. *)
Definition when (cond : bool) (p : option ProviderConfig) : option ProviderConfig :=
  if cond then p else None.

Definition resolveProvider (model : string) (p : InferenceProviders)
  : option ProviderConfig :=
  let lowerModel := toLowerCase model in
  or_else (when (includes lowerModel "deepseek") (deepseek p))
    (or_else (when (includes lowerModel "qwen" || includes lowerModel "tongyi")
                (tongyi p))
       (or_else (when (includes lowerModel "claude") (anthropic p))
          (when (includes lowerModel "gpt" || includes lowerModel "o1"
                 || includes lowerModel "o3")
             (openai p)))).

Record InferenceOptions : Type := {
  opt_model : option string;
  opt_maxTokens : option number;
  opt_tools : option (list InferenceToolDefinition);
  opt_temperature : option number;
}.

Section Chat.

Context {rt : Builtins}.

(** [chat(messages, opts)]: the model is the one asked for or the current
    one, the provider the one that owns the model name or the current one,
    for this call only. *)
Definition chat
  (requestOpenAi : string -> string -> OpenAI.Body
                   -> outcome (HttpResponse OpenAI.Data))
  (requestAnthropic : string -> string -> Anthropic.Body
                      -> outcome (HttpResponse Anthropic.Data))
  (c : Client) (s : Closure.t)
  (messages : list ChatMessage) (opts : option InferenceOptions)
  : outcome InferenceResponse :=
  let model := or_string (opts ≫= opt_model) (Closure.currentModel s) in
  let provider :=
    default (Closure.currentProvider s) (resolveProvider model (providers c)) in
  let limit := or_number (opts ≫= opt_maxTokens) (Closure.maxTokens s) in
  if String.eqb (name provider) "anthropic" then
    chatViaAnthropic requestAnthropic
      {| a_model := model;
         a_tokenLimit := limit;
         a_messages := messages;
         a_tools := opts ≫= opt_tools;
         a_temperature := opts ≫= opt_temperature;
         a_apiKey := apiKey provider |}
  else
    chatViaOpenAiCompatible requestOpenAi
      {| o_model := model;
         o_messages := messages;
         o_tools := opts ≫= opt_tools;
         o_temperature := opts ≫= opt_temperature;
         o_maxTokens := limit;
         o_apiUrl := apiUrl provider;
         o_apiKey := apiKey provider |}.

End Chat.

End Providers.

(** ** Calls that may throw, over a store

    An asynchronous function of the program is a computation that reads and
    writes a store and either returns or throws; [try_catch] is
    [try { ... } catch { ... }], which keeps the writes made before the
    throw. *)

Module Eff.

Import JS.

Definition M (S A : Type) : Type := S -> outcome A * S.

Definition ret {S A : Type} (a : A) : M S A := fun s => (Returns a, s).

Definition throw {S A : Type} (e : string) : M S A := fun s => (Throws e, s).

Definition bind {S A B : Type} (m : M S A) (k : A -> M S B) : M S B :=
  fun s =>
    match m s with
    | (Returns a, s') => k a s'
    | (Throws e, s') => (Throws e, s')
    end.

Definition try_catch {S A : Type} (body : M S A) (handler : string -> M S A)
  : M S A :=
  fun s =>
    match body s with
    | (Returns a, s') => (Returns a, s')
    | (Throws e, s') => handler e s'
    end.

(** Awaiting a call whose result the environment decides. *)
Definition await {S A : Type} (o : outcome A) : M S A := fun s => (o, s).

Definition get {S : Type} : M S S := fun s => (Returns s, s).

Definition modify {S : Type} (f : S -> S) : M S unit := fun s => (Returns tt, f s).

Declare Scope eff_scope.
Delimit Scope eff_scope with eff.

Notation "x <- c1 ;; c2" := (bind c1 (fun x => c2))
  (at level 100, c1 at next level, right associativity) : eff_scope.
Notation "c1 ;; c2" := (bind c1 (fun _ => c2))
  (at level 100, right associativity) : eff_scope.

End Eff.

(** ** The resource monitor ([checkResources]) *)

Module Monitor.

Import JS Eff.
Local Open Scope eff_scope.

(** [SurvivalTier] is a union of string literals: a string at run time. *)
Abbreviation SurvivalTier := string.

Record FinancialState : Type := {
  creditsCents : number;
  usdcBalance : number;
  lastChecked : string;
}.

Record ResourceStatus : Type := {
  financial : FinancialState;
  tier : SurvivalTier;
  previousTier : option SurvivalTier;
  tierChanged : bool;
  sandboxHealthy : bool;
}.

(** What the collaborators answer during one call: the credits balance, the
    USDC balance, the exit code of [conway.exec("echo ok", 5000)], each of
    which may throw instead, and the clock. *)
Record Probes : Type := {
  getCreditsBalance : outcome number;
  getUsdcBalance : outcome number;
  exec_exitCode : outcome number;
  now : string;
}.

(** The key-value table of the database; its reads and writes are taken to
    succeed. *)
Abbreviation KV := (gmap string string).

Definition getKV (key : string) : M KV (option string) :=
  fun db => (Returns (db !! key), db).

Definition setKV (key value : string) : M KV unit :=
  modify (fun db => <[key := value]> db).

Definition financial_json (f : FinancialState) : json :=
  JObj [("creditsCents", JNum (creditsCents f));
        ("usdcBalance", JNum (usdcBalance f));
        ("lastChecked", JStr (lastChecked f))].

Section CheckResources.

Context {rt : Builtins}.

(** [getSurvivalTier] of conway/credits.ts, a module that is not modelled:
    any function from a credits balance to a tier. *)
Variable getSurvivalTier : number -> SurvivalTier.

(** [previousTier !== null && previousTier !== tier]. *)
Definition tier_changed (previousTier : option SurvivalTier) (tier : SurvivalTier)
  : bool :=
  match previousTier with
  | None => false
  | Some p => negb (String.eqb p tier)
  end.

(** [checkResources]. *)
Definition checkResources (env : Probes) : M KV ResourceStatus :=
  creditsCents <- try_catch (await (getCreditsBalance env)) (fun _ => ret 0%float);;
  usdcBalance <- try_catch (await (getUsdcBalance env)) (fun _ => ret 0%float);;
  sandboxHealthy <-
    try_catch (exitCode <- await (exec_exitCode env);;
               ret (exitCode =? 0)%float)
              (fun _ => ret false);;
  let financial :=
    {| creditsCents := creditsCents;
       usdcBalance := usdcBalance;
       lastChecked := now env |} in
  let tier := getSurvivalTier creditsCents in
  prevTierStr <- getKV "current_tier";;
  let previousTier := or_null prevTierStr in
  let tierChanged := tier_changed previousTier tier in
  setKV "current_tier" tier;;
  setKV "financial_state" (JSON_stringify (financial_json financial));;
  ret {| financial := financial;
         tier := tier;
         previousTier := previousTier;
         tierChanged := tierChanged;
         sandboxHealthy := sandboxHealthy |}.

End CheckResources.

End Monitor.

(** ** The revenue module ([createRevenueServer], [RevenueTracker]) *)

Module Revenue.

Import JS Eff.
Local Open Scope eff_scope.

Inductive Network : Type :=
  | base
  | base_sepolia.

Definition network_name (n : Network) : string :=
  match n with
  | base => "base"
  | base_sepolia => "base-sepolia"
  end.

(** [USDC_ADDRESSES[network]]. *)
Definition USDC_ADDRESSES (n : Network) : string :=
  match n with
  | base => "0x833589fCD6eDb6E08f4c7C32D4f71b54bdA02913"
  | base_sepolia => "0x036CbD53842c5426634e7929541eC2318f3dCF7e"
  end.

(** [network === "base-sepolia" ? "eip155:84532" : "eip155:8453"]. *)
Definition caip2 (n : Network) : string :=
  match n with
  | base_sepolia => "eip155:84532"
  | base => "eip155:8453"
  end.

(** What the server reads of a request: the path of its URL, the value of the
    [x-payment] header when there is one, and what reading the body to its
    end gives. *)
Record Request : Type := {
  pathname : string;
  x_payment : option string;
  read_body : outcome string;
}.

(** A service of the catalogue. Its handler is given the request and the
    body; what it does outside the server (the inference call) shows in what
    it returns or throws. *)
Record ServiceConfig : Type := {
  path : string;
  description : string;
  priceUsdc : number;
  handler : Request -> string -> outcome string;
}.

(** [RevenueConfig]; the [account] field is not read by the server. *)
Record RevenueConfig : Type := {
  port : number;
  network : Network;
  walletAddress : string;
  services : list ServiceConfig;
}.

(** What [res.writeHead] and [res.end] send. *)
Record Response : Type := {
  status : Z;
  headers : list (string * string);
  body : string;
}.

(** *** The revenue tracker *)

Record RevenueTracker : Type := {
  earnings : gmap string number;
  totalEarnings : number;
}.

Definition new_tracker : RevenueTracker :=
  {| earnings := ∅; totalEarnings := 0 |}.

Definition recordEarning (service : string) (amount : number)
  (t : RevenueTracker) : RevenueTracker :=
  let current := or_number (earnings t !! service) 0 in
  {| earnings := <[service := (current + amount)%float]> (earnings t);
     totalEarnings := (totalEarnings t + amount)%float |}.

Definition getEarnings (t : RevenueTracker) : gmap string number * number :=
  (earnings t, totalEarnings t).

(** *** The request handler *)

(** What a run of the request handler leaves behind besides the response:
    the lines it logs and the calls of service handlers it makes. *)
Inductive Event : Type :=
  | PaymentReceived (payment : json)
  | PaymentVerificationFailed (message : string)
  | HandlerInvoked (path body : string).

(** The state of the process around the server: the tracker of the module,
    to which the request handler holds no reference, and the events so far. *)
Record Process : Type := {
  tracker : RevenueTracker;
  events : list Event;
}.

Definition emit (e : Event) : M Process unit :=
  modify (fun p => {| tracker := tracker p; events := events p ++ [e] |}).

Definition content_type_json : string * string :=
  ("Content-Type", "application/json").

(** The value of a header of a response. *)
Fixpoint assoc_header (k : string) (hs : list (string * string)) : option string :=
  match hs with
  | [] => None
  | (k', v) :: rest => if String.eqb k k' then Some v else assoc_header k rest
  end.

Section Server.

Context {rt : Builtins}.

(** [JSON.parse], which throws on a text that is not JSON. *)
Definition parse (s : string) : M Process json :=
  match JSON_parse s with
  | Some j => ret j
  | None => throw "SyntaxError"
  end.

(** The payment challenge sent in the [X-Payment-Required] header. *)
Definition challenge (config : RevenueConfig) (service : ServiceConfig) : json :=
  JObj [("x402Version", JNum 1);
        ("accepts",
         JArr [JObj [("scheme", JStr "exact");
                     ("network", JStr (caip2 (network config)));
                     ("maxAmountRequired",
                      JStr (Number_toString
                              (Math_ceil (priceUsdc service * 1000000)%float)));
                     ("payToAddress", JStr (walletAddress config));
                     ("requiredDeadlineSeconds", JNum 300);
                     ("usdcAddress", JStr (USDC_ADDRESSES (network config)))]])].

(** The body sent with status 402. *)
Definition payment_required_body (config : RevenueConfig)
  (service : ServiceConfig) : json :=
  JObj [("error", JStr "Payment required");
        ("price", JNum (priceUsdc service));
        ("currency", JStr "USDC");
        ("payTo", JStr (walletAddress config));
        ("network", JStr (network_name (network config)))].

Definition services_body (config : RevenueConfig) : json :=
  JObj [("services",
         JArr (map (fun s => JObj [("path", JStr (path s));
                                   ("description", JStr (description s));
                                   ("priceUsdc", JNum (priceUsdc s))])
                   (services config)));
        ("paymentAddress", JStr (walletAddress config));
        ("network", JStr (network_name (network config)))].

Definition send (code : Z) (extra : list (string * string)) (payload : json)
  : Response :=
  {| status := code;
     headers := content_type_json :: extra;
     body := JSON_stringify payload |}.

(** The paid branch: the [try] block and its [catch]. *)
Definition paid (service : ServiceConfig) (req : Request) (paymentHeader : string)
  : M Process Response :=
  try_catch
    (payment <- parse paymentHeader;;
     emit (PaymentReceived payment);;
     body <- await (read_body req);;
     emit (HandlerInvoked (path service) body);;
     result <- await (handler service req body);;
     ret (send 200 [] (JObj [("result", JStr result)])))
    (fun message =>
       emit (PaymentVerificationFailed message);;
       ret (send 400 [] (JObj [("error", JStr "Invalid payment")]))).

(** The request listener of [createRevenueServer]. *)
Definition handle (config : RevenueConfig) (req : Request) : M Process Response :=
  let service :=
    find (fun s => String.eqb (path s) (pathname req)) (services config) in
  if String.eqb (pathname req) "/health" then
    ret (send 200 []
           (JObj [("status", JStr "ok");
                  ("services", JNum (of_Z (Z.of_nat (length (services config)))))]))
  else if String.eqb (pathname req) "/services" then
    ret (send 200 [] (services_body config))
  else
    match service with
    | None => ret (send 404 [] (JObj [("error", JStr "Service not found")]))
    | Some service =>
        match or_null (x_payment req) with
        | None =>
            ret (send 402
                   [("X-Payment-Required", JSON_stringify (challenge config service))]
                   (payment_required_body config service))
        | Some paymentHeader => paid service req paymentHeader
        end
    end.

End Server.

End Revenue.

(** ** A reference runtime

    An executable reading of the three built-ins, used to run the program on
    concrete requests. Strings are byte strings that hold UTF-8; escapes
    above U+007F are decoded to UTF-8, and the fields of a parsed object stay
    in the order of the text. *)

Module Reference.

Import JS.
Local Open Scope Z_scope.

(** *** Number::toString *)

(** The decimal digits of a natural number, most significant first. *)
Fixpoint digits_go (fuel : nat) (n : Z) (acc : string) : string :=
  match fuel with
  | O => acc
  | S fuel' =>
      let acc' := String (ascii_of_nat (48 + Z.to_nat (n mod 10))) acc in
      if n <? 10 then acc' else digits_go fuel' (n / 10) acc'
  end.

Definition digits (n : Z) : string :=
  digits_go (S (Z.to_nat (Z.log2 n))) n "".

Definition repeat_zero (n : Z) : string :=
  fold_right (fun _ s => String "0" s) "" (seq 0 (Z.to_nat n)).

(** A positive rational, as numerator and denominator. *)
Definition ratio : Type := Z * Z.

(** [s * 10^q] compared with [num / den]. *)
Definition cmp_dec (s q : Z) (r : ratio) : comparison :=
  let (num, den) := r in
  if 0 <=? q then (s * 10 ^ q * den ?= num) else (s * den ?= num * 10 ^ (- q)).

(** [floor (r / 10^q)]. *)
Definition floor_dec (q : Z) (r : ratio) : Z :=
  let (num, den) := r in
  if 0 <=? q then num / (den * 10 ^ q) else (num * 10 ^ (- q)) / den.

Definition scale (n e : Z) : ratio :=
  if 0 <=? e then (n * 2 ^ e, 1) else (n, 2 ^ (- e)).

(** [p] with [10^p <= r < 10^(p+1)], found from an estimate by the binary
    logarithm. *)
Fixpoint lower (fuel : nat) (p : Z) (r : ratio) : Z :=
  match fuel with
  | O => p
  | S fuel' =>
      match cmp_dec 1 p r with
      | Gt => lower fuel' (p - 1) r
      | _ => p
      end
  end.

Fixpoint raise (fuel : nat) (p : Z) (r : ratio) : Z :=
  match fuel with
  | O => p
  | S fuel' =>
      match cmp_dec 1 (p + 1) r with
      | Gt => p
      | _ => raise fuel' (p + 1) r
      end
  end.

Definition log10_floor (r : ratio) : Z :=
  let (num, den) := r in
  let estimate := ((Z.log2 num - Z.log2 den) * 1233) / 4096 in
  raise 8 (lower 8 estimate r) r.

(** Whether the decimal [s * 10^q] converts to the double [m * 2^e]: it lies
    between the midpoints to the neighbouring doubles, which count when [m]
    is even. *)
Definition converts_to (m e s q : Z) : bool :=
  let narrow := (m =? 2 ^ 52) && (-1074 <? e) in
  let low := scale (if narrow then 4 * m - 1 else 4 * m - 2) (e - 2) in
  let high := scale (4 * m + 2) (e - 2) in
  let even := Z.even m in
  match cmp_dec s q low, cmp_dec s q high with
  | Gt, Lt => true
  | Eq, Lt => even
  | Gt, Eq => even
  | _, _ => false
  end.

(** Which of [a * 10^q] and [(a + 1) * 10^q] is nearer to [m * 2^e] (the
    even one on a tie): the sign of [2 x - (2 a + 1) 10^q]. *)
Definition nearer_upper (m e a q : Z) : bool :=
  match cmp_dec (2 * a + 1) q (scale (2 * m) e) with
  | Lt => true
  | Eq => Z.odd a
  | Gt => false
  end.

(** The shortest decimal [s * 10^q] that converts to [m * 2^e], tried with
    [k] digits, then [k + 1]. *)
Fixpoint shortest (fuel : nat) (k p m e : Z) : Z * Z :=
  let q := p - k + 1 in
  let a := floor_dec q (scale m e) in
  match fuel with
  | O => (a, q)
  | S fuel' =>
      let lo := converts_to m e a q in
      let hi := converts_to m e (a + 1) q in
      if lo && hi then (if nearer_upper m e a q then (a + 1, q) else (a, q))
      else if lo then (a, q)
      else if hi then (a + 1, q)
      else shortest fuel' (k + 1) p m e
  end.

(** Trailing zeros are moved to the exponent. *)
Fixpoint strip (fuel : nat) (s q : Z) : Z * Z :=
  match fuel with
  | O => (s, q)
  | S fuel' => if (s mod 10 =? 0) && (0 <? s) then strip fuel' (s / 10) (q + 1) else (s, q)
  end.

Definition take_str (n : Z) (s : string) : string :=
  String.substring 0 (Z.to_nat n) s.
Definition drop_str (n : Z) (s : string) : string :=
  String.substring (Z.to_nat n) (String.length s - Z.to_nat n) s.

(** Number::toString for a positive finite double [m * 2^e]. *)
Definition positive_toString (m e : Z) : string :=
  let p := log10_floor (scale m e) in
  let '(s0, q0) := shortest 17 1 p m e in
  let '(s, q) := strip 20 s0 q0 in
  let ds := digits s in
  let k := Z.of_nat (String.length ds) in
  let n := q + k in
  if (k <=? n) && (n <=? 21) then ds +:+ repeat_zero (n - k)
  else if (0 <? n) && (n <=? 21) then take_str n ds +:+ "." +:+ drop_str n ds
  else if (-6 <? n) && (n <=? 0) then "0." +:+ repeat_zero (- n) +:+ ds
  else
    let exponent :=
      (if 0 <=? n - 1 then "e+" else "e-") +:+ digits (Z.abs (n - 1)) in
    if k =? 1 then ds +:+ exponent
    else take_str 1 ds +:+ "." +:+ drop_str 1 ds +:+ exponent.

Definition number_toString (x : number) : string :=
  match Prim2SF x with
  | S754_nan => "NaN"
  | S754_zero _ => "0"
  | S754_infinity false => "Infinity"
  | S754_infinity true => "-Infinity"
  | S754_finite false m e => positive_toString (Zpos m) e
  | S754_finite true m e => "-" +:+ positive_toString (Zpos m) e
  end.


(** *** JSON.stringify *)

Definition dquote : ascii := ascii_of_nat 34.

Definition hex_digit (n : Z) : ascii :=
  ascii_of_nat (Z.to_nat (if n <? 10 then 48 + n else 87 + n)).

(** QuoteJSONString, on one character. *)
Definition escape (c : ascii) : string :=
  let n := Z.of_nat (nat_of_ascii c) in
  if n =? 34 then String "\"%char (String dquote "")
  else if n =? 92 then "\\"
  else if n =? 8 then "\b"
  else if n =? 12 then "\f"
  else if n =? 10 then "\n"
  else if n =? 13 then "\r"
  else if n =? 9 then "\t"
  else if n <? 32 then
    "\u00" +:+ String (hex_digit (n / 16)) (String (hex_digit (n mod 16)) "")
  else String c "".

Fixpoint escape_all (s : string) : string :=
  match s with
  | EmptyString => ""
  | String c rest => escape c +:+ escape_all rest
  end.

Definition quote (s : string) : string :=
  String dquote (escape_all s +:+ String dquote "").

Fixpoint stringify (j : json) : string :=
  match j with
  | JNull => "null"
  | JBool true => "true"
  | JBool false => "false"
  | JNum x => if is_finite x then number_toString x else "null"
  | JStr s => quote s
  | JArr items => "[" +:+ String.concat "," (map stringify items) +:+ "]"
  | JObj fields =>
      "{" +:+
      String.concat ","
        (map (fun kv => quote (fst kv) +:+ ":" +:+ stringify (snd kv)) fields)
      +:+ "}"
  end.

(** *** JSON.parse *)

(** The double nearest to [n * 10^q], negated when [neg]. *)
Definition decimal_to_number (neg : bool) (n q : Z) : number :=
  match n with
  | Zpos p =>
      if 0 <=? q then
        SF2Prim (binary_normalize prec emax
                   (if neg then - (n * 10 ^ q) else n * 10 ^ q) 0 false)
      else
        SF2Prim (SFdiv prec emax (S754_finite neg p 0)
                   (S754_finite false (Z.to_pos (10 ^ (- q))) 0))
  | _ => if neg then neg_zero else zero
  end.

Definition code (c : ascii) : Z := Z.of_nat (nat_of_ascii c).

Definition is_ws (c : ascii) : bool :=
  let n := code c in (n =? 32) || (n =? 9) || (n =? 10) || (n =? 13).

Definition is_digit (c : ascii) : bool :=
  let n := code c in (48 <=? n) && (n <=? 57).

Fixpoint skip_ws (s : string) : string :=
  match s with
  | String c rest => if is_ws c then skip_ws rest else s
  | EmptyString => s
  end.

Definition hex_value (c : ascii) : option Z :=
  let n := code c in
  if (48 <=? n) && (n <=? 57) then Some (n - 48)
  else if (97 <=? n) && (n <=? 102) then Some (n - 87)
  else if (65 <=? n) && (n <=? 70) then Some (n - 55)
  else None.

(** What a string literal holds: bytes of the text and code units given by
    [\u] escapes. *)
Inductive item : Type :=
  | raw (c : ascii)
  | unit16 (u : Z).

Definition simple_escape (c : ascii) : option ascii :=
  let n := code c in
  if n =? 34 then Some c
  else if n =? 92 then Some c
  else if n =? 47 then Some c
  else if n =? 98 then Some (ascii_of_nat 8)
  else if n =? 102 then Some (ascii_of_nat 12)
  else if n =? 110 then Some (ascii_of_nat 10)
  else if n =? 114 then Some (ascii_of_nat 13)
  else if n =? 116 then Some (ascii_of_nat 9)
  else None.

(** The items of a string literal whose opening quote has been read, and the
    text behind its closing quote. *)
Fixpoint literal (s : string) : option (list item * string) :=
  match s with
  | EmptyString => None
  | String c rest =>
      if code c =? 34 then Some ([], rest)
      else if code c =? 92 then
        match rest with
        | String e rest' =>
            if code e =? 117 then
              match rest' with
              | String h1 (String h2 (String h3 (String h4 rest''))) =>
                  match hex_value h1, hex_value h2, hex_value h3, hex_value h4,
                        literal rest'' with
                  | Some a, Some b, Some c', Some d, Some (items, behind) =>
                      Some (unit16 (((a * 16 + b) * 16 + c') * 16 + d) :: items,
                            behind)
                  | _, _, _, _, _ => None
                  end
              | _ => None
              end
            else
              match simple_escape e, literal rest' with
              | Some x, Some (items, behind) => Some (raw x :: items, behind)
              | _, _ => None
              end
        | EmptyString => None
        end
      else if code c <? 32 then None
      else
        match literal rest with
        | Some (items, behind) => Some (raw c :: items, behind)
        | None => None
        end
  end.

Definition byte (n : Z) : ascii := ascii_of_nat (Z.to_nat n).

(** UTF-8 of a code point. *)
Definition utf8 (cp : Z) : string :=
  if cp <? 128 then String (byte cp) ""
  else if cp <? 2048 then
    String (byte (192 + cp / 64)) (String (byte (128 + cp mod 64)) "")
  else if cp <? 65536 then
    String (byte (224 + cp / 4096))
      (String (byte (128 + (cp / 64) mod 64)) (String (byte (128 + cp mod 64)) ""))
  else
    String (byte (240 + cp / 262144))
      (String (byte (128 + (cp / 4096) mod 64))
         (String (byte (128 + (cp / 64) mod 64))
            (String (byte (128 + cp mod 64)) ""))).

(** The text of the items; a high surrogate followed by a low one is one code
    point. *)
Fixpoint text_of (items : list item) : string :=
  match items with
  | [] => ""
  | raw c :: rest => String c (text_of rest)
  | unit16 u :: rest =>
      match rest with
      | unit16 v :: rest' =>
          if (55296 <=? u) && (u <? 56320) && (56320 <=? v) && (v <? 57344)
          then utf8 (65536 + (u - 55296) * 1024 + (v - 56320)) +:+ text_of rest'
          else utf8 u +:+ text_of rest
      | _ => utf8 u +:+ text_of rest
      end
  end.

(** A run of digits: the number they add to [acc], how many there are, and
    the text behind them. *)
Fixpoint digit_run (s : string) (acc count : Z) : Z * Z * string :=
  match s with
  | String c rest =>
      if is_digit c then digit_run rest (acc * 10 + (code c - 48)) (count + 1)
      else (acc, count, s)
  | EmptyString => (acc, count, s)
  end.

(** A number: an optional minus, an integer part without a leading zero, an
    optional fraction and an optional exponent. *)
Definition number_literal (s : string) : option (number * string) :=
  let (neg, s1) :=
    match s with
    | String c rest => if code c =? 45 then (true, rest) else (false, s)
    | EmptyString => (false, s)
    end in
  let '(int, int_count, s2) := digit_run s1 0 0 in
  let leading_zero :=
    match s1 with
    | String c _ => (code c =? 48) && (1 <? int_count)
    | EmptyString => false
    end in
  if (int_count =? 0) || leading_zero then None
  else
    let frac :=
      match s2 with
      | String c rest =>
          if code c =? 46 then
            let '(n, count, s3) := digit_run rest int 0 in
            if count =? 0 then None else Some (n, count, s3)
          else Some (int, 0, s2)
      | EmptyString => Some (int, 0, s2)
      end in
    match frac with
    | None => None
    | Some (n, frac_count, s3) =>
        let exponent :=
          match s3 with
          | String c rest =>
              if (code c =? 101) || (code c =? 69) then
                let (eneg, s4) :=
                  match rest with
                  | String sign rest' =>
                      if code sign =? 45 then (true, rest')
                      else if code sign =? 43 then (false, rest')
                      else (false, rest)
                  | EmptyString => (false, rest)
                  end in
                let '(e, count, s5) := digit_run s4 0 0 in
                if count =? 0 then None
                else Some (if eneg then - e else e, s5)
              else Some (0, s3)
          | EmptyString => Some (0, s3)
          end in
        match exponent with
        | None => None
        | Some (e, behind) =>
            Some (decimal_to_number neg n (e - frac_count), behind)
        end
    end.

Fixpoint strip_prefix (p s : string) : option string :=
  match p, s with
  | EmptyString, _ => Some s
  | String a p', String b s' => if Ascii.eqb a b then strip_prefix p' s' else None
  | String _ _, EmptyString => None
  end.

(** A later field with the same key replaces the value of the earlier one. *)
Fixpoint set_field (k : string) (v : json) (fields : list (string * json))
  : list (string * json) :=
  match fields with
  | [] => [(k, v)]
  | (k', v') :: rest =>
      if String.eqb k k' then (k, v) :: rest else (k', v') :: set_field k v rest
  end.

(** A value with the white space before it, the elements of an array after
    its first, and the members of an object; the fuel bounds the number of
    steps, each of which reads at least one character. *)
Fixpoint value (fuel : nat) (s : string) : option (json * string) :=
  match fuel with
  | O => None
  | S fuel' =>
      match skip_ws s with
      | EmptyString => None
      | String c rest as s' =>
          if code c =? 123 then
            match skip_ws rest with
            | String c' rest' as inner =>
                if code c' =? 125 then Some (JObj [], rest')
                else members fuel' inner []
            | EmptyString => None
            end
          else if code c =? 91 then
            match skip_ws rest with
            | String c' rest' as inner =>
                if code c' =? 93 then Some (JArr [], rest')
                else elements fuel' inner []
            | EmptyString => None
            end
          else if code c =? 34 then
            match literal rest with
            | Some (items, behind) => Some (JStr (text_of items), behind)
            | None => None
            end
          else
            match strip_prefix "true" s', strip_prefix "false" s',
                  strip_prefix "null" s' with
            | Some behind, _, _ => Some (JBool true, behind)
            | _, Some behind, _ => Some (JBool false, behind)
            | _, _, Some behind => Some (JNull, behind)
            | _, _, _ =>
                match number_literal s' with
                | Some (x, behind) => Some (JNum x, behind)
                | None => None
                end
            end
      end
  end
with elements (fuel : nat) (s : string) (acc : list json)
  : option (json * string) :=
  match fuel with
  | O => None
  | S fuel' =>
      match value fuel' s with
      | Some (v, behind) =>
          match skip_ws behind with
          | String c rest =>
              if code c =? 44 then elements fuel' rest (acc ++ [v])
              else if code c =? 93 then Some (JArr (acc ++ [v]), rest)
              else None
          | EmptyString => None
          end
      | None => None
      end
  end
with members (fuel : nat) (s : string) (acc : list (string * json))
  : option (json * string) :=
  match fuel with
  | O => None
  | S fuel' =>
      match skip_ws s with
      | String q rest =>
          if code q =? 34 then
            match literal rest with
            | Some (items, behind) =>
                match skip_ws behind with
                | String colon rest' =>
                    if code colon =? 58 then
                      match value fuel' rest' with
                      | Some (v, behind') =>
                          let acc' := set_field (text_of items) v acc in
                          match skip_ws behind' with
                          | String c rest'' =>
                              if code c =? 44 then members fuel' rest'' acc'
                              else if code c =? 125 then Some (JObj acc', rest'')
                              else None
                          | EmptyString => None
                          end
                      | None => None
                      end
                    else None
                | EmptyString => None
                end
            | None => None
            end
          else None
      | EmptyString => None
      end
  end.

(** JSON.parse: one value, with nothing but white space behind it. *)
Definition parse_json (s : string) : option json :=
  match value (2 * String.length s + 2) s with
  | Some (j, behind) =>
      match skip_ws behind with
      | EmptyString => Some j
      | String _ _ => None
      end
  | None => None
  end.

Definition runtime : Builtins :=
  {| JSON_parse := parse_json;
     JSON_stringify := stringify;
     Number_toString := number_toString |}.

End Reference.

(** ** Sample configurations and requests *)

Module Samples.

Import JS Runtime Revenue Monitor Providers.

(** The chat service of [createDefaultServices], with its path and price;
    [answer] stands for the handler, which asks the inference client. *)
Definition chat_service (answer : string -> outcome string) : ServiceConfig :=
  {| path := "/api/chat";
     description := "Chat with the AI agent";
     priceUsdc := 0.001;
     handler := fun _ b => answer b |}.

Definition wallet : string := "0x1111111111111111111111111111111111111111".

Definition chat_config (answer : string -> outcome string) : RevenueConfig :=
  {| port := 3402; network := base; walletAddress := wallet;
     services := [chat_service answer] |}.

(** A catalogue whose one service is configured at the path of the health
    check. *)
Definition health_config : RevenueConfig :=
  {| port := 3402; network := base; walletAddress := wallet;
     services := [{| path := "/health";
                     description := "Paid health report";
                     priceUsdc := 0.001;
                     handler := fun _ _ => Returns "ok" |}] |}.

Definition request (p : string) (payment : option string) (b : string)
  : Request :=
  {| pathname := p; x_payment := payment; read_body := Returns b |}.

Definition fresh : Process := {| tracker := new_tracker; events := [] |}.

(** Modelled from the spec: [getSurvivalTier] of conway/credits.ts is
    missing from the sources; this is the classification of section 3 of the
    specification (normal at or above normalMin, low_compute at or above
    lowComputeMin, critical at or above criticalMin, dead below) with the
    default thresholds. *)
Definition sample_getSurvivalTier (balance : number) : SurvivalTier :=
  let t := DEFAULT_survivalThresholds in
  if ge balance (normal t) then "normal"
  else if ge balance (lowCompute t) then "low_compute"
  else if ge balance (Runtime.critical t) then "critical"
  else "dead".

(** A poll during which both balance queries fail and the sandbox answers. *)
Definition failing_probes : Probes :=
  {| getCreditsBalance := Throws "ECONNREFUSED";
     getUsdcBalance := Throws "ECONNREFUSED";
     exec_exitCode := Returns 0%float;
     now := "2025-01-01T00:00:00.000Z" |}.

(** A provider configuration with OpenAI alone, and one with DeepSeek,
    Tongyi and OpenAI. *)
Definition sample_provider (n url m : string) (budget : option number)
  : ProviderConfig :=
  {| name := n; apiUrl := url; apiKey := "sk-test"; defaultModel := m;
     maxTokens := budget |}.

Definition openai_only : InferenceProviders :=
  {| deepseek := None; tongyi := None;
     openai := Some (sample_provider "openai" "https://api.openai.com"
                       "gpt-4o-mini" (Some 8192%float));
     anthropic := None; custom := None |}.

Definition three_providers : InferenceProviders :=
  {| deepseek := Some (sample_provider "deepseek" "https://api.deepseek.com"
                         "deepseek-reasoner" None);
     tongyi := Some (sample_provider "tongyi"
                       "https://dashscope.aliyuncs.com/compatible-mode"
                       "qwen-turbo" None);
     openai := Some (sample_provider "openai" "https://api.openai.com"
                       "gpt-4o-mini" (Some 8192%float));
     anthropic := None; custom := None |}.

End Samples.

(** ** Saving the configuration (tai-config.ts) and the key overrides of
    the entry point *)

Module Config.

Import JS Providers.

(** [{ ...provider, apiKey: provider.apiKey ? "[REDACTED]" : "" }]. *)
Definition redact (provider : ProviderConfig) : ProviderConfig :=
  {| name := name provider;
     apiUrl := apiUrl provider;
     apiKey := if truthy_string (apiKey provider) then "[REDACTED]" else "";
     defaultModel := defaultModel provider;
     maxTokens := maxTokens provider |}.

(** [sanitizeProviders]: every provider that is present is copied with its
    key redacted; a missing one stays missing. *)
Definition sanitizeProviders (providers : InferenceProviders)
  : InferenceProviders :=
  {| deepseek := redact <$> deepseek providers;
     tongyi := redact <$> tongyi providers;
     openai := redact <$> openai providers;
     anthropic := redact <$> anthropic providers;
     custom := redact <$> custom providers |}.

(** The three variables of the environment that [run] reads for keys. *)
Record Environment : Type := {
  DEEPSEEK_API_KEY : option string;
  TONGYI_API_KEY : option string;
  OPENAI_API_KEY : option string;
}.

(** [if (process.env.K && provider) provider.apiKey = process.env.K]. *)
Definition override (key : option string) (provider : option ProviderConfig)
  : option ProviderConfig :=
  match or_null key, provider with
  | Some k, Some p =>
      Some {| name := name p;
              apiUrl := apiUrl p;
              apiKey := k;
              defaultModel := defaultModel p;
              maxTokens := maxTokens p |}
  | _, _ => provider
  end.

(** The overrides that [run] applies to the loaded configuration before it
    creates the inference client. *)
Definition run_overrides (env : Environment) (providers : InferenceProviders)
  : InferenceProviders :=
  {| deepseek := override (DEEPSEEK_API_KEY env) (deepseek providers);
     tongyi := override (TONGYI_API_KEY env) (tongyi providers);
     openai := override (OPENAI_API_KEY env) (openai providers);
     anthropic := anthropic providers;
     custom := custom providers |}.

End Config.

(** ** The agent loop of the entry point ([runSimpleAgentLoop]) *)

Module Agent.

Import JS Types Eff.
Local Open Scope eff_scope.

(** [undefined] or a value that came out of [JSON.parse]. *)
Abbreviation value := (option json).

(** ToBoolean on such a value. *)
Definition truthy (v : value) : bool :=
  match v with
  | None | Some JNull => false
  | Some (JBool b) => b
  | Some (JNum x) => truthy_number x
  | Some (JStr s) => truthy_string s
  | Some (JArr _) | Some (JObj _) => true
  end.

Record ExecResult : Type := {
  stdout : string;
  stderr : string;
  exitCode : number;
}.

(** [items.join(sep)] on strings. *)
Fixpoint join (sep : string) (items : list string) : string :=
  match items with
  | [] => ""
  | [item] => item
  | item :: rest => item +:+ sep +:+ join sep rest
  end.

(** [array.splice(start, deleteCount)] with both inside the array: the
    array that is left. *)
Definition splice {A : Type} (start deleteCount : nat) (l : list A) : list A :=
  take start l ++ drop (start + deleteCount) l.

(** The five tools offered to the model. *)
Definition string_property (description : string) : json :=
  JObj [("type", JStr "string"); ("description", JStr description)].

Definition getAvailableTools : list InferenceToolDefinition :=
  [ {| def_name := "exec";
       def_description := "Execute a shell command and return the output";
       def_parameters :=
         JObj [("type", JStr "object");
               ("properties",
                JObj [("command", string_property "The shell command to execute");
                      ("timeout",
                       JObj [("type", JStr "number");
                             ("description",
                              JStr "Timeout in milliseconds (default: 30000)")])]);
               ("required", JArr [JStr "command"])] |};
    {| def_name := "read_file";
       def_description := "Read the contents of a file";
       def_parameters :=
         JObj [("type", JStr "object");
               ("properties",
                JObj [("path", string_property "Path to the file to read")]);
               ("required", JArr [JStr "path"])] |};
    {| def_name := "write_file";
       def_description := "Write content to a file (creates directories if needed)";
       def_parameters :=
         JObj [("type", JStr "object");
               ("properties",
                JObj [("path", string_property "Path to the file to write");
                      ("content", string_property "Content to write to the file")]);
               ("required", JArr [JStr "path"; JStr "content"])] |};
    {| def_name := "list_dir";
       def_description := "List contents of a directory";
       def_parameters :=
         JObj [("type", JStr "object");
               ("properties",
                JObj [("path", string_property "Path to the directory to list")]);
               ("required", JArr [JStr "path"])] |};
    {| def_name := "check_balance";
       def_description := "Check your current USDC wallet balance";
       def_parameters :=
         JObj [("type", JStr "object"); ("properties", JObj [])] |} ].

Section Conversions.

Context {rt : Builtins}.

(** The message of the TypeError that the conversion of an object to a
    primitive value throws. *)
Variable cannot_convert : string.

(** The conversion to a string that a template literal applies. An array is
    joined with commas, [null] elements giving nothing; an object gives
    "[object Object]" unless it has a field [toString] of its own, which is
    not a function, and then the conversion throws. *)
Fixpoint ToString (j : json) : outcome string :=
  match j with
  | JNull => Returns "null"
  | JBool b => Returns (if b then "true" else "false")
  | JNum x => Returns (Number_toString x)
  | JStr s => Returns s
  | JArr items =>
      (fix elements (items : list json) (first : bool) : outcome string :=
         match items with
         | [] => Returns ""
         | item :: rest =>
             match (match item with
                    | JNull => Returns ""
                    | _ => ToString item
                    end) with
             | Throws e => Throws e
             | Returns s =>
                 match elements rest false with
                 | Throws e => Throws e
                 | Returns t =>
                     Returns ((if first then "" else ",") +:+ s +:+ t)
                 end
             end
         end) items true
  | JObj fields =>
      match assoc "toString" fields with
      | Some _ => Throws cannot_convert
      | None => Returns "[object Object]"
      end
  end.

End Conversions.

(** The state of a run of the loop: the conversation, the sleeps made so
    far, in milliseconds, and the state of everything outside the program. *)
Record Run (World : Type) : Type := {
  conversationHistory : list ChatMessage;
  slept : list Z;
  world : World;
}.
Arguments conversationHistory {World} _.
Arguments slept {World} _.
Arguments world {World} _.

(** What the loop calls outside itself: the inference client, the Conway
    client, [fs.readdirSync] and [getUsdcBalance(identity.address,
    "eip155:8453")], each of which may throw and may change the world; and
    two built-ins, [n.toFixed(6)] and the message of the TypeError that
    reading a property of [null] throws, and the one of converting an object
    without a usable [toString] to a string. *)
Record Collaborators (World : Type) : Type := {
  chat : list ChatMessage -> Providers.InferenceOptions
         -> M World InferenceResponse;
  conway_exec : value -> value -> M World ExecResult;
  conway_readFile : value -> M World string;
  conway_writeFile : value -> value -> M World unit;
  fs_readdirSync : value -> M World (list string);
  getUsdcBalance : M World number;
  toFixed6 : number -> string;
  null_property : string -> string;
  not_primitive : string;
}.
Arguments chat {World} _.
Arguments conway_exec {World} _.
Arguments conway_readFile {World} _.
Arguments conway_writeFile {World} _.
Arguments fs_readdirSync {World} _.
Arguments getUsdcBalance {World} _.
Arguments toFixed6 {World} _.
Arguments null_property {World} _.
Arguments not_primitive {World} _.

Section Loop.

Context {rt : Builtins} {World : Type}.
Variable env : Collaborators World.

(** [args.k]: reading a property of [null] throws, of any other parsed
    value it gives the field of an object and [undefined] otherwise. *)
Definition property (k : string) (args : json) : M World value :=
  match args with
  | JNull => throw (null_property env k)
  | _ => ret (get_field k args)
  end.

Definition template (v : value) : M World string :=
  match v with
  | None => ret "undefined"
  | Some j => await (ToString (not_primitive env) j)
  end.

(** [executeToolCall]. *)
Definition executeToolCall (toolName : string) (args : json) : M World string :=
  try_catch
    (if String.eqb toolName "exec" then
       (command <- property "command" args;;
        timeout <- property "timeout" args;;
        result <- conway_exec env command
                    (if truthy timeout then timeout else Some (JNum 30000));;
        ret ("Exit code: " +:+ Number_toString (exitCode result) +:+ newline
             +:+ "Stdout: " +:+ stdout result +:+ newline
             +:+ "Stderr: " +:+ stderr result))
     else if String.eqb toolName "read_file" then
       (path <- property "path" args;;
        conway_readFile env path)
     else if String.eqb toolName "write_file" then
       (path <- property "path" args;;
        content <- property "content" args;;
        conway_writeFile env path content;;
        path <- property "path" args;;
        shown <- template path;;
        ret ("Successfully wrote to " +:+ shown))
     else if String.eqb toolName "list_dir" then
       (path <- property "path" args;;
        files <- fs_readdirSync env path;;
        ret (join newline files))
     else if String.eqb toolName "check_balance" then
       (balance <- getUsdcBalance env;;
        ret ("Current balance: $" +:+ toFixed6 env balance +:+ " USDC"))
     else ret ("Unknown tool: " +:+ toolName))
    (fun message => ret ("Error: " +:+ message)).

(** A call of a collaborator from the loop, and the two writes of the loop
    itself. *)
Definition call {A : Type} (m : M World A) : M (Run World) A :=
  fun r =>
    let (o, w) := m (world r) in
    (o, {| conversationHistory := conversationHistory r;
           slept := slept r;
           world := w |}).

Definition push (msg : ChatMessage) : M (Run World) unit :=
  modify (fun r => {| conversationHistory := conversationHistory r ++ [msg];
                      slept := slept r;
                      world := world r |}).

Definition sleep (ms : Z) : M (Run World) unit :=
  modify (fun r => {| conversationHistory := conversationHistory r;
                      slept := slept r ++ [ms];
                      world := world r |}).

(** The message of a response as an entry of the conversation. *)
Definition entry (m : ResponseMessage) : ChatMessage :=
  {| role := msg_role m;
     content := msg_content m;
     name := None;
     tool_calls := msg_tool_calls m;
     tool_call_id := None |}.

Definition said (r c : string) : ChatMessage :=
  {| role := r; content := c; name := None; tool_calls := None;
     tool_call_id := None |}.

(** The body of [for (const toolCall of response.toolCalls)]. *)
Fixpoint run_tools (calls : list InferenceToolCall) : M (Run World) unit :=
  match calls with
  | [] => ret tt
  | toolCall :: rest =>
      (toolArgs <- match JSON_parse (fn_arguments (call_function toolCall)) with
                   | Some j => ret j
                   | None => throw "SyntaxError"
                   end;;
       result <- call (executeToolCall (fn_name (call_function toolCall))
                         toolArgs);;
       push {| role := "tool";
               content := result;
               name := None;
               tool_calls := None;
               tool_call_id := Some (call_id toolCall) |};;
       run_tools rest)
  end.

(** The trimming at the end of a turn. *)
Definition trimmed (history : list ChatMessage) : list ChatMessage :=
  if (52 <? length history)%nat
  then splice 1 (length history - 51) history
  else history.

Definition trim (r : Run World) : Run World :=
  {| conversationHistory := trimmed (conversationHistory r);
     slept := slept r;
     world := world r |}.

Definition options : Providers.InferenceOptions :=
  {| Providers.opt_model := None;
     Providers.opt_maxTokens := None;
     Providers.opt_tools := Some getAvailableTools;
     Providers.opt_temperature := None |}.

(** The part of a turn inside [try]. *)
Definition attempt : M (Run World) unit :=
  r <- get;;
  response <- call (chat env (conversationHistory r) options);;
  push (entry (message response));;
  match toolCalls response with
  | Some (toolCall :: rest) => run_tools (toolCall :: rest)
  | _ =>
      if Providers.includes
           (Providers.toLowerCase (msg_content (message response))) "[sleep]"
      then
        (sleep 60000;;
         push (said "user" "[System] You have woken up. Continue your tasks."))
      else ret tt
  end;;
  modify trim;;
  sleep 1000.

(** One pass of the body of the [while] loop. *)
Definition turn : M (Run World) unit :=
  try_catch attempt (fun _ => sleep 5000).

(** [while (turnCount < maxTurns)], by the number of turns that are left. *)
Fixpoint turns (left : nat) : M (Run World) unit :=
  match left with
  | O => ret tt
  | S n => (turn;; turns n)
  end.

Definition maxTurns : nat := 1000.

(** [runSimpleAgentLoop]; [systemPrompt] is the result of
    [buildSystemPrompt(config, identity)] and [genesisPrompt] is
    [config.genesisPrompt]. *)
Definition start (systemPrompt genesisPrompt : string) (w : World)
  : Run World :=
  {| conversationHistory :=
       [said "system" systemPrompt; said "user" genesisPrompt];
     slept := [];
     world := w |}.

Definition runSimpleAgentLoop (systemPrompt genesisPrompt : string)
  : M World unit :=
  fun w =>
    let (o, r) := turns maxTurns (start systemPrompt genesisPrompt w) in
    (o, world r).

End Loop.

End Agent.

(** ** The built-in services of the revenue module
    ([createDefaultServices]) *)

Module Services.

Import JS Types Revenue.

(** A message as the handlers build it: the content is whatever the body
    of the request held under the field, or a text. *)
Record Prompt : Type := {
  prompt_role : string;
  prompt_content : Agent.value;
}.

Definition and_then {A B : Type} (o : outcome A) (k : A -> outcome B)
  : outcome B :=
  match o with
  | Returns a => k a
  | Throws e => Throws e
  end.

Section Defaults.

Context {rt : Builtins}.

(** [inference.chat], and the messages of the two TypeErrors: the one of
    destructuring [null] and the one of converting an object to a primitive
    value. *)
Variable inference : list Prompt -> outcome InferenceResponse.
Variable cannot_destructure : string.
Variable cannot_convert : string.

(** [const { ... } = JSON.parse(body)], up to the reading of the fields. *)
Definition parsed (body : string) : outcome json :=
  match JSON_parse body with
  | None => Throws "SyntaxError"
  | Some JNull => Throws cannot_destructure
  | Some j => Returns j
  end.

(** A value inside a template literal. *)
Definition shown (v : Agent.value) : outcome string :=
  match v with
  | None => Returns "undefined"
  | Some j => Agent.ToString cannot_convert j
  end.

(** [JSON.stringify(v)] inside a template literal. *)
Definition stringified (v : Agent.value) : string :=
  match v with
  | None => "undefined"
  | Some j => JSON_stringify j
  end.

(** [(await inference.chat(messages)).message.content]. *)
Definition ask (messages : list Prompt) : outcome string :=
  and_then (inference messages)
    (fun response => Returns (msg_content (message response))).

Definition text_prompt (r c : string) : Prompt :=
  {| prompt_role := r; prompt_content := Some (JStr c) |}.

Definition createDefaultServices : list ServiceConfig :=
  [ {| path := "/api/chat";
       description := "Chat with the AI agent";
       priceUsdc := 0.001;
       handler := fun _ body =>
         and_then (parsed body) (fun j =>
         let message := get_field "message" j in
         ask [{| prompt_role := "user"; prompt_content := message |}]) |};
    {| path := "/api/summarize";
       description := "Summarize text content";
       priceUsdc := 0.005;
       handler := fun _ body =>
         and_then (parsed body) (fun j =>
         let text := get_field "text" j in
         and_then (shown text) (fun text =>
         ask [text_prompt "system"
                "You are a summarization expert. Provide concise summaries.";
              text_prompt "user"
                ("Summarize the following text:" +:+ newline +:+ newline
                 +:+ text)])) |};
    {| path := "/api/translate";
       description := "Translate text to another language";
       priceUsdc := 0.003;
       handler := fun _ body =>
         and_then (parsed body) (fun j =>
         let text := get_field "text" j in
         let targetLanguage := get_field "targetLanguage" j in
         and_then (shown targetLanguage) (fun targetLanguage =>
         ask [text_prompt "system"
                ("You are a translator. Translate text to " +:+ targetLanguage
                 +:+ ".");
              {| prompt_role := "user"; prompt_content := text |}])) |};
    {| path := "/api/code";
       description := "Generate or explain code";
       priceUsdc := 0.01;
       handler := fun _ body =>
         and_then (parsed body) (fun j =>
         let prompt := get_field "prompt" j in
         let language := get_field "language" j in
         and_then (if Agent.truthy language then shown language
                   else Returns "programming") (fun language =>
         ask [text_prompt "system"
                ("You are an expert " +:+ language
                 +:+ " developer. Write clean, efficient code.");
              {| prompt_role := "user"; prompt_content := prompt |}])) |};
    {| path := "/api/analyze";
       description := "Analyze data or text";
       priceUsdc := 0.008;
       handler := fun _ body =>
         and_then (parsed body) (fun j =>
         let data := get_field "data" j in
         let question := get_field "question" j in
         and_then (shown question) (fun question =>
         ask [text_prompt "system"
                "You are a data analyst. Provide insightful analysis.";
              text_prompt "user"
                ("Data: " +:+ stringified data +:+ newline +:+ newline
                 +:+ "Question: " +:+ question)])) |} ].

End Defaults.

End Services.

(** ** The chat of the message handler (handlers/message-handler.ts) *)

Module Handler.

Import JS Types Eff.
Local Open Scope eff_scope.

(** [s.length]: the number of UTF-16 code units of a string that is held
    here as its UTF-8 bytes. A byte that continues a character counts for
    nothing, the first byte of a character of four bytes for two, any other
    byte for one. *)
Definition code_units (c : ascii) : nat :=
  let n := nat_of_ascii c in
  if (n <? 128)%nat then 1
  else if (n <? 192)%nat then 0
  else if (n <? 240)%nat then 1
  else 2.

Fixpoint length16 (s : string) : nat :=
  match s with
  | EmptyString => 0
  | String c rest => code_units c + length16 rest
  end.

(** [PRICING.chat] of user/user-system.ts, in credits. *)
Definition PRICING_chat_short : number := 1.
Definition PRICING_chat_medium : number := 3.
Definition PRICING_chat_long : number := 5.

(** [calculateChatFee]. *)
Definition calculateChatFee (input output : string) : number :=
  let totalLength := length16 input + length16 output in
  if (totalLength <? 200)%nat then PRICING_chat_short
  else if (totalLength <? 1000)%nat then PRICING_chat_medium
  else PRICING_chat_long.

(** The texts of [handleChat]. *)
Definition insufficient_credits : string :=
  "❌ 积分不足，无法进行对话。" +:+ newline +:+ "" +:+ newline +:+ "发送「帮助」查看如何获取积分。".

Definition system_prompt : string :=
  "你是 TAI，一个友好的 AI 助手。你可以帮助用户："
  +:+ newline +:+ "- 回答各种问题"
  +:+ newline +:+ "- 闲聊和陪伴"
  +:+ newline +:+ "- 提供建议和帮助"
  +:+ newline +:+ ""
  +:+ newline +:+ "保持回复简洁友好，使用中文。"
  +:+ newline +:+ "注意：不要讨论加密货币、代币、交易等金融话题，如果用户问到，引导他们访问官网了解更多。".

Definition fallback_reply : string := "抱歉，我没有理解你的意思。".

Definition unavailable : string := "抱歉，AI 服务暂时不可用，请稍后再试。".

Definition fee_description : string := "AI对话".

(** The handler: the table of conversations by user, and the state of
    everything outside (the user system and its database, the inference
    client). An entry of the table is the array that the table holds for the
    user. *)
Record MessageHandler (World : Type) : Type := {
  conversationHistory : gmap string (list ChatMessage);
  world : World;
}.
Arguments conversationHistory {World} _.
Arguments world {World} _.

(** The calls that [handleChat] makes outside: [userSystem.getBalance],
    [userSystem.deduct] and [inference.chat], each of which may throw. *)
Record Collaborators (World : Type) : Type := {
  getBalance : string -> M World number;
  deduct : string -> number -> string -> M World bool;
  chat : list ChatMessage -> M World InferenceResponse;
}.
Arguments getBalance {World} _.
Arguments deduct {World} _.
Arguments chat {World} _.

Section Chat.

Context {World : Type}.
Variable env : Collaborators World.

Definition call {A : Type} (m : M World A) : M (MessageHandler World) A :=
  fun st =>
    let (o, w) := m (world st) in
    (o, {| conversationHistory := conversationHistory st; world := w |}).

(** [this.conversationHistory.set(userId, history)], which is also what a
    push on the array that the table holds amounts to. *)
Definition store (userId : string) (history : list ChatMessage)
  : M (MessageHandler World) unit :=
  modify (fun st =>
            {| conversationHistory := <[userId := history]> (conversationHistory st);
               world := world st |}).

(** [[history[0], ...history.slice(-18)]] when there are more than 20
    messages. *)
Definition shortened (history : list ChatMessage) : list ChatMessage :=
  if (20 <? length history)%nat
  then take 1 history ++ drop (length history - 18) history
  else history.

(** [handleChat]. The two pushes before the call of the model are made on
    the array of the table when the user has one, and are then in the table
    whatever happens next; a new array is put in the table only after the
    model has answered. *)
Definition handleChat (userId content : string)
  : M (MessageHandler World) string :=
  balance <- call (getBalance env userId);;
  if lt balance PRICING_chat_short then ret insufficient_credits
  else
    (st <- get;;
     let stored := conversationHistory st !! userId in
     let history := default [] stored in
     let history :=
       if (length history =? 0)%nat
       then history ++ [Agent.said "system" system_prompt]
       else history in
     let history := history ++ [Agent.said "user" content] in
     match stored with
     | Some _ => store userId history
     | None => ret tt
     end;;
     try_catch
       (response <- call (chat env history);;
        let reply :=
          or_string (Some (msg_content (message response))) fallback_reply in
        let history := history ++ [Agent.said "assistant" reply] in
        let history := shortened history in
        store userId history;;
        let fee := calculateChatFee content reply in
        call (deduct env userId fee fee_description);;
        ret reply)
       (fun _ => ret unavailable)).

End Chat.

End Handler.

(** * Properties *)

(** ** Order facts about IEEE comparisons

    The comparisons of binary64 are specified by [SFcompare] on the decoded
    form of a float; on values that are not NaN it is a total preorder. *)

Module NumberOrder.

(** Lexicographic comparison of (exponent, mantissa) pairs. *)
Definition cmp_em (e1 : Z) (m1 : positive) (e2 : Z) (m2 : positive) : comparison :=
  match (e1 ?= e2)%Z with
  | Lt => Lt
  | Gt => Gt
  | Eq => Pos.compare_cont Eq m1 m2
  end.

Definition cmp_em_neg (e1 : Z) (m1 : positive) (e2 : Z) (m2 : positive) : comparison :=
  match (e1 ?= e2)%Z with
  | Lt => Gt
  | Gt => Lt
  | Eq => CompOpp (Pos.compare_cont Eq m1 m2)
  end.

Lemma cmp_em_neg_opp e1 m1 e2 m2 :
  cmp_em_neg e1 m1 e2 m2 = CompOpp (cmp_em e1 m1 e2 m2).
Proof. unfold cmp_em_neg, cmp_em. now destruct (e1 ?= e2)%Z. Qed.

Lemma cmp_em_spec e1 m1 e2 m2 :
  match cmp_em e1 m1 e2 m2 with
  | Lt => (e1 < e2 \/ (e1 = e2 /\ Zpos m1 < Zpos m2))%Z
  | Eq => e1 = e2 /\ m1 = m2
  | Gt => (e2 < e1 \/ (e1 = e2 /\ Zpos m2 < Zpos m1))%Z
  end.
Proof.
  unfold cmp_em.
  destruct (Z.compare_spec e1 e2); try lia.
  change (Pos.compare_cont Eq m1 m2) with (Pos.compare m1 m2).
  destruct (Pos.compare_spec m1 m2); subst; lia.
Qed.

Ltac fold_cmp :=
  repeat match goal with
  | |- context [match (?e1 ?= ?e2)%Z with
                | Eq => Pos.compare_cont Eq ?m1 ?m2 | Lt => Lt | Gt => Gt end] =>
      change (match (e1 ?= e2)%Z with
              | Eq => Pos.compare_cont Eq m1 m2 | Lt => Lt | Gt => Gt end)
        with (cmp_em e1 m1 e2 m2)
  | |- context [match (?e1 ?= ?e2)%Z with
                | Eq => CompOpp (Pos.compare_cont Eq ?m1 ?m2) | Lt => Gt | Gt => Lt end] =>
      change (match (e1 ?= e2)%Z with
              | Eq => CompOpp (Pos.compare_cont Eq m1 m2) | Lt => Gt | Gt => Lt end)
        with (cmp_em_neg e1 m1 e2 m2);
      rewrite (cmp_em_neg_opp e1 m1 e2 m2)
  end.

Ltac case_cmp :=
  repeat match goal with
  | |- context [cmp_em ?e1 ?m1 ?e2 ?m2] =>
      let H := fresh "Hc" in
      pose proof (cmp_em_spec e1 m1 e2 m2) as H;
      destruct (cmp_em e1 m1 e2 m2)
  end.

Ltac sf_cases x y z :=
  destruct x as [[]|[]| |[] ? ?], y as [[]|[]| |[] ? ?], z as [[]|[]| |[] ? ?];
  simpl; try congruence; fold_cmp; case_cmp; simpl; try congruence;
  try (intros; exfalso; lia).

Lemma SFcompare_sym (x y : spec_float) :
  SFcompare y x = option_map CompOpp (SFcompare x y).
Proof.
  destruct x as [[]|[]| |[] ? ?], y as [[]|[]| |[] ? ?]; simpl; try reflexivity;
    fold_cmp; case_cmp; simpl; try reflexivity; exfalso; lia.
Qed.

Lemma SFleb_trans (x y z : spec_float) :
  SFleb x y = true -> SFleb y z = true -> SFleb x z = true.
Proof. unfold SFleb. sf_cases x y z. Qed.

Lemma SFltb_leb_trans (x y z : spec_float) :
  SFltb x y = true -> SFleb y z = true -> SFltb x z = true.
Proof. unfold SFleb, SFltb. sf_cases x y z. Qed.

Lemma SFleb_ltb_trans (x y z : spec_float) :
  SFleb x y = true -> SFltb y z = true -> SFltb x z = true.
Proof. unfold SFleb, SFltb. sf_cases x y z. Qed.

Lemma SFltb_not_leb (x y : spec_float) :
  SFltb x y = true -> SFleb y x = false.
Proof.
  unfold SFleb, SFltb. rewrite (SFcompare_sym x y).
  destruct (SFcompare x y) as [[]|]; simpl; congruence.
Qed.

Lemma SFleb_total (x y : spec_float) :
  SFleb x x = true -> SFleb y y = true -> SFleb x y = false -> SFltb y x = true.
Proof.
  unfold SFleb, SFltb. rewrite (SFcompare_sym x y).
  destruct x as [[]|[]| |[] ? ?], y as [[]|[]| |[] ? ?]; simpl; try congruence;
  fold_cmp; case_cmp; simpl; try congruence.
Qed.

(** The same facts on JavaScript comparisons. A number is not NaN exactly when
    it compares below-or-equal to itself. *)

Import JS.

Lemma le_trans (a b c : number) :
  le a b = true -> le b c = true -> le a c = true.
Proof. unfold le. rewrite !leb_spec. apply SFleb_trans. Qed.

Lemma lt_le_trans (a b c : number) :
  lt a b = true -> le b c = true -> lt a c = true.
Proof. unfold le, lt. rewrite !leb_spec, !ltb_spec. apply SFltb_leb_trans. Qed.

Lemma le_lt_trans (a b c : number) :
  le a b = true -> lt b c = true -> lt a c = true.
Proof. unfold le, lt. rewrite !leb_spec, !ltb_spec. apply SFleb_ltb_trans. Qed.

Lemma lt_not_ge (a b : number) : lt a b = true -> ge a b = false.
Proof. unfold lt, ge. rewrite leb_spec, ltb_spec. apply SFltb_not_leb. Qed.

Lemma ge_not_lt (a b : number) : ge a b = true -> lt a b = false.
Proof.
  intros H. destruct (lt a b) eqn:E; [|reflexivity].
  apply lt_not_ge in E. congruence.
Qed.

Lemma not_ge_lt (a b : number) :
  le a a = true -> le b b = true -> ge a b = false -> lt a b = true.
Proof.
  unfold lt, ge, le. rewrite !leb_spec, ltb_spec.
  intros Ha Hb H. now apply SFleb_total.
Qed.

Lemma lt_le (a b : number) : lt a b = true -> le a b = true.
Proof.
  unfold lt, le. rewrite leb_spec, ltb_spec. unfold SFltb, SFleb.
  destruct (SFcompare _ _) as [[]|]; congruence.
Qed.

Lemma le_refl_l (a b : number) : le a b = true -> le a a = true.
Proof.
  unfold le. rewrite !leb_spec. unfold SFleb.
  destruct (Prim2SF a) as [[]|[]| |[] ? ?], (Prim2SF b) as [[]|[]| |[] ? ?];
    simpl; try congruence; fold_cmp; case_cmp; simpl; try congruence;
    intros; exfalso; lia.
Qed.

Lemma le_refl_r (a b : number) : le a b = true -> le b b = true.
Proof.
  unfold le. rewrite !leb_spec. unfold SFleb.
  destruct (Prim2SF a) as [[]|[]| |[] ? ?], (Prim2SF b) as [[]|[]| |[] ? ?];
    simpl; try congruence; fold_cmp; case_cmp; simpl; try congruence;
    intros; exfalso; lia.
Qed.

End NumberOrder.

(** ** Balance to agent state *)

Module RuntimeFacts.

Import JS Runtime NumberOrder.

(** [showBalance] decides from the top: the first two cases need nothing of
    the thresholds. *)
Lemma showBalance_running (t : SurvivalThresholds) (b : number) :
  ge b (normal t) = true -> showBalance_status b t = running.
Proof. unfold showBalance_status. now intros ->. Qed.

Lemma showBalance_low_compute (t : SurvivalThresholds) (b : number) :
  ge b (lowCompute t) = true -> lt b (normal t) = true ->
  showBalance_status b t = low_compute.
Proof.
  unfold showBalance_status. intros H1 H2.
  now rewrite (lt_not_ge _ _ H2), H1.
Qed.

Lemma showBalance_critical (t : SurvivalThresholds) (b : number) :
  ge (normal t) (lowCompute t) = true ->
  ge b (critical t) = true -> lt b (lowCompute t) = true ->
  showBalance_status b t = State.critical.
Proof.
  unfold showBalance_status. intros Hn H1 H2.
  rewrite (lt_not_ge _ _ (lt_le_trans _ _ _ H2 Hn)).
  now rewrite (lt_not_ge _ _ H2), H1.
Qed.

Lemma showBalance_dead (t : SurvivalThresholds) (b : number) :
  descending t ->
  lt b (critical t) = true ->
  showBalance_status b t = dead.
Proof.
  unfold showBalance_status. intros [Hn Hl] H.
  pose proof (lt_le_trans _ _ _ H Hl) as H2.
  rewrite (lt_not_ge _ _ (lt_le_trans _ _ _ H2 Hn)).
  now rewrite (lt_not_ge _ _ H2), (lt_not_ge _ _ H).
Qed.

(** [run] decides from the bottom; on a balance that is a number and
    thresholds that do not increase it agrees with [showBalance]. *)
Lemma run_agrees (t : SurvivalThresholds) (b : number) :
  descending t ->
  le b b = true ->
  run_initialState b t = showBalance_status b t.
Proof.
  intros [Hn Hl] Hb.
  pose proof (le_refl_l _ _ Hl) as Hc.
  pose proof (le_refl_l _ _ Hn) as Hlo.
  pose proof (le_refl_r _ _ Hn) as Hno.
  unfold run_initialState.
  destruct (lt b (critical t)) eqn:E1.
  { symmetry. apply showBalance_dead; [split|]; assumption. }
  destruct (lt b (lowCompute t)) eqn:E2.
  { symmetry. apply showBalance_critical; auto.
    destruct (ge b (critical t)) eqn:E; [reflexivity|].
    apply not_ge_lt in E; congruence. }
  destruct (lt b (normal t)) eqn:E3.
  { symmetry. apply showBalance_low_compute; auto.
    destruct (ge b (lowCompute t)) eqn:E; [reflexivity|].
    apply not_ge_lt in E; congruence. }
  symmetry. apply showBalance_running.
  destruct (ge b (normal t)) eqn:E; [reflexivity|].
  apply not_ge_lt in E; congruence.
Qed.

Lemma ordered_descending (t : SurvivalThresholds) : ordered t -> descending t.
Proof. intros (Hn & Hl & _). split; now apply lt_le. Qed.

(** Away from numbers the two differ: a balance that is NaN is dead for
    [showBalance] and running for [run]. *)
Example nan_balance :
  showBalance_status nan DEFAULT_survivalThresholds = dead /\
  run_initialState nan DEFAULT_survivalThresholds = running.
Proof. split; reflexivity. Qed.

(** With thresholds out of order the bands overlap and the two cascades
    part: for normal 1, lowCompute 5, critical 10 the balance 3 is above
    normal and below critical at once. *)
Example thresholds_out_of_order :
  let t := {| normal := 1; lowCompute := 5; critical := 10 |} in
  showBalance_status 3 t = running /\ run_initialState 3 t = dead.
Proof. split; reflexivity. Qed.

(** C1. For thresholds in the order of the configuration (normal not below
    lowCompute, lowCompute not below critical), both classifications of a
    balance [b], the one of [showBalance] and the one of [run], give running
    (the normal tier) when [b >= normal], low_compute when
    [lowCompute <= b < normal], critical when [critical <= b < lowCompute],
    and dead when [b < critical]; with a critical threshold that is not
    negative, every negative [b] is dead. With the default thresholds 10, 5
    and 1: 10 is running, 9.99 and 5 are low_compute, 4.99 and 1 are critical,
    0.99 is dead. *)
Theorem tier_classification :
  (forall (t : SurvivalThresholds) (b : number),
     descending t ->
     let both s := showBalance_status b t = s /\ run_initialState b t = s in
     (ge b (normal t) = true -> both running) /\
     (ge b (lowCompute t) = true -> lt b (normal t) = true -> both low_compute) /\
     (ge b (critical t) = true -> lt b (lowCompute t) = true ->
      both State.critical) /\
     (lt b (critical t) = true -> both dead) /\
     (ge (critical t) 0 = true -> lt b 0 = true -> both dead)) /\
  (let d := DEFAULT_survivalThresholds in
   map (fun b => showBalance_status b d) [10; 9.99; 5; 4.99; 1; 0.99]%float
   = [running; low_compute; low_compute; State.critical; State.critical; dead] /\
   map (fun b => run_initialState b d) [10; 9.99; 5; 4.99; 1; 0.99]%float
   = [running; low_compute; low_compute; State.critical; State.critical; dead]).
Proof.
  split; [|split; reflexivity].
  intros t b Hd both.
  assert (Hsame : forall s, le b b = true -> showBalance_status b t = s -> both s).
  { intros s Hb Hs. split; [exact Hs|]. now rewrite run_agrees. }
  assert (Hdead : lt b (critical t) = true -> both dead).
  { intros H. apply Hsame.
    - exact (le_refl_l _ _ (lt_le _ _ H)).
    - now apply showBalance_dead. }
  destruct Hd as [Hn Hl].
  split; [|split; [|split; [|split]]].
  - intros H. apply Hsame.
    + exact (le_refl_r _ _ H).
    + now apply showBalance_running.
  - intros H1 H2. apply Hsame.
    + exact (le_refl_r _ _ H1).
    + now apply showBalance_low_compute.
  - intros H1 H2. apply Hsame.
    + exact (le_refl_r _ _ H1).
    + now apply showBalance_critical.
  - exact Hdead.
  - intros Hc H. apply Hdead. exact (lt_le_trans _ _ _ H Hc).
Qed.

(** The state of [showBalance] is dead exactly below the critical threshold,
    for a balance that is a number. *)
Lemma showBalance_dead_iff (t : SurvivalThresholds) (b : number) :
  ordered t -> le b b = true ->
  showBalance_status b t = dead <-> lt b (critical t) = true.
Proof.
  intros Ho Hb. pose proof (ordered_descending t Ho) as [Hn Hl]. split.
  - unfold showBalance_status.
    destruct (ge b (normal t)); [discriminate|].
    destruct (ge b (lowCompute t)); [discriminate|].
    destruct (ge b (critical t)) eqn:E; [discriminate|].
    intros _. apply not_ge_lt; auto.
    exact (le_refl_l _ _ Hl).
  - apply showBalance_dead. now split.
Qed.

(** A larger balance reaches every threshold that a smaller one reaches. *)
Lemma showBalance_monotone (t : SurvivalThresholds) (b1 b2 : number) :
  le b1 b2 = true ->
  distress (showBalance_status b2 t) <= distress (showBalance_status b1 t).
Proof.
  intros H.
  assert (Hup : forall x, ge b1 x = true -> ge b2 x = true).
  { intros x Hx. exact (le_trans _ _ _ Hx H). }
  unfold showBalance_status.
  destruct (ge b1 (normal t)) eqn:E1.
  { now rewrite (Hup _ E1). }
  destruct (ge b1 (lowCompute t)) eqn:E2.
  { rewrite (Hup _ E2). destruct (ge b2 (normal t)); simpl; lia. }
  destruct (ge b1 (critical t)) eqn:E3.
  { rewrite (Hup _ E3).
    destruct (ge b2 (normal t)), (ge b2 (lowCompute t)); simpl; lia. }
  destruct (ge b2 (normal t)), (ge b2 (lowCompute t)), (ge b2 (critical t));
    simpl; lia.
Qed.

(** C9. For thresholds with normal > lowCompute > critical >= 0 and balances
    [b1 <= b2], the state classified for [b2] is never more distressed (in the
    order running, low_compute, critical, dead) than the one classified for
    [b1], and the state of either balance is dead if and only if the balance
    is strictly below the critical threshold. This holds for the
    classification of [showBalance] and for the one of [run]. *)
Theorem classification_monotone (t : SurvivalThresholds) (b1 b2 : number) :
  ordered t -> le b1 b2 = true ->
  let holds classify :=
    distress (classify b2 t) <= distress (classify b1 t) /\
    (classify b1 t = dead <-> lt b1 (critical t) = true) /\
    (classify b2 t = dead <-> lt b2 (critical t) = true) in
  holds showBalance_status /\ holds run_initialState.
Proof.
  intros Ho H holds.
  pose proof (le_refl_l _ _ H) as H1.
  pose proof (le_refl_r _ _ H) as H2.
  assert (Hs : holds showBalance_status).
  { split; [|split].
    - now apply showBalance_monotone.
    - now apply showBalance_dead_iff.
    - now apply showBalance_dead_iff. }
  split; [exact Hs|].
  pose proof (ordered_descending t Ho) as Hd.
  unfold holds.
  rewrite (run_agrees t b1 Hd H1), (run_agrees t b2 Hd H2).
  exact Hs.
Qed.

Lemma tier_classification_witness :
  descending DEFAULT_survivalThresholds /\
  showBalance_status 7 DEFAULT_survivalThresholds = low_compute /\
  run_initialState 7 DEFAULT_survivalThresholds = low_compute.
Proof.
  assert (Ho : descending DEFAULT_survivalThresholds) by (split; reflexivity).
  split; [exact Ho|].
  exact (proj1 (proj2 (proj1 tier_classification DEFAULT_survivalThresholds
                         7%float Ho))
           eq_refl eq_refl).
Defined.

Lemma classification_monotone_witness :
  ordered DEFAULT_survivalThresholds /\
  le 4.99 10 = true /\
  distress (showBalance_status 10 DEFAULT_survivalThresholds)
  <= distress (showBalance_status 4.99 DEFAULT_survivalThresholds).
Proof.
  assert (Ho : ordered DEFAULT_survivalThresholds) by (repeat split; reflexivity).
  split; [exact Ho|]. split; [reflexivity|].
  exact (proj1 (proj1 (classification_monotone DEFAULT_survivalThresholds
                         4.99%float 10%float Ho eq_refl))).
Defined.

End RuntimeFacts.

(** ** The mode switch of the inference client *)

Module ProvidersFacts.

Import JS Types Providers Samples.

(** The provider and model that low-compute mode selects for a
    configuration: deepseek when it is configured, else tongyi when it is,
    else the primary provider with its default model. *)
Definition low_compute_choice (c : Client) : ProviderConfig * string :=
  match deepseek (providers c) with
  | Some d => (d, "deepseek-chat")
  | None =>
      match tongyi (providers c) with
      | Some q => (q, "qwen-turbo")
      | None => (primaryProvider c, defaultModel (primaryProvider c))
      end
  end.

Lemma created_initial (p : InferenceProviders) (c : Client) (s0 : Closure.t) :
  createMultiProviderClient p = Returns (c, s0) ->
  providers c = p /\ s0 = initial (primaryProvider c).
Proof.
  unfold createMultiProviderClient.
  destruct (or_else _ _) as [primary|]; [|discriminate].
  intros [= <- <-]. split; reflexivity.
Qed.

(** Without deepseek and tongyi the provider and the model never leave the
    primary ones. *)
Lemma reachable_primary (c : Client) (s : Closure.t) :
  deepseek (providers c) = None -> tongyi (providers c) = None ->
  reachable c s ->
  Closure.currentProvider s = primaryProvider c /\
  Closure.currentModel s = defaultModel (primaryProvider c).
Proof.
  intros Hd Ht Hr. induction Hr as [|enabled s Hr [IH1 IH2]].
  - split; reflexivity.
  - unfold setLowComputeMode. rewrite Hd, Ht.
    destruct enabled; simpl; auto.
Qed.

Lemma enable_reachable (c : Client) (s : Closure.t) :
  reachable c s ->
  setLowComputeMode c true s =
  {| Closure.currentProvider := fst (low_compute_choice c);
     Closure.currentModel := snd (low_compute_choice c);
     Closure.maxTokens := 2048 |}.
Proof.
  intros Hr. unfold setLowComputeMode, low_compute_choice.
  destruct (deepseek (providers c)) as [d|] eqn:Hd; [reflexivity|].
  destruct (tongyi (providers c)) as [q|] eqn:Ht; [reflexivity|].
  destruct (reachable_primary c s Hd Ht Hr) as [-> ->]. reflexivity.
Qed.

(** C6. For a client built from a provider configuration: enabling
    low-compute mode twice leaves the state (provider, model, token budget) as
    enabling it once does; whatever calls came before, enabling gives the same
    state, whose provider is deepseek when configured, else tongyi when
    configured, with the budget 2048; disabling gives back the state of
    construction: the primary provider, its default model and the original
    budget; and disabling twice is disabling once. *)
Theorem setLowComputeMode_idempotent
  (p : InferenceProviders) (c : Client) (s0 : Closure.t) :
  createMultiProviderClient p = Returns (c, s0) ->
  (forall s, setLowComputeMode c true (setLowComputeMode c true s)
             = setLowComputeMode c true s) /\
  (forall s s', reachable c s -> reachable c s' ->
                setLowComputeMode c true s = setLowComputeMode c true s') /\
  (forall s, reachable c s ->
             Closure.currentProvider (setLowComputeMode c true s)
             = fst (low_compute_choice c) /\
             Closure.currentModel (setLowComputeMode c true s)
             = snd (low_compute_choice c) /\
             Closure.maxTokens (setLowComputeMode c true s) = 2048%float) /\
  (forall s, setLowComputeMode c false s = s0 /\
             Closure.currentProvider (setLowComputeMode c false s)
             = primaryProvider c /\
             Closure.currentModel (setLowComputeMode c false s)
             = defaultModel (primaryProvider c) /\
             Closure.maxTokens (setLowComputeMode c false s)
             = Closure.maxTokens s0) /\
  (forall s, setLowComputeMode c false (setLowComputeMode c false s)
             = setLowComputeMode c false s).
Proof.
  intros Hc. destruct (created_initial p c s0 Hc) as [Hp ->].
  split; [|split; [|split; [|split]]].
  - intros s. unfold setLowComputeMode.
    destruct (deepseek (providers c)); [reflexivity|].
    destruct (tongyi (providers c)); reflexivity.
  - intros s s' Hs Hs'. now rewrite !enable_reachable.
  - intros s Hs. now rewrite enable_reachable.
  - intros s. repeat split.
  - intros s. reflexivity.
Qed.

Lemma setLowComputeMode_idempotent_witness :
  exists c s0,
    createMultiProviderClient three_providers = Returns (c, s0) /\
    setLowComputeMode c true (setLowComputeMode c true s0)
    = setLowComputeMode c true s0 /\
    Closure.currentModel (setLowComputeMode c true s0) = "deepseek-chat" /\
    setLowComputeMode c false (setLowComputeMode c true s0) = s0.
Proof.
  eexists _, _. split; [reflexivity|].
  match goal with
  | |- context [setLowComputeMode ?c _ ?s0] =>
      pose proof (setLowComputeMode_idempotent three_providers c s0 eq_refl)
        as (H1 & _ & _ & H4 & _)
  end.
  split; [apply H1|]. split; [reflexivity|]. apply H4.
Defined.

(** C10. When neither deepseek nor tongyi is configured, enabling
    low-compute mode keeps the active provider and the active model as they
    are, with no fallback to another provider, and sets the token budget to
    2048; the state has no other field, and the configuration the client
    captured is not written. *)
Theorem setLowComputeMode_without_cheap_provider (c : Client) (s : Closure.t) :
  deepseek (providers c) = None -> tongyi (providers c) = None ->
  setLowComputeMode c true s =
  {| Closure.currentProvider := Closure.currentProvider s;
     Closure.currentModel := Closure.currentModel s;
     Closure.maxTokens := 2048 |} /\
  getDefaultModel (setLowComputeMode c true s) = getDefaultModel s.
Proof.
  intros Hd Ht. unfold setLowComputeMode, getDefaultModel.
  rewrite Hd, Ht. split; reflexivity.
Qed.

Lemma setLowComputeMode_without_cheap_provider_witness :
  exists c s0,
    createMultiProviderClient openai_only = Returns (c, s0) /\
    Closure.currentModel (setLowComputeMode c true s0) = "gpt-4o-mini" /\
    Closure.maxTokens s0 = 8192%float /\
    Closure.maxTokens (setLowComputeMode c true s0) = 2048%float.
Proof.
  eexists _, _. split; [reflexivity|].
  match goal with
  | |- context [setLowComputeMode ?c _ ?s0] =>
      pose proof (setLowComputeMode_without_cheap_provider c s0 eq_refl eq_refl)
        as [H _]
  end.
  rewrite H. repeat split.
Defined.

End ProvidersFacts.

(** ** The request sent to the Anthropic backend *)

Module AnthropicFacts.

Import JS Types Providers.

(** The concatenation that joins entries with one newline between
    consecutive entries. *)
Definition join_lines (entries : list string) : string :=
  String.concat newline entries.

Definition is_system (msg : ChatMessage) : bool :=
  String.eqb (Types.role msg) "system".

(** The contents of the system messages of a transcript, in order. *)
Definition system_entries (msgs : list ChatMessage) : list string :=
  map Types.content (filter (fun m => is_system m = true) msgs).

Definition plain (r c : string) : ChatMessage :=
  {| Types.role := r; Types.content := c; Types.name := None;
     Types.tool_calls := None; Types.tool_call_id := None |}.

Definition params_of (msgs : list ChatMessage) : AnthropicParams :=
  {| a_model := "claude-3-5-sonnet-20241022"; a_tokenLimit := 4096;
     a_messages := msgs; a_tools := None; a_temperature := None;
     a_apiKey := "sk-test" |}.

(** The accumulation of the loop on the system entries alone. *)
Definition accumulate (acc : string) (entries : list string) : string :=
  fold_left
    (fun acc entry =>
       acc +:+ ((if truthy_string acc then newline else "") +:+ entry))
    entries acc.

Lemma split_step_eq (acc : string) (rest : list ChatMessage) (m : ChatMessage) :
  split_step (acc, rest) m =
  if is_system m
  then (acc +:+ ((if truthy_string acc then newline else "") +:+ Types.content m),
        rest)
  else (acc, rest ++ [m]).
Proof. reflexivity. Qed.

Lemma split_messages_from (msgs : list ChatMessage) (acc : string)
  (rest : list ChatMessage) :
  fold_left split_step msgs (acc, rest) =
  (accumulate acc (system_entries msgs),
   rest ++ filter (fun m => is_system m = false) msgs).
Proof.
  revert acc rest. induction msgs as [|m msgs IH]; intros acc rest.
  - simpl. now rewrite app_nil_r.
  - cbn [fold_left]. rewrite split_step_eq. unfold system_entries.
    rewrite !filter_cons.
    destruct (is_system m) eqn:E.
    + rewrite decide_True by reflexivity.
      rewrite decide_False by discriminate.
      rewrite IH. reflexivity.
    + rewrite decide_False by discriminate.
      rewrite decide_True by reflexivity.
      rewrite IH. now rewrite <- app_assoc.
Qed.

(** No message is dropped: the transcript sent is the messages that are not
    system messages, in order, each with its content. *)
Lemma anthropic_messages_kept (params : AnthropicParams) :
  Anthropic.messages (anthropic_body params) =
  map anthropic_message
      (filter (fun m => is_system m = false) (a_messages params)).
Proof.
  unfold anthropic_body, split_messages.
  rewrite split_messages_from. reflexivity.
Qed.

(** Only the roles user and assistant are sent. *)
Lemma anthropic_roles (params : AnthropicParams) :
  Forall (fun m => Anthropic.role m = "user" \/ Anthropic.role m = "assistant")
         (Anthropic.messages (anthropic_body params)).
Proof.
  rewrite anthropic_messages_kept. apply Forall_map, Forall_forall.
  intros m _. unfold anthropic_message; simpl.
  destruct (String.eqb _ _); auto.
Qed.

Lemma append_cons (c : ascii) (s t : string) :
  String c s +:+ t = String c (s +:+ t).
Proof. reflexivity. Qed.

Lemma append_empty_r (s : string) : s +:+ "" = s.
Proof. induction s as [|c s IH]; [reflexivity|]. now rewrite append_cons, IH. Qed.

Lemma append_assoc (a b c : string) : (a +:+ b) +:+ c = a +:+ (b +:+ c).
Proof.
  induction a as [|x a IH]; [reflexivity|]. now rewrite !append_cons, IH.
Qed.

Lemma truthy_append (a b : string) :
  truthy_string a = true -> truthy_string (a +:+ b) = true.
Proof. destruct a; [discriminate|reflexivity]. Qed.

(** The entries, each behind one newline. *)
Definition behind_newlines (entries : list string) : string :=
  fold_right (fun e rest => newline +:+ e +:+ rest) "" entries.

(** Once the accumulator is not empty, every entry is added behind one
    newline. *)
Lemma accumulate_nonempty (acc : string) (entries : list string) :
  truthy_string acc = true ->
  accumulate acc entries = acc +:+ behind_newlines entries.
Proof.
  revert acc. induction entries as [|e entries IH]; intros acc Hacc.
  - simpl. now rewrite append_empty_r.
  - unfold accumulate in *. cbn [fold_left]. rewrite Hacc.
    rewrite IH by now apply truthy_append.
    cbn [behind_newlines fold_right]. now rewrite !append_assoc.
Qed.

Lemma join_lines_cons (e : string) (entries : list string) :
  join_lines (e :: entries) = e +:+ behind_newlines entries.
Proof.
  unfold join_lines. revert e. induction entries as [|e' entries IH]; intros e.
  - simpl. now rewrite append_empty_r.
  - change (String.concat newline (e :: e' :: entries))
      with (e +:+ newline +:+ String.concat newline (e' :: entries)).
    rewrite IH. reflexivity.
Qed.

(** When the first system entry is not empty, the system field is the
    entries joined by single newlines. *)
Lemma anthropic_system_joined (params : AnthropicParams) (e : string)
  (entries : list string) :
  system_entries (a_messages params) = e :: entries ->
  truthy_string e = true ->
  Anthropic.system (anthropic_body params) = Some (join_lines (e :: entries)).
Proof.
  intros He Hne. unfold anthropic_body, split_messages.
  rewrite split_messages_from, He.
  change (accumulate "" (e :: entries)) with (accumulate e entries).
  rewrite accumulate_nonempty by assumption.
  cbn [Anthropic.system].
  rewrite truthy_append by assumption.
  now rewrite join_lines_cons.
Qed.

(** Leading empty entries leave the accumulator empty, so they vanish. *)
Fixpoint drop_empty (entries : list string) : list string :=
  match entries with
  | EmptyString :: rest => drop_empty rest
  | _ => entries
  end.

Lemma accumulate_drop_empty (entries : list string) :
  accumulate "" entries = accumulate "" (drop_empty entries).
Proof.
  induction entries as [|e entries IH]; [reflexivity|].
  destruct e as [|c e]; [|reflexivity].
  exact IH.
Qed.

(** What the system field is for every transcript: the system entries
    without the leading empty ones, joined by single newlines, and no field
    at all when nothing is left. *)
Lemma anthropic_system_general (params : AnthropicParams) :
  Anthropic.system (anthropic_body params) =
  match drop_empty (system_entries (a_messages params)) with
  | [] => None
  | e :: entries => Some (join_lines (e :: entries))
  end.
Proof.
  unfold anthropic_body, split_messages.
  rewrite split_messages_from, accumulate_drop_empty.
  cbn [Anthropic.system].
  destruct (drop_empty (system_entries (a_messages params)))
    as [|e entries] eqn:E; [reflexivity|].
  assert (He : truthy_string e = true).
  { clear -E. induction (system_entries (a_messages params)) as [|x l IH];
      [discriminate|].
    destruct x as [|c x]; [now apply IH|]. now injection E as <- _. }
  change (accumulate "" (e :: entries)) with (accumulate e entries).
  rewrite accumulate_nonempty by assumption.
  rewrite truthy_append by assumption.
  now rewrite join_lines_cons.
Qed.

(** C7, on an input where it fails. For the three messages system [""],
    system ["a"], user ["hi"], the system field sent is ["a"], while the two
    system entries joined with one newline between them give ["\na"]: the
    separator is left out whenever the text accumulated so far is empty, so a
    leading empty system entry is not separated from the next one. The
    transcript sent keeps the one other message, with role user. *)
Theorem anthropic_system_leading_empty :
  let msgs := [plain "system" ""; plain "system" "a"; plain "user" "hi"] in
  let body := anthropic_body (params_of msgs) in
  Anthropic.system body = Some "a" /\
  join_lines (system_entries msgs) = newline +:+ "a" /\
  Anthropic.system body <> Some (join_lines (system_entries msgs)) /\
  Anthropic.messages body =
    [{| Anthropic.role := "user"; Anthropic.content_ := "hi" |}].
Proof. repeat split. discriminate. Qed.

End AnthropicFacts.

(** ** Token usage *)

Module UsageFacts.

Import JS Types Providers.

(** On the Anthropic path the total is the sum of the two counts. *)
Lemma anthropic_usage_total (u : option Anthropic.Usage) :
  totalTokens (anthropic_usage u)
  = (promptTokens (anthropic_usage u) + completionTokens (anthropic_usage u))%float.
Proof. reflexivity. Qed.

(** On the OpenAI-compatible path a total that the response gives, and that
    is truthy, is passed on. *)
Lemma openai_usage_total_given (p c : option number) (t : number) :
  truthy_number t = true ->
  totalTokens
    (openai_usage
       (Some {| OpenAI.prompt_tokens := p; OpenAI.completion_tokens := c;
                OpenAI.total_tokens := Some t |})) = t.
Proof. intros H. simpl. now rewrite H. Qed.

(** On the OpenAI-compatible path a total that the response leaves out is
    reported as 0, whatever the two counts are. *)
Lemma openai_usage_total_missing (p c : option number) :
  totalTokens
    (openai_usage
       (Some {| OpenAI.prompt_tokens := p; OpenAI.completion_tokens := c;
                OpenAI.total_tokens := None |})) = 0%float.
Proof. reflexivity. Qed.

(** C8, on an input where it fails. A response of an OpenAI-compatible
    backend whose usage has 10 prompt tokens and 5 completion tokens and no
    total is reported with the total 0, not with the sum 15; the same counts
    on the Anthropic path give the total 15. *)
Theorem openai_usage_total_omitted :
  let u := openai_usage
             (Some {| OpenAI.prompt_tokens := Some 10%float;
                      OpenAI.completion_tokens := Some 5%float;
                      OpenAI.total_tokens := None |}) in
  promptTokens u = 10%float /\ completionTokens u = 5%float /\
  totalTokens u = 0%float /\
  (promptTokens u + completionTokens u)%float = 15%float /\
  totalTokens u <> (promptTokens u + completionTokens u)%float /\
  totalTokens
    (anthropic_usage
       (Some {| Anthropic.input_tokens := Some 10%float;
                Anthropic.output_tokens := Some 5%float |})) = 15%float.
Proof.
  repeat split. simpl. intros H.
  assert (E : (0 =? 15)%float = true) by (rewrite <- H; reflexivity).
  discriminate E.
Qed.

End UsageFacts.

(** ** The resource monitor *)

Module MonitorFacts.

Import JS Eff Monitor.

Section Poll.

Context {rt : Builtins}.
Variable getSurvivalTier : number -> SurvivalTier.

(** The value a guarded query leaves in its variable: the answer, or the
    initial [0] when the query throws. *)
Definition or_zero (o : outcome number) : number :=
  match o with
  | Returns x => x
  | Throws _ => 0%float
  end.

Definition healthy (o : outcome number) : bool :=
  match o with
  | Returns exitCode => (exitCode =? 0)%float
  | Throws _ => false
  end.

(** The status that a poll returns, and the table it leaves. *)
Definition polled (env : Probes) (db : KV) : ResourceStatus :=
  let credits := or_zero (getCreditsBalance env) in
  let tier := getSurvivalTier credits in
  {| financial := {| creditsCents := credits;
                     usdcBalance := or_zero (getUsdcBalance env);
                     lastChecked := now env |};
     tier := tier;
     previousTier := or_null (db !! "current_tier");
     tierChanged := tier_changed (or_null (db !! "current_tier")) tier;
     sandboxHealthy := healthy (exec_exitCode env) |}.

Definition persisted (st : ResourceStatus) (db : KV) : KV :=
  <["financial_state" := JSON_stringify (financial_json (financial st))]>
    (<["current_tier" := tier st]> db).

(** Whatever the three probes do, a poll returns. *)
Lemma checkResources_returns (env : Probes) (db : KV) :
  checkResources getSurvivalTier env db =
  (Returns (polled env db), persisted (polled env db) db).
Proof.
  unfold checkResources, polled, persisted, bind, try_catch, await, ret,
    getKV, setKV, modify.
  destruct (getCreditsBalance env), (getUsdcBalance env), (exec_exitCode env);
    reflexivity.
Qed.

(** C5. When a balance query throws (the credits balance, the USDC balance,
    or both), [checkResources] still returns: the failed query counts as the
    balance 0, a tier is classified from the credits balance, the change flag
    compares that tier with the tier record read from the table (no record, or
    an empty one, is no change), and the table afterwards holds the new tier
    and the new financial state, with every other key as before. *)
Theorem checkResources_oracle_failure (env : Probes) (db : KV) :
  (exists e, getCreditsBalance env = Throws e) \/
  (exists e, getUsdcBalance env = Throws e) ->
  exists (st : ResourceStatus) (db' : KV),
    checkResources getSurvivalTier env db = (Returns st, db') /\
    tier st = getSurvivalTier (creditsCents (financial st)) /\
    ((exists e, getCreditsBalance env = Throws e) ->
     creditsCents (financial st) = 0%float) /\
    ((exists e, getUsdcBalance env = Throws e) ->
     usdcBalance (financial st) = 0%float) /\
    previousTier st = or_null (db !! "current_tier") /\
    tierChanged st =
      match or_null (db !! "current_tier") with
      | None => false
      | Some previous => negb (String.eqb previous (tier st))
      end /\
    db' !! "current_tier" = Some (tier st) /\
    db' !! "financial_state"
      = Some (JSON_stringify (financial_json (financial st))) /\
    (forall key, key <> "current_tier" -> key <> "financial_state" ->
                 db' !! key = db !! key).
Proof.
  intros _. exists (polled env db), (persisted (polled env db) db).
  split; [apply checkResources_returns|].
  split; [reflexivity|].
  split; [intros [e He]; simpl; now rewrite He|].
  split; [intros [e He]; simpl; now rewrite He|].
  split; [reflexivity|]. split; [reflexivity|].
  unfold persisted. split; [|split].
  - rewrite lookup_insert_ne by discriminate. apply lookup_insert_eq.
  - apply lookup_insert_eq.
  - intros key H1 H2. now rewrite !lookup_insert_ne by congruence.
Qed.

End Poll.

Lemma checkResources_oracle_failure_witness :
  let db : KV := {["current_tier" := "normal"]} in
  exists (st : ResourceStatus) (db' : KV),
    checkResources (rt := Reference.runtime) Samples.sample_getSurvivalTier
      Samples.failing_probes db = (Returns st, db') /\
    tier st = "dead" /\ tierChanged st = true /\
    previousTier st = Some "normal" /\
    db' !! "current_tier" = Some "dead".
Proof.
  intros db.
  destruct (checkResources_oracle_failure (rt := Reference.runtime)
              Samples.sample_getSurvivalTier Samples.failing_probes db
              (or_introl (ex_intro _ "ECONNREFUSED" eq_refl)))
    as (st & db' & Hrun & Htier & Hc & _ & Hprev & Hchanged & Hkv & _).
  exists st, db'.
  assert (Hdead : tier st = "dead").
  { rewrite Htier, Hc by (now exists "ECONNREFUSED"). reflexivity. }
  split; [exact Hrun|]. split; [exact Hdead|].
  split; [rewrite Hchanged, Hdead; reflexivity|].
  split; [rewrite Hprev; reflexivity|].
  now rewrite Hkv, Hdead.
Defined.

End MonitorFacts.

(** ** The revenue server *)

Module RevenueFacts.

Import JS Eff Revenue.

Section Gate.

Context {rt : Builtins}.

(** The service the server resolves for a path: the first one configured
    with it. *)
Definition resolve (config : RevenueConfig) (p : string) : option ServiceConfig :=
  find (fun s => String.eqb (path s) p) (services config).

(** The two discovery paths, which are answered before any service. *)
Definition discovery (p : string) : bool :=
  String.eqb p "/health" || String.eqb p "/services".

(** A missing header and an empty one are the same to the server. *)
Definition no_payment (req : Request) : Prop :=
  x_payment req = None \/ x_payment req = Some "".

Lemma no_payment_or_null (req : Request) :
  no_payment req -> or_null (x_payment req) = None.
Proof. intros [-> | ->]; reflexivity. Qed.

Lemma handle_service (config : RevenueConfig) (req : Request)
  (service : ServiceConfig) :
  discovery (pathname req) = false ->
  resolve config (pathname req) = Some service ->
  handle config req =
  match or_null (x_payment req) with
  | None =>
      ret (send 402
             [("X-Payment-Required", JSON_stringify (challenge config service))]
             (payment_required_body config service))
  | Some paymentHeader => paid service req paymentHeader
  end.
Proof.
  unfold discovery, resolve, handle. intros Hd Hr.
  apply orb_false_iff in Hd as [-> ->]. now rewrite Hr.
Qed.

(** The amount of the challenge, read back from the JSON of the header. *)
Definition maxAmountRequired (ch : json) : option json :=
  match get_field "accepts" ch with
  | Some accepts =>
      match get_index 0 accepts with
      | Some first => get_field "maxAmountRequired" first
      | None => None
      end
  | None => None
  end.

(** C2, amended. A request without an X-Payment header (or with an empty
    one) to a configured service path other than the discovery paths /health
    and /services is answered with status 402, an X-Payment-Required header
    that is the JSON text of a challenge whose accepts[0].maxAmountRequired is
    the string of ceil(priceUsdc * 1_000_000), and a body that is the JSON text
    of an object with the fields error, price, currency, payTo and network;
    the price is the one of the first service configured with the path.
    Nothing is logged and no handler is called. *)
Theorem missing_payment_challenged (config : RevenueConfig) (req : Request)
  (service : ServiceConfig) (p : Process) :
  discovery (pathname req) = false ->
  resolve config (pathname req) = Some service ->
  no_payment req ->
  exists (r : Response) (ch payload : json),
    handle config req p = (Returns r, p) /\
    status r = 402%Z /\
    assoc_header "X-Payment-Required" (headers r) = Some (JSON_stringify ch) /\
    maxAmountRequired ch
      = Some (JStr (Number_toString
                      (Math_ceil (priceUsdc service * 1000000)%float))) /\
    body r = JSON_stringify payload /\
    field_names payload = ["error"; "price"; "currency"; "payTo"; "network"] /\
    get_field "price" payload = Some (JNum (priceUsdc service)).
Proof.
  intros Hd Hr Hn.
  exists (send 402
            [("X-Payment-Required", JSON_stringify (challenge config service))]
            (payment_required_body config service)),
         (challenge config service), (payment_required_body config service).
  rewrite (handle_service config req service Hd Hr).
  rewrite (no_payment_or_null req Hn).
  repeat split.
Qed.

(** Every branch of the request handler ends with a response, and none of
    them writes the tracker. *)
Lemma handle_responds (config : RevenueConfig) (req : Request) (p : Process) :
  exists (r : Response) (p' : Process),
    handle config req p = (Returns r, p') /\ tracker p' = tracker p.
Proof.
  unfold handle.
  destruct (String.eqb (pathname req) "/health"); [eexists _, _; split; reflexivity|].
  destruct (String.eqb (pathname req) "/services"); [eexists _, _; split; reflexivity|].
  destruct (find _ _) as [service|]; [|eexists _, _; split; reflexivity].
  destruct (or_null (x_payment req)) as [h|]; [|eexists _, _; split; reflexivity].
  unfold paid, parse, try_catch, bind, emit, modify, await, ret, throw.
  destruct (JSON_parse h) as [payment|]; [|eexists _, _; split; reflexivity].
  destruct (read_body req) as [b|e]; [|eexists _, _; split; reflexivity].
  destruct (handler service req b) as [result|e];
    eexists _, _; split; reflexivity.
Qed.

(** The paid branch on a header that parses and a body that is read: the
    handler is called, and its outcome alone decides the response. *)
Lemma paid_parsed (service : ServiceConfig) (req : Request) (p : Process)
  (header : string) (payment : json) (b : string) :
  JSON_parse header = Some payment ->
  read_body req = Returns b ->
  paid service req header p =
  match handler service req b with
  | Returns result =>
      (Returns (send 200 [] (JObj [("result", JStr result)])),
       {| tracker := tracker p;
          events := events p ++ [PaymentReceived payment;
                                 HandlerInvoked (path service) b] |})
  | Throws message =>
      (Returns (send 400 [] (JObj [("error", JStr "Invalid payment")])),
       {| tracker := tracker p;
          events := events p ++ [PaymentReceived payment;
                                 HandlerInvoked (path service) b;
                                 PaymentVerificationFailed message] |})
  end.
Proof.
  intros Hp Hb.
  unfold paid, parse, try_catch, bind, emit, modify, await, ret, throw.
  rewrite Hp, Hb. simpl.
  destruct (handler service req b); simpl; now rewrite <- !app_assoc.
Qed.

(** C3, where it fails. A payment header is checked for one thing, that it
    is JSON: for every header that parses, whatever it holds, the handler of
    the service is called and its result is sent with status 200. Nothing of
    the payment is read: no signature, no amount, no deadline, and no record
    of payments seen before. *)
Theorem paid_without_verification (config : RevenueConfig) (req : Request)
  (service : ServiceConfig) (p : Process) (header : string) (payment : json)
  (b result : string) :
  discovery (pathname req) = false ->
  resolve config (pathname req) = Some service ->
  x_payment req = Some header -> truthy_string header = true ->
  JSON_parse header = Some payment ->
  read_body req = Returns b ->
  handler service req b = Returns result ->
  handle config req p =
  (Returns (send 200 [] (JObj [("result", JStr result)])),
   {| tracker := tracker p;
      events := events p ++ [PaymentReceived payment;
                             HandlerInvoked (path service) b] |}).
Proof.
  intros Hd Hr Hx Ht Hp Hb Hh.
  rewrite (handle_service config req service Hd Hr), Hx. simpl. rewrite Ht.
  rewrite (paid_parsed service req p header payment b Hp Hb). now rewrite Hh.
Qed.

(** C4, where it fails. With a payment header that parses: when the handler
    throws, the response has status 400 with the error "Invalid payment", not
    a 5xx status; and whether the handler throws or returns, the tracker is
    left as it was, so that the earnings of a served request are not
    recorded. *)
Theorem handler_failure_and_earnings (config : RevenueConfig) (req : Request)
  (service : ServiceConfig) (p : Process) (header : string) (payment : json)
  (b : string) :
  discovery (pathname req) = false ->
  resolve config (pathname req) = Some service ->
  x_payment req = Some header -> truthy_string header = true ->
  JSON_parse header = Some payment ->
  read_body req = Returns b ->
  exists (r : Response) (p' : Process),
    handle config req p = (Returns r, p') /\
    getEarnings (tracker p') = getEarnings (tracker p) /\
    match handler service req b with
    | Throws _ =>
        status r = 400%Z /\
        body r = JSON_stringify (JObj [("error", JStr "Invalid payment")])
    | Returns result =>
        status r = 200%Z /\
        body r = JSON_stringify (JObj [("result", JStr result)])
    end.
Proof.
  intros Hd Hr Hx Ht Hp Hb.
  rewrite (handle_service config req service Hd Hr), Hx. simpl. rewrite Ht.
  rewrite (paid_parsed service req p header payment b Hp Hb).
  destruct (handler service req b); eexists _, _; repeat split.
Qed.

End Gate.

(** *** Runs on the reference runtime *)

Import Samples.

(** The end-to-end example: the chat service at 0.001 USDC asks for 1000
    atomic units. *)
Example chat_challenge_amount :
  maxAmountRequired
    (challenge (rt := Reference.runtime) (chat_config (fun _ => Returns "hi"))
       (chat_service (fun _ => Returns "hi")))
  = Some (JStr "1000").
Proof. reflexivity. Qed.

Lemma missing_payment_challenged_witness :
  let config := chat_config (fun _ => Returns "hi") in
  let req := request "/api/chat" None "" in
  discovery (pathname req) = false /\
  exists (r : Response) (ch payload : json),
    handle (rt := Reference.runtime) config req fresh = (Returns r, fresh) /\
    status r = 402%Z /\
    assoc_header "X-Payment-Required" (headers r)
      = Some (Reference.stringify ch) /\
    maxAmountRequired ch = Some (JStr "1000") /\
    body r = Reference.stringify payload /\
    field_names payload = ["error"; "price"; "currency"; "payTo"; "network"] /\
    get_field "price" payload = Some (JNum 0.001).
Proof.
  intros config req. split; [reflexivity|].
  exact (missing_payment_challenged (rt := Reference.runtime) config req
           (chat_service (fun _ => Returns "hi")) fresh
           eq_refl eq_refl (or_introl eq_refl)).
Defined.

(** C2, as stated, fails. A service configured at /health is a configured
    service path, and a request to it without an X-Payment header is answered
    by the health check: status 200, no X-Payment-Required header. *)
Lemma discovery_path_not_challenged :
  let req := request "/health" None "" in
  (exists service, resolve health_config (pathname req) = Some service) /\
  x_payment req = None /\
  exists r : Response,
    handle (rt := Reference.runtime) health_config req fresh = (Returns r, fresh) /\
    status r = 200%Z /\ status r <> 402%Z /\
    assoc_header "X-Payment-Required" (headers r) = None /\
    JSON_parse (Builtins := Reference.runtime) (body r)
      = Some (JObj [("status", JStr "ok"); ("services", JNum 1)]).
Proof.
  intros req. split; [eexists; reflexivity|]. split; [reflexivity|].
  eexists. split; [reflexivity|].
  split; [reflexivity|]. split; [discriminate|]. split; reflexivity.
Qed.

(** The request that shows C3 failing: the header is the empty JSON object. *)
Lemma paid_without_verification_witness :
  let config := chat_config (fun _ => Returns "hi") in
  let req := request "/api/chat" (Some "{}") "" in
  JSON_parse (Builtins := Reference.runtime) "{}" = Some (JObj []) /\
  exists r : Response,
    handle (rt := Reference.runtime) config req fresh =
    (Returns r,
     {| tracker := new_tracker;
        events := [PaymentReceived (JObj []); HandlerInvoked "/api/chat" ""] |}) /\
    status r = 200%Z /\
    JSON_parse (Builtins := Reference.runtime) (body r)
      = Some (JObj [("result", JStr "hi")]).
Proof.
  intros config req. split; [reflexivity|].
  eexists. split.
  - exact (paid_without_verification (rt := Reference.runtime) config req
             (chat_service (fun _ => Returns "hi")) fresh "{}" (JObj []) "" "hi"
             eq_refl eq_refl eq_refl eq_refl eq_refl eq_refl eq_refl).
  - split; reflexivity.
Defined.

(** The requests that show C4 failing: a handler that throws is answered
    with 400, and a handler that returns leaves the earnings empty. *)
Lemma handler_failure_and_earnings_witness :
  let failing := chat_config (fun _ => Throws "Inference error: 503: busy") in
  let serving := chat_config (fun _ => Returns "hi") in
  let req := request "/api/chat" (Some "{}") "" in
  (exists (r : Response) (p' : Process),
     handle (rt := Reference.runtime) failing req fresh = (Returns r, p') /\
     getEarnings (tracker p') = getEarnings new_tracker /\
     status r = 400%Z /\
     body r = Reference.stringify (JObj [("error", JStr "Invalid payment")])) /\
  (exists (r : Response) (p' : Process),
     handle (rt := Reference.runtime) serving req fresh = (Returns r, p') /\
     getEarnings (tracker p') = getEarnings new_tracker /\
     status r = 200%Z /\
     body r = Reference.stringify (JObj [("result", JStr "hi")])).
Proof.
  intros failing serving req. split.
  - exact (handler_failure_and_earnings (rt := Reference.runtime) failing req
             (chat_service (fun _ => Throws "Inference error: 503: busy"))
             fresh "{}" (JObj []) ""
             eq_refl eq_refl eq_refl eq_refl eq_refl eq_refl).
  - exact (handler_failure_and_earnings (rt := Reference.runtime) serving req
             (chat_service (fun _ => Returns "hi"))
             fresh "{}" (JObj []) ""
             eq_refl eq_refl eq_refl eq_refl eq_refl eq_refl).
Defined.

(** Had the served request been recorded, the tracker would hold the price. *)
Example recorded_earning :
  getEarnings (recordEarning "/api/chat" 0.001 new_tracker)
  = ({["/api/chat" := 0.001%float]}, 0.001%float).
Proof. reflexivity. Qed.

End RevenueFacts.

(** ** More on the revenue server: what every request gets *)

Module GateFacts.

Import JS Eff Revenue RevenueFacts.

Section Dispatch.

Context {rt : Builtins}.


(** The discovery paths are free: with or without a payment header, and
    even when a service is configured at the same path, /health reports the
    number of services and /services lists them with the payment address,
    both with status 200 and without a call of a handler. *)
Theorem discovery_is_free (config : RevenueConfig) (req : Request) (p : Process) :
  discovery (pathname req) = true ->
  exists payload : json,
    handle config req p = (Returns (send 200 [] payload), p) /\
    (pathname req = "/health" ->
     payload = JObj [("status", JStr "ok");
                     ("services",
                      JNum (of_Z (Z.of_nat (length (services config)))))]) /\
    (pathname req = "/services" ->
     get_field "paymentAddress" payload = Some (JStr (walletAddress config)) /\
     exists listed,
       get_field "services" payload = Some (JArr listed) /\
       length listed = length (services config) /\
       map (get_field "path") listed
       = map (fun s => Some (JStr (path s))) (services config)).
Proof.
  unfold discovery, handle. intros Hd.
  destruct (String.eqb (pathname req) "/health") eqn:E1.
  - apply String.eqb_eq in E1. eexists. split; [reflexivity|].
    split; [reflexivity|]. intros E2. rewrite E2 in E1. discriminate.
  - simpl in Hd. rewrite Hd. eexists. split; [reflexivity|]. split.
    + intros E2. rewrite E2 in E1. discriminate.
    + intros _. split; [reflexivity|]. eexists. split; [reflexivity|].
      split; [now rewrite length_map|].
      rewrite map_map. reflexivity.
Qed.

(** The events that a run of the request handler adds. *)
Definition new_events (config : RevenueConfig) (req : Request) (p : Process)
  : list Event :=
  drop (length (events p)) (events (snd (handle config req p))).

Definition is_invocation (e : Event) : bool :=
  match e with
  | HandlerInvoked _ _ => true
  | _ => false
  end.

(** The shape of a run of the paid branch. *)
Lemma paid_cases (service : ServiceConfig) (req : Request) (p : Process)
  (h : string) :
  exists (code : Z) (payload : json) (evs : list Event),
    paid service req h p =
    (Returns (send code [] payload),
     {| tracker := tracker p; events := events p ++ evs |}) /\
    (code = 200%Z \/ code = 400%Z) /\
    (code = 200%Z ->
     exists j b result,
       JSON_parse h = Some j /\ read_body req = Returns b /\
       handler service req b = Returns result /\
       payload = JObj [("result", JStr result)]) /\
    (code = 400%Z -> payload = JObj [("error", JStr "Invalid payment")]) /\
    (forall e, In e evs -> is_invocation e = true ->
       exists j b, JSON_parse h = Some j /\ read_body req = Returns b /\
                   e = HandlerInvoked (path service) b) /\
    length (filter (fun e => is_invocation e = true) evs) <= 1.
Proof.
  unfold paid, parse, try_catch, bind, emit, modify, await, ret, throw.
  destruct (JSON_parse h) as [j|] eqn:Hj; simpl.
  2:{ exists 400%Z, (JObj [("error", JStr "Invalid payment")]),
        [PaymentVerificationFailed "SyntaxError"].
      split; [reflexivity|]. split; [now right|].
      split; [discriminate|]. split; [reflexivity|].
      split; [|simpl; lia].
      intros e [<-|[]]; discriminate. }
  destruct (read_body req) as [b|m] eqn:Hb; simpl.
  2:{ exists 400%Z, (JObj [("error", JStr "Invalid payment")]),
        [PaymentReceived j; PaymentVerificationFailed m].
      split; [now rewrite <- !app_assoc|]. split; [now right|].
      split; [discriminate|]. split; [reflexivity|].
      split; [|simpl; lia].
      intros e [<-|[<-|[]]]; discriminate. }
  destruct (handler service req b) as [result|m] eqn:Hh; simpl.
  - exists 200%Z, (JObj [("result", JStr result)]),
      [PaymentReceived j; HandlerInvoked (path service) b].
    split; [now rewrite <- !app_assoc|]. split; [now left|].
    split; [intros _; now exists j, b, result|]. split; [discriminate|].
    split; [|simpl; lia].
    intros e [<-|[<-|[]]]; [discriminate|]. intros _. now exists j, b.
  - exists 400%Z, (JObj [("error", JStr "Invalid payment")]),
      [PaymentReceived j; HandlerInvoked (path service) b;
       PaymentVerificationFailed m].
    split; [now rewrite <- !app_assoc|]. split; [now right|].
    split; [discriminate|]. split; [reflexivity|].
    split; [|simpl; lia].
    intros e [<-|[<-|[<-|[]]]]; try discriminate. intros _. now exists j, b.
Qed.


(** A service handler is called only for a request to the path of its
    service, outside the discovery paths, whose payment header parses as JSON
    and whose body has been read; it is given that body. *)
Theorem handler_needs_parsed_payment (config : RevenueConfig) (req : Request)
  (p : Process) (called b : string) :
  In (HandlerInvoked called b) (new_events config req p) ->
  discovery (pathname req) = false /\
  exists (service : ServiceConfig) (h : string) (j : json),
    resolve config (pathname req) = Some service /\
    called = path service /\ path service = pathname req /\
    x_payment req = Some h /\ JSON_parse h = Some j /\
    read_body req = Returns b.
Proof.
  unfold new_events, discovery, resolve, handle.
  destruct (String.eqb (pathname req) "/health");
    [simpl; rewrite drop_all; intros []|].
  destruct (String.eqb (pathname req) "/services");
    [simpl; rewrite drop_all; intros []|].
  destruct (find _ _) as [service|] eqn:Hf;
    [|simpl; rewrite drop_all; intros []].
  destruct (x_payment req) as [h0|] eqn:Hx;
    [|simpl; rewrite drop_all; intros []]. simpl.
  destruct (truthy_string h0) eqn:Ht;
    [|simpl; rewrite drop_all; intros []].
  destruct (paid_cases service req p h0)
    as (code & payload & evs & -> & _ & _ & _ & Hinv & _).
  simpl. rewrite drop_app_length. intros Hin.
  destruct (Hinv _ Hin eq_refl) as (j & b' & Hj & Hb & [= -> ->]).
  split; [reflexivity|].
  exists service, h0, j. repeat split; auto.
  apply find_some in Hf as [_ Hp]. now apply String.eqb_eq in Hp.
Qed.


End Dispatch.

End GateFacts.

(** ** The revenue tracker *)

Module TrackerFacts.

Import JS Revenue.

(** A series of calls of [recordEarning], oldest first. *)
Definition record_all (calls : list (string * number)) (t : RevenueTracker)
  : RevenueTracker :=
  fold_left (fun t call => recordEarning (fst call) (snd call) t) calls t.

(** The calls made for one service. *)
Definition calls_for (service : string) (calls : list (string * number))
  : list (string * number) :=
  filter (fun call => String.eqb (fst call) service = true) calls.

(** The sum of the amounts from left to right, as the total accumulates
    it. *)
Definition running_sum (start : number) (amounts : list number) : number :=
  fold_left (fun acc a => (acc + a)%float) amounts start.

Lemma record_all_total (calls : list (string * number)) (t : RevenueTracker) :
  totalEarnings (record_all calls t)
  = running_sum (totalEarnings t) (map snd calls).
Proof.
  revert t. induction calls as [|[k a] calls IH]; intros t; [reflexivity|].
  unfold record_all in *. cbn [fold_left map]. now rewrite IH.
Qed.

Lemma record_other (service other : string) (amount : number)
  (t : RevenueTracker) :
  other <> service ->
  earnings (recordEarning other amount t) !! service = earnings t !! service.
Proof. intros H. unfold recordEarning; simpl. now rewrite lookup_insert_ne. Qed.

Lemma record_all_for (calls : list (string * number)) (service : string)
  (t u : RevenueTracker) :
  earnings t !! service = earnings u !! service ->
  earnings (record_all calls t) !! service
  = earnings (record_all (calls_for service calls) u) !! service.
Proof.
  revert t u. induction calls as [|[k a] calls IH]; intros t u Htu;
    [exact Htu|].
  unfold record_all, calls_for in *. cbn [fold_left].
  rewrite filter_cons. cbn [fst snd].
  destruct (String.eqb k service) eqn:E.
  - rewrite decide_True by reflexivity. cbn [fold_left fst snd].
    apply IH. apply String.eqb_eq in E. subst k.
    unfold recordEarning; simpl. rewrite !lookup_insert_eq. now rewrite Htu.
  - rewrite decide_False by congruence.
    apply IH. rewrite record_other; [exact Htu|].
    intros ->. now rewrite String.eqb_refl in E.
Qed.

(** The ledger after any series of earnings: the total is the sum of all
    amounts from left to right; the figure of a service is what the calls for
    that service alone would have given, so earnings of other services never
    change it; and a service for which nothing was recorded has no entry. *)
Theorem ledger_after (calls : list (string * number)) (service : string) :
  let t := record_all calls new_tracker in
  snd (getEarnings t) = running_sum 0 (map snd calls) /\
  fst (getEarnings t) !! service
  = earnings (record_all (calls_for service calls) new_tracker) !! service /\
  (calls_for service calls = [] -> fst (getEarnings t) !! service = None).
Proof.
  intros t. unfold getEarnings; simpl. split; [apply record_all_total|].
  assert (H : earnings t !! service
              = earnings (record_all (calls_for service calls) new_tracker)
                  !! service) by now apply record_all_for.
  split; [exact H|]. intros Hnone. rewrite H, Hnone. reflexivity.
Qed.

(** When the calls are all for one service and no running figure before
    the last is zero or NaN, the figure of the service is the total. *)
Theorem single_service_total (service : string) (amounts : list number) :
  (forall n, (0 < n < length amounts)%nat ->
             truthy_number (running_sum 0 (take n amounts)) = true) ->
  let t := record_all (map (fun a => (service, a)) amounts) new_tracker in
  match amounts with
  | [] => fst (getEarnings t) !! service = None
  | _ :: _ => fst (getEarnings t) !! service = Some (snd (getEarnings t))
  end.
Proof.
  intros Hsum t. destruct amounts as [|a0 rest]; [reflexivity|].
  subst t. unfold getEarnings; simpl fst; simpl snd.
  assert (G : forall (l : list number) (u : RevenueTracker),
             earnings u !! service = Some (totalEarnings u) ->
             (forall n, (n < length l)%nat ->
                truthy_number (running_sum (totalEarnings u) (take n l)) = true) ->
             earnings (record_all (map (fun a => (service, a)) l) u) !! service
             = Some (totalEarnings
                       (record_all (map (fun a => (service, a)) l) u))).
  { induction l as [|a l IH]; intros u Hu Ht; [exact Hu|].
    unfold record_all in *. cbn [map fold_left fst snd].
    apply IH.
    - unfold recordEarning; simpl. rewrite lookup_insert_eq, Hu. simpl.
      specialize (Ht 0%nat ltac:(simpl; lia)). simpl in Ht. now rewrite Ht.
    - intros n Hn. specialize (Ht (S n) ltac:(simpl; lia)).
      exact Ht. }
  unfold record_all in *. cbn [map fold_left fst snd].
  apply G.
  - unfold recordEarning; simpl. now rewrite lookup_insert_eq.
  - intros n Hn. specialize (Hsum (S n) ltac:(simpl; lia)). exact Hsum.
Qed.

(** A float that is NaN decodes to NaN, and adding to NaN gives NaN. *)
Lemma is_nan_decode (x : number) : is_nan x = true -> Prim2SF x = S754_nan.
Proof.
  unfold is_nan. rewrite FloatAxioms.eqb_spec. unfold SFeqb.
  destruct (Prim2SF x) as [[]|[]| |[] m e]; simpl; try discriminate; auto.
  - rewrite Z.compare_refl.
    change (Pos.compare_cont Eq m m) with (Pos.compare m m).
    rewrite Pos.compare_refl. discriminate.
  - rewrite Z.compare_refl.
    change (Pos.compare_cont Eq m m) with (Pos.compare m m).
    rewrite Pos.compare_refl. discriminate.
Qed.

Lemma decode_is_nan (x : number) : Prim2SF x = S754_nan -> is_nan x = true.
Proof.
  intros H. unfold is_nan. rewrite FloatAxioms.eqb_spec, H. reflexivity.
Qed.

Lemma nan_add (x a : number) : is_nan x = true -> is_nan (x + a)%float = true.
Proof.
  intros H. apply decode_is_nan. rewrite add_spec, (is_nan_decode x H).
  reflexivity.
Qed.

(** An earning that is NaN spoils the total for good: once the total is
    NaN it stays NaN whatever is recorded. The figure of a service recovers:
    when it is NaN, the next earning of the service is counted from zero. *)
Theorem nan_total_is_permanent (calls : list (string * number))
  (t : RevenueTracker) (service : string) (v amount : number) :
  is_nan (totalEarnings t) = true ->
  is_nan (snd (getEarnings (record_all calls t))) = true /\
  (earnings t !! service = Some v -> is_nan v = true ->
   earnings (recordEarning service amount t) !! service
   = Some (0 + amount)%float).
Proof.
  intros Hnan. split.
  - unfold getEarnings; simpl. rewrite record_all_total.
    revert Hnan. generalize (totalEarnings t) as x.
    induction (map snd calls) as [|a l IH]; intros x Hx; [exact Hx|].
    simpl. apply IH. now apply nan_add.
  - intros Hv Hvn. unfold recordEarning; simpl.
    rewrite lookup_insert_eq, Hv. simpl.
    unfold truthy_number. rewrite Hvn, orb_true_r. reflexivity.
Qed.

End TrackerFacts.

(** ** The resource monitor over several polls *)

Module PollFacts.

Import JS Eff Monitor MonitorFacts.

Section Polls.

Context {rt : Builtins}.
Variable getSurvivalTier : number -> SurvivalTier.

(** Two polls in a row: the second finds the tier that the first stored.
    Its previous tier is the tier of the first poll (none when that tier is
    the empty string), it reports a change exactly when the two tiers differ,
    and so reports none when the credits query answers the same both times. *)
Theorem consecutive_polls (env1 env2 : Probes) (db : KV) :
  exists (st1 st2 : ResourceStatus) (db1 db2 : KV),
    checkResources getSurvivalTier env1 db = (Returns st1, db1) /\
    checkResources getSurvivalTier env2 db1 = (Returns st2, db2) /\
    previousTier st2 = or_null (Some (tier st1)) /\
    tierChanged st2
    = truthy_string (tier st1) && negb (String.eqb (tier st1) (tier st2)) /\
    (or_zero (getCreditsBalance env1) = or_zero (getCreditsBalance env2) ->
     tierChanged st2 = false) /\
    db2 !! "current_tier" = Some (tier st2).
Proof.
  exists (polled getSurvivalTier env1 db),
         (polled getSurvivalTier env2
            (persisted (polled getSurvivalTier env1 db) db)),
         (persisted (polled getSurvivalTier env1 db) db),
         (persisted
            (polled getSurvivalTier env2
               (persisted (polled getSurvivalTier env1 db) db))
            (persisted (polled getSurvivalTier env1 db) db)).
  split; [apply checkResources_returns|].
  split; [apply checkResources_returns|].
  assert (Hread : persisted (polled getSurvivalTier env1 db) db !! "current_tier"
                  = Some (tier (polled getSurvivalTier env1 db))).
  { unfold persisted. rewrite lookup_insert_ne by discriminate.
    apply lookup_insert_eq. }
  split; [simpl; now rewrite Hread|].
  split.
  { simpl. rewrite Hread. simpl.
    destruct (truthy_string (getSurvivalTier (or_zero (getCreditsBalance env1))));
      reflexivity. }
  split.
  { intros Heq. simpl. rewrite Hread. simpl. rewrite Heq.
    destruct (truthy_string _); [|reflexivity].
    simpl. now rewrite String.eqb_refl. }
  unfold persisted at 1. rewrite lookup_insert_ne by discriminate.
  apply lookup_insert_eq.
Qed.

(** The tier comes from the credits balance alone. Two polls that get the
    same credits answer (a failed query counting as 0) over tables with the
    same tier record classify the same tier, report the same change and store
    the same tier, whatever the USDC query and the sandbox probe do; and a
    table without a tier record, or with an empty one, gives no change. *)
Theorem tier_ignores_usdc_and_sandbox (env env' : Probes) (db db' : KV) :
  or_zero (getCreditsBalance env) = or_zero (getCreditsBalance env') ->
  db !! "current_tier" = db' !! "current_tier" ->
  exists (st st' : ResourceStatus) (out out' : KV),
    checkResources getSurvivalTier env db = (Returns st, out) /\
    checkResources getSurvivalTier env' db' = (Returns st', out') /\
    tier st = tier st' /\ tierChanged st = tierChanged st' /\
    previousTier st = previousTier st' /\
    out !! "current_tier" = out' !! "current_tier" /\
    (or_null (db !! "current_tier") = None -> tierChanged st = false) /\
    (sandboxHealthy st = true <->
     exists code, exec_exitCode env = Returns code /\ (code =? 0)%float = true).
Proof.
  intros Hc Hdb.
  exists (polled getSurvivalTier env db), (polled getSurvivalTier env' db'),
    (persisted (polled getSurvivalTier env db) db),
    (persisted (polled getSurvivalTier env' db') db').
  split; [apply checkResources_returns|].
  split; [apply checkResources_returns|].
  simpl. rewrite Hc, Hdb.
  split; [reflexivity|]. split; [reflexivity|]. split; [reflexivity|].
  split.
  { unfold persisted.
    rewrite (lookup_insert_ne _ "financial_state" "current_tier") by discriminate.
    rewrite (lookup_insert_ne _ "financial_state" "current_tier") by discriminate.
    rewrite !lookup_insert_eq. simpl. now rewrite Hc. }
  split; [now intros ->|].
  unfold healthy. destruct (exec_exitCode env) as [code|m]; split.
  - intros H. now exists code.
  - now intros (code' & [= <-] & H).
  - discriminate.
  - now intros (code' & [=] & _).
Qed.

End Polls.

End PollFacts.

(** ** The inference client: routing and reachable states *)

Module ClientFacts.

Import JS Types Providers ProvidersFacts.

(** The providers of a configuration that the router can name, and all of
    them. *)
Definition named (p : InferenceProviders) : list (option ProviderConfig) :=
  [deepseek p; tongyi p; openai p; anthropic p].

Definition configured (p : InferenceProviders) : list (option ProviderConfig) :=
  named p ++ [custom p].

(** The model and the provider that [chat] settles on. *)
Definition chosen_model (s : Closure.t) (opts : option InferenceOptions)
  : string :=
  or_string (opts ≫= opt_model) (Closure.currentModel s).

Definition route (c : Client) (s : Closure.t) (opts : option InferenceOptions)
  : ProviderConfig :=
  default (Closure.currentProvider s)
    (resolveProvider (chosen_model s opts) (providers c)).



Lemma resolve_named (model : string) (p : InferenceProviders) (c : ProviderConfig) :
  resolveProvider model p = Some c -> In (Some c) (named p).
Proof.
  intros H. unfold resolveProvider, when, or_else in H. unfold named.
  repeat match type of H with
         | context [includes ?a ?b] => destruct (includes a b)
         end;
    destruct (deepseek p), (tongyi p), (anthropic p), (openai p);
    simpl in *; try discriminate; injection H as <-; auto 6.
Qed.

Lemma resolve_none (model : string) (p : InferenceProviders) :
  named p = [None; None; None; None] -> resolveProvider model p = None.
Proof.
  unfold named. intros [= Hd Ht Ho Ha].
  unfold resolveProvider, when, or_else. cbv zeta. rewrite Hd, Ht, Ho, Ha.
  repeat match goal with
         | |- context [includes ?a ?b] => destruct (includes a b)
         end; reflexivity.
Qed.


Lemma primary_configured (p : InferenceProviders) (c : Client) (s0 : Closure.t) :
  createMultiProviderClient p = Returns (c, s0) ->
  In (Some (primaryProvider c)) (configured p) /\
  (named p <> [None; None; None; None] -> In (Some (primaryProvider c)) (named p)).
Proof.
  unfold createMultiProviderClient, configured, named, or_else.
  destruct (deepseek p) as [d|]; [intros [= <- _]; simpl; auto|].
  destruct (tongyi p) as [t|]; [intros [= <- _]; simpl; auto|].
  destruct (openai p) as [o|]; [intros [= <- _]; simpl; auto|].
  destruct (anthropic p) as [a|]; [intros [= <- _]; simpl; auto 6|].
  destruct (custom p) as [k|]; [|discriminate].
  intros [= <- _]. simpl. split; [auto 6|]. intros H. now destruct H.
Qed.

Lemma reachable_state (p : InferenceProviders) (c : Client) (s : Closure.t) :
  providers c = p ->
  reachable c s ->
  In (Some (Closure.currentProvider s))
     [Some (primaryProvider c); deepseek p; tongyi p] /\
  (Closure.maxTokens s = Closure.maxTokens (initial (primaryProvider c)) \/
   Closure.maxTokens s = 2048%float) /\
  In (Closure.currentModel s)
     [defaultModel (primaryProvider c); "deepseek-chat"; "qwen-turbo"].
Proof.
  intros Hp Hr. induction Hr as [|enabled s Hr (IH1 & IH2 & IH3)].
  - simpl. auto.
  - unfold setLowComputeMode. rewrite Hp. destruct enabled; [|simpl; auto].
    destruct (deepseek p) as [d|]; [simpl; auto 6|].
    destruct (tongyi p) as [t|]; [simpl; auto 6|].
    simpl. auto.
Qed.

(** In every state that calls of [setLowComputeMode] can reach, the active
    provider is one of the configured ones (the primary one, deepseek or
    tongyi), the token budget is the one of construction or 2048, and the
    active model is the default model of the primary provider or one of the
    two low-compute models. *)
Theorem client_invariant (p : InferenceProviders) (c : Client)
  (s0 s : Closure.t) :
  createMultiProviderClient p = Returns (c, s0) ->
  reachable c s ->
  In (Some (Closure.currentProvider s)) (configured p) /\
  In (Some (Closure.currentProvider s))
     [Some (primaryProvider c); deepseek p; tongyi p] /\
  (Closure.maxTokens s = Closure.maxTokens s0 \/
   Closure.maxTokens s = 2048%float) /\
  In (Closure.currentModel s)
     [defaultModel (primaryProvider c); "deepseek-chat"; "qwen-turbo"].
Proof.
  intros Hc Hr.
  destruct (created_initial p c s0 Hc) as [Hp ->].
  destruct (primary_configured p c _ Hc) as [Hprim _].
  destruct (reachable_state p c s Hp Hr) as (H1 & H2 & H3). split; [|auto].
  unfold configured, named. simpl in H1.
  destruct H1 as [<-|[<-|[<-|[]]]]; [exact Hprim|simpl; auto|simpl; auto].
Qed.

(** A custom provider is called only when it is the only provider: as soon
    as one of deepseek, tongyi, openai and anthropic is configured, every call
    of [chat], in every reachable state and with any options, goes to one of
    those four; and when the custom provider is alone every call goes to it. *)
Theorem custom_only_when_alone (p : InferenceProviders) (c : Client)
  (s0 s : Closure.t) (opts : option InferenceOptions) :
  createMultiProviderClient p = Returns (c, s0) ->
  reachable c s ->
  (named p <> [None; None; None; None] -> In (Some (route c s opts)) (named p)) /\
  (named p = [None; None; None; None] -> custom p = Some (route c s opts)).
Proof.
  intros Hc Hr.
  destruct (created_initial p c s0 Hc) as [Hp _].
  destruct (reachable_state p c s Hp Hr) as (Hcur & _ & _).
  destruct (primary_configured p c s0 Hc) as [Hany Hnamed].
  unfold route. rewrite Hp. split.
  - intros Hn.
    destruct (resolveProvider _ p) as [r|] eqn:E; simpl.
    + exact (resolve_named _ p r E).
    + simpl in Hcur. destruct Hcur as [<-|[<-|[<-|[]]]].
      * now apply Hnamed.
      * unfold named; simpl; auto.
      * unfold named; simpl; auto.
  - intros Hn.
    rewrite (resolve_none (chosen_model s opts) p Hn). simpl.
    assert (Hprim : custom p = Some (primaryProvider c)).
    { unfold configured in Hany. rewrite Hn in Hany. simpl in Hany.
      destruct Hany as [H|[H|[H|[H|[H|[]]]]]]; try discriminate. now symmetry. }
    unfold named in Hn. injection Hn as Hd Ht _ _.
    simpl in Hcur. rewrite Hd, Ht in Hcur.
    destruct Hcur as [H|[H|[H|[]]]]; try discriminate.
    injection H as <-. exact Hprim.
Qed.

Section Calls.

Context {rt : Builtins}.

Variable requestOpenAi
  : string -> string -> OpenAI.Body -> outcome (HttpResponse OpenAI.Data).
Variable requestAnthropic
  : string -> string -> Anthropic.Body -> outcome (HttpResponse Anthropic.Data).


(** A call of [chat] returns only when the provider answered with an ok
    status and a body that decodes, over exactly one of the two paths, the
    one that the name of the routed provider selects. The tool calls of the
    response are those of its message, and its finish reason is not empty. *)
Theorem chat_returns (c : Client) (s : Closure.t) (messages : list ChatMessage)
  (opts : option InferenceOptions) (r : InferenceResponse) :
  chat requestOpenAi requestAnthropic c s messages opts = Returns r ->
  toolCalls r = msg_tool_calls (message r) /\
  truthy_string (finishReason r) = true /\
  ((name (route c s opts) = "anthropic" /\
    exists body resp data,
      requestAnthropic "https://api.anthropic.com/v1/messages"
        (apiKey (route c s opts)) body = Returns resp /\
      ok resp = true /\ json_body resp = Returns data /\
      msg_role (message r) = "assistant" /\ toolCalls r <> Some []) \/
   (name (route c s opts) <> "anthropic" /\
    exists body resp data choice,
      requestOpenAi (apiUrl (route c s opts) +:+ "/v1/chat/completions")
        (apiKey (route c s opts)) body = Returns resp /\
      ok resp = true /\ json_body resp = Returns data /\
      first_choice data = Some choice /\
      OpenAI.body_model body = chosen_model s opts)).
Proof.
  unfold chat. fold (chosen_model s opts). fold (route c s opts).
  set (p := route c s opts).
  destruct (String.eqb (name p) "anthropic") eqn:E.
  - apply String.eqb_eq in E. unfold chatViaAnthropic.
    match goal with
    | |- context [requestAnthropic ?u ?k ?b] =>
        destruct (requestAnthropic u k b) as [resp|] eqn:Hq; [|discriminate];
        set (body := b) in *
    end.
    destruct (ok resp) eqn:Hok; [|discriminate]. simpl.
    destruct (json_body resp) as [data|] eqn:Hj; [|discriminate].
    intros [= <-]. unfold anthropic_result.
    destruct (fold_left block_step _ _) as [content calls]. simpl.
    split; [reflexivity|]. split.
    { destruct (Anthropic.stop_reason data) as [[|a t]|]; reflexivity. }
    left. split; [exact E|]. exists body, resp, data.
    repeat split; auto. destruct calls; discriminate.
  - apply String.eqb_neq in E. unfold chatViaOpenAiCompatible.
    match goal with
    | |- context [requestOpenAi ?u ?k ?b] =>
        destruct (requestOpenAi u k b) as [resp|] eqn:Hq; [|discriminate];
        set (body := b) in *
    end.
    destruct (ok resp) eqn:Hok; [|discriminate]. simpl.
    destruct (json_body resp) as [data|] eqn:Hj; [|discriminate].
    unfold openai_result.
    destruct (first_choice data) as [choice|] eqn:Hc; [|discriminate].
    intros [= <-]. simpl.
    split; [reflexivity|]. split.
    { destruct (OpenAI.finish_reason choice) as [[|a t]|]; reflexivity. }
    right. split; [exact E|]. exists body, resp, data, choice.
    repeat split; auto.
Qed.

End Calls.

(** The text blocks of a response, and its tool uses as tool calls. *)
Definition block_text (b : Anthropic.Block) : string :=
  match b with
  | Anthropic.text_block t => t
  | _ => ""
  end.

Definition block_call {rt : Builtins} (b : Anthropic.Block)
  : list InferenceToolCall :=
  match b with
  | Anthropic.tool_use_block i n input =>
      [{| call_id := i;
          call_function :=
            {| fn_name := n; fn_arguments := JSON_stringify input |} |}]
  | _ => []
  end.

Lemma blocks_from {rt : Builtins} (blocks : list Anthropic.Block)
  (content : string) (calls : list InferenceToolCall) :
  fold_left block_step blocks (content, calls)
  = (content +:+ fold_right String.append "" (map block_text blocks),
     calls ++ flat_map block_call blocks).
Proof.
  revert content calls.
  induction blocks as [|b blocks IH]; intros content calls.
  - simpl. now rewrite AnthropicFacts.append_empty_r, app_nil_r.
  - cbn [fold_left map fold_right flat_map]. destruct b as [t|i n input|]; simpl.
    + rewrite IH. now rewrite AnthropicFacts.append_assoc.
    + rewrite IH. now rewrite <- app_assoc.
    + rewrite IH. reflexivity.
Qed.

(** The answer built from an Anthropic response: its text is the text
    blocks joined in order, its tool calls are the tool-use blocks in order
    with the input serialised, blocks of other kinds are dropped, and no tool
    use gives no [toolCalls] field rather than an empty list. *)
Theorem anthropic_result_blocks {rt : Builtins} (params : AnthropicParams)
  (data : Anthropic.Data) :
  let blocks := default [] (Anthropic.content data) in
  let r := anthropic_result params data in
  msg_content (message r)
  = fold_right String.append "" (map block_text blocks) /\
  toolCalls r = non_empty (flat_map block_call blocks) /\
  (toolCalls r = None <->
   forall b, In b blocks -> block_call b = []).
Proof.
  intros blocks r. subst r. unfold anthropic_result. fold blocks.
  rewrite blocks_from. simpl.
  split; [reflexivity|]. split; [reflexivity|].
  induction blocks as [|b blocks IH]; simpl.
  - split; [intros _ b []|reflexivity].
  - destruct b as [t|i n input|]; simpl.
    + rewrite IH. split; [intros H b [<-|Hb]; auto|intros H b Hb; auto].
    + split; [discriminate|]. intros H. now specialize (H _ (or_introl eq_refl)).
    + rewrite IH. split; [intros H b [<-|Hb]; auto|intros H b Hb; auto].
Qed.

End ClientFacts.

(** ** The agent loop: tools, turns and the conversation *)

Module AgentFacts.

Import JS Types Eff Agent.

Section Tools.

Context {rt : Builtins} {World : Type}.
Variable env : Collaborators World.

Lemma executeToolCall_returns (toolName : string) (args : json) (w : World) :
  exists (answer : string) (w' : World),
    executeToolCall env toolName args w = (Returns answer, w').
Proof.
  unfold executeToolCall, try_catch.
  set (body := if String.eqb toolName "exec" then _ else _).
  destruct (body w) as [[answer|e] w']; eauto.
Qed.

(** [executeToolCall] never throws: whatever the tool, the arguments and
    the collaborators do, it returns a string. When the arguments are [null],
    the four tools that read them report the TypeError of the first property
    they read, and nothing outside is called. *)
Theorem executeToolCall_never_throws (toolName : string) (args : json)
  (w : World) :
  exists (result : string) (w' : World),
    executeToolCall env toolName args w = (Returns result, w') /\
    (args = JNull ->
     In toolName ["exec"; "read_file"; "write_file"; "list_dir"] ->
     w' = w /\
     result = "Error: " +:+
              null_property env
                (if String.eqb toolName "exec" then "command" else "path")).
Proof.
  unfold executeToolCall, try_catch.
  set (body := if String.eqb toolName "exec" then _ else _).
  destruct (body w) as [[answer|e] w'] eqn:E; subst body.
  - exists answer, w'. split; [reflexivity|].
    intros -> Hin. simpl in Hin.
    destruct Hin as [<-|[<-|[<-|[<-|[]]]]]; simpl in E; discriminate.
  - eexists _, w'. split; [reflexivity|].
    intros -> Hin. simpl in Hin.
    destruct Hin as [<-|[<-|[<-|[<-|[]]]]]; simpl in E;
      injection E as <- <-; split; reflexivity.
Qed.

(** A tool that is not among the five offered to the model is answered
    "Unknown tool: name"; nothing outside is called. *)
Theorem unknown_tool (toolName : string) (args : json) (w : World) :
  ~ In toolName (map def_name getAvailableTools) ->
  executeToolCall env toolName args w
  = (Returns ("Unknown tool: " +:+ toolName), w).
Proof.
  intros Hn. unfold executeToolCall, try_catch. simpl in Hn.
  repeat match goal with
         | |- context [String.eqb toolName ?k] =>
             destruct (String.eqb_spec toolName k) as [->|_];
             [exfalso; apply Hn; auto 10|]
         end.
  reflexivity.
Qed.

(** Each of the five tools offered to the model is handled: on arguments
    that are an object it reaches a collaborator, so that when the
    collaborators fail with an error the result is that error. *)
Theorem offered_tools_handled (toolName : string)
  (fields : list (string * json)) (w : World) (e : string) :
  In toolName (map def_name getAvailableTools) ->
  (forall c t w, conway_exec env c t w = (Throws e, w)) ->
  (forall p w, conway_readFile env p w = (Throws e, w)) ->
  (forall p c w, conway_writeFile env p c w = (Throws e, w)) ->
  (forall p w, fs_readdirSync env p w = (Throws e, w)) ->
  (forall w, getUsdcBalance env w = (Throws e, w)) ->
  executeToolCall env toolName (JObj fields) w
  = (Returns ("Error: " +:+ e), w).
Proof.
  intros Hin Hx Hr Hw Hl Hb. simpl in Hin.
  unfold executeToolCall, try_catch, bind, property, ret.
  destruct Hin as [<-|[<-|[<-|[<-|[<-|[]]]]]]; simpl;
    rewrite ?Hx, ?Hr, ?Hw, ?Hl, ?Hb; reflexivity.
Qed.

(** The trimming keeps the first message and the last fifty: a conversation
    of more than 52 messages is cut to 51, a shorter one is left alone. *)
Theorem trimmed_keeps (history : list ChatMessage) :
  length (trimmed history) <= 52 /\
  head (trimmed history) = head history /\
  (52 < length history ->
   trimmed history = take 1 history ++ drop (length history - 50) history /\
   length (trimmed history) = 51) /\
  (length history <= 52 -> trimmed history = history).
Proof.
  unfold trimmed, splice.
  destruct (Nat.ltb_spec 52 (length history)) as [H|H].
  - replace (1 + (length history - 51)) with (length history - 50) by lia.
    assert (Hl : length (take 1 history ++ drop (length history - 50) history)
                 = 51).
    { rewrite length_app, length_take, length_drop. lia. }
    split; [lia|]. split; [|split; [auto|lia]].
    destruct history; [simpl in H; lia|reflexivity].
  - split; [lia|]. split; [reflexivity|]. split; [lia|reflexivity].
Qed.

Lemma run_tools_appends (calls : list InferenceToolCall) (r : Run World) :
  exists (o : outcome unit) (added : list ChatMessage) (w : World),
    run_tools env calls r
    = (o, {| conversationHistory := conversationHistory r ++ added;
             slept := slept r;
             world := w |}).
Proof.
  revert r. induction calls as [|tc calls IH]; intros r.
  - exists (Returns tt), [], (world r). simpl. unfold ret.
    rewrite app_nil_r. now destruct r.
  - cbn [run_tools]. unfold bind at 1.
    destruct (JSON_parse _) as [j|].
    + unfold ret at 1. unfold bind at 1. unfold call.
      destruct (executeToolCall_returns (fn_name (call_function tc)) j (world r))
        as (answer & w' & ->).
      unfold bind at 1. unfold push at 1. unfold modify. cbn [conversationHistory slept world].
      match goal with
      | |- context [run_tools env calls ?r1] =>
          destruct (IH r1) as (o & added & w2 & ->)
      end.
      cbn [conversationHistory slept world].
      eexists o, (_ :: added), w2. now rewrite <- app_assoc.
    + unfold throw. exists (Throws "SyntaxError"), [], (world r).
      rewrite app_nil_r. now destruct r.
Qed.

(** The two ways a turn ends. It never throws. Either it fails, in the call
    of the model or in the parsing of the arguments of a tool call: then the
    conversation is only added to and is not trimmed, and the loop sleeps five
    seconds. Or it completes: then at least the answer of the model has been
    added, the conversation is trimmed, and the loop sleeps one second, after
    the minute that the model may have asked for. *)
Lemma turn_cases (r : Run World) :
  exists (r' : Run World) (added : list ChatMessage),
    turn env r = (Returns tt, r') /\
    ((slept r' = slept r ++ [5000%Z] /\
      conversationHistory r' = conversationHistory r ++ added) \/
     (added <> [] /\
      conversationHistory r' = trimmed (conversationHistory r ++ added) /\
      (slept r' = slept r ++ [1000%Z] \/
       slept r' = slept r ++ [60000%Z; 1000%Z]))).
Proof.
  unfold turn, try_catch, attempt. unfold bind at 1. unfold get.
  unfold bind at 1. unfold call.
  destruct (chat env (conversationHistory r) options (world r)) as [[resp|e] w].
  2:{ eexists _, []. split; [reflexivity|]. left. simpl.
      now rewrite app_nil_r. }
  unfold bind at 1. unfold push at 1. unfold modify at 1.
  cbn [conversationHistory slept world].
  unfold bind at 1.
  destruct (toolCalls resp) as [[|tc rest]|].
  - destruct (Providers.includes _ _).
    + eexists _, [_; _]. split; [reflexivity|]. right. simpl.
      split; [discriminate|]. rewrite <- !app_assoc. simpl. auto.
    + eexists _, [_]. split; [reflexivity|]. right. simpl.
      split; [discriminate|]. auto.
  - match goal with
    | |- context [run_tools env (tc :: rest) ?r1] =>
        destruct (run_tools_appends (tc :: rest) r1) as (o & added & w2 & ->)
    end.
    cbn [conversationHistory slept world].
    destruct o as [[]|e].
    + eexists _, (_ :: added). split; [reflexivity|]. right. simpl.
      split; [discriminate|]. rewrite <- !app_assoc. simpl. auto.
    + eexists _, (_ :: added). split; [reflexivity|]. left. simpl.
      rewrite <- !app_assoc. simpl. auto.
  - destruct (Providers.includes _ _).
    + eexists _, [_; _]. split; [reflexivity|]. right. simpl.
      split; [discriminate|]. rewrite <- !app_assoc. simpl. auto.
    + eexists _, [_]. split; [reflexivity|]. right. simpl.
      split; [discriminate|]. auto.
Qed.

Lemma trimmed_head (history : list ChatMessage) :
  head (trimmed history) = head history.
Proof.
  unfold trimmed, splice.
  destruct (52 <? length history)%nat eqn:E; [|reflexivity].
  apply Nat.ltb_lt in E. destruct history; [simpl in E; lia|reflexivity].
Qed.

Lemma trimmed_length (history : list ChatMessage) :
  length (trimmed history) <= 52.
Proof.
  unfold trimmed, splice.
  destruct (Nat.ltb_spec 52 (length history)) as [H|H]; [|lia].
  rewrite length_app, length_take, length_drop. lia.
Qed.

Lemma head_app_keeps (history added : list ChatMessage) (m : ChatMessage) :
  head history = Some m -> head (history ++ added) = Some m.
Proof. destruct history; [discriminate|auto]. Qed.

Lemma turn_head (r : Run World) :
  exists r' : Run World,
    turn env r = (Returns tt, r') /\
    (forall m, head (conversationHistory r) = Some m ->
               head (conversationHistory r') = Some m) /\
    length (slept r) + 1 <= length (slept r') <= length (slept r) + 2.
Proof.
  destruct (turn_cases r) as (r' & added & Ht & [[Hs Hh]|(_ & Hh & Hs)]);
    exists r'; (split; [exact Ht|]); split.
  - intros m Hm. rewrite Hh. now apply head_app_keeps.
  - rewrite Hs, length_app. simpl. lia.
  - intros m Hm. rewrite Hh, trimmed_head. now apply head_app_keeps.
  - destruct Hs as [-> | ->]; rewrite length_app; simpl; lia.
Qed.

(** A turn never throws and never loses the first message of the
    conversation. A turn that completes leaves at most 52 messages; a turn
    that fails leaves everything that was there and what it added before the
    failure, untrimmed. *)
Theorem turn_outcome (r : Run World) :
  exists (r' : Run World) (added : list ChatMessage),
    turn env r = (Returns tt, r') /\
    (forall m, head (conversationHistory r) = Some m ->
               head (conversationHistory r') = Some m) /\
    ((slept r' = slept r ++ [5000%Z] /\
      conversationHistory r' = conversationHistory r ++ added) \/
     ((slept r' = slept r ++ [1000%Z] \/
       slept r' = slept r ++ [60000%Z; 1000%Z]) /\
      added <> [] /\
      conversationHistory r' = trimmed (conversationHistory r ++ added) /\
      length (conversationHistory r') <= 52)).
Proof.
  destruct (turn_cases r) as (r' & added & Ht & [[Hs Hh]|(Ha & Hh & Hs)]);
    exists r', added; (split; [exact Ht|]); split.
  - intros m Hm. rewrite Hh. now apply head_app_keeps.
  - left. auto.
  - intros m Hm. rewrite Hh, trimmed_head. now apply head_app_keeps.
  - right. repeat split; auto. rewrite Hh. apply trimmed_length.
Qed.

Lemma turns_head (n : nat) (r : Run World) :
  exists r' : Run World,
    turns env n r = (Returns tt, r') /\
    (forall m, head (conversationHistory r) = Some m ->
               head (conversationHistory r') = Some m) /\
    length (slept r) + n <= length (slept r') <= length (slept r) + 2 * n.
Proof.
  revert r. induction n as [|n IH]; intros r.
  - exists r. split; [reflexivity|]. split; [auto|lia].
  - cbn [turns]. unfold bind.
    destruct (turn_head r) as (r1 & -> & Hh1 & Hs1).
    destruct (IH r1) as (r2 & -> & Hh2 & Hs2).
    exists r2. split; [reflexivity|]. split; [auto|lia].
Qed.

(** The agent loop never throws, whatever the model, the tools and the
    parsing of tool arguments do: it returns after its thousand turns, with
    the system prompt still the first message of the conversation, and it has
    slept at least once and at most twice in every turn. *)
Theorem runSimpleAgentLoop_returns (systemPrompt genesisPrompt : string)
  (w : World) :
  exists r' : Run World,
    turns env maxTurns (start systemPrompt genesisPrompt w) = (Returns tt, r') /\
    runSimpleAgentLoop env systemPrompt genesisPrompt w
    = (Returns tt, world r') /\
    head (conversationHistory r') = Some (said "system" systemPrompt) /\
    1000 <= length (slept r') <= 2000.
Proof.
  destruct (turns_head maxTurns (start systemPrompt genesisPrompt w))
    as (r' & Ht & Hh & Hs).
  exists r'. split; [exact Ht|]. split.
  - unfold runSimpleAgentLoop. now rewrite Ht.
  - split; [now apply Hh|]. simpl in Hs. unfold maxTurns in Hs. lia.
Qed.

(** The bound on the conversation holds only after a turn that completes.
    When the model keeps answering with a tool call whose arguments are not
    JSON, every turn fails after the answer has been added: the conversation
    grows by one message a turn and is never trimmed. *)
Theorem failed_turns_grow_history (resp : InferenceResponse)
  (bad : InferenceToolCall) (rest : list InferenceToolCall) (n : nat)
  (r : Run World) :
  (forall h o w, exists w', chat env h o w = (Returns resp, w')) ->
  toolCalls resp = Some (bad :: rest) ->
  JSON_parse (fn_arguments (call_function bad)) = None ->
  exists r' : Run World,
    turns env n r = (Returns tt, r') /\
    conversationHistory r'
    = conversationHistory r ++ replicate n (entry (message resp)) /\
    length (conversationHistory r') = length (conversationHistory r) + n.
Proof.
  intros Hchat Hcalls Hbad. revert r. induction n as [|n IH]; intros r.
  - exists r. split; [reflexivity|]. simpl. rewrite app_nil_r. split; [auto|lia].
  - cbn [turns]. unfold bind at 1.
    unfold turn, try_catch, attempt. unfold bind at 1. unfold get.
    unfold bind at 1. unfold call.
    destruct (Hchat (conversationHistory r) options (world r)) as (w' & ->).
    unfold bind at 1. unfold push at 1. unfold modify at 1.
    cbn [conversationHistory slept world].
    unfold bind at 1. rewrite Hcalls. cbn [run_tools].
    unfold bind at 1. rewrite Hbad. unfold throw. unfold sleep, modify.
    cbn [conversationHistory slept world].
    match goal with
    | |- context [turns env n ?r1] => destruct (IH r1) as (r2 & -> & Hh & Hl)
    end.
    cbn [conversationHistory] in Hh, Hl.
    exists r2. split; [reflexivity|]. split.
    + rewrite Hh, <- app_assoc. reflexivity.
    + rewrite Hl, length_app. simpl. lia.
Qed.

End Tools.

End AgentFacts.

(** ** Saved configurations and their keys *)

Module ConfigFacts.

Import JS Providers Config.

Definition redacted (key : string) : Prop := key = "[REDACTED]" \/ key = "".

Lemma redact_key (q : ProviderConfig) : redacted (apiKey (redact q)).
Proof. unfold redacted, redact; simpl. destruct (truthy_string _); auto. Qed.

Lemma redact_idempotent (q : ProviderConfig) : redact (redact q) = redact q.
Proof. unfold redact; simpl. now destruct (truthy_string (apiKey q)). Qed.

Lemma redact_slot (slot : option ProviderConfig) (q : ProviderConfig) :
  redact <$> slot = Some q -> redacted (apiKey q).
Proof. destruct slot; [intros [= <-]; apply redact_key|discriminate]. Qed.

(** No key survives [sanitizeProviders]: every provider of the result has
    the key "[REDACTED]" or the empty key, and is otherwise the provider it
    was; sanitising twice is sanitising once; and the same slots are filled,
    so that a client built from the result has the redacted copy of the same
    primary provider. *)
Theorem sanitizeProviders_redacts (p : InferenceProviders) :
  (forall q, In (Some q) (ClientFacts.configured (sanitizeProviders p)) ->
     redacted (apiKey q) /\
     exists q0, In (Some q0) (ClientFacts.configured p) /\
       name q = name q0 /\ apiUrl q = apiUrl q0 /\
       defaultModel q = defaultModel q0 /\ maxTokens q = maxTokens q0 /\
       truthy_string (apiKey q) = truthy_string (apiKey q0)) /\
  sanitizeProviders (sanitizeProviders p) = sanitizeProviders p /\
  createMultiProviderClient (sanitizeProviders p)
  = match createMultiProviderClient p with
    | Returns (c, _) =>
        Returns ({| providers := sanitizeProviders p;
                    primaryProvider := redact (primaryProvider c) |},
                 initial (redact (primaryProvider c)))
    | Throws e => Throws e
    end.
Proof.
  split; [|split].
  - intros q Hq. unfold ClientFacts.configured, ClientFacts.named in *.
    simpl in Hq.
    assert (H : exists q0, In (Some q0)
                  [deepseek p; tongyi p; openai p; anthropic p; custom p] /\
                q = redact q0).
    { destruct Hq as [H|[H|[H|[H|[H|[]]]]]];
        [destruct (deepseek p) as [q0|] eqn:E
        |destruct (tongyi p) as [q0|] eqn:E
        |destruct (openai p) as [q0|] eqn:E
        |destruct (anthropic p) as [q0|] eqn:E
        |destruct (custom p) as [q0|] eqn:E];
        try discriminate; injection H as <-; exists q0; simpl; auto 10. }
    destruct H as (q0 & Hin & ->). split; [apply redact_key|].
    exists q0. split; [exact Hin|]. simpl.
    repeat split. now destruct (truthy_string (apiKey q0)).
  - unfold sanitizeProviders; simpl.
    destruct (deepseek p), (tongyi p), (openai p), (anthropic p), (custom p);
      simpl; rewrite ?redact_idempotent; reflexivity.
  - unfold createMultiProviderClient, sanitizeProviders, or_else; simpl.
    destruct (deepseek p); [reflexivity|].
    destruct (tongyi p); [reflexivity|].
    destruct (openai p); [reflexivity|].
    destruct (anthropic p); [reflexivity|].
    destruct (custom p); reflexivity.
Qed.

(** Whether a slot of the configuration holds a provider. *)
Definition filled (slot : option ProviderConfig) : bool :=
  match slot with
  | Some _ => true
  | None => false
  end.

(** What the key overrides of [run] give on a sanitised configuration: the
    keys of deepseek, tongyi and openai are those of the environment when the
    variable is set and not empty, and stay redacted otherwise; the keys of
    anthropic and of a custom provider stay redacted whatever the environment
    holds. The overrides fill no slot and empty none. *)
Theorem overrides_restore_three_keys (env : Environment)
  (p : InferenceProviders) :
  let p' := run_overrides env (sanitizeProviders p) in
  let restored (variable : option string) (slot : option ProviderConfig) :=
    forall q, slot = Some q ->
      match or_null variable with
      | Some k => apiKey q = k
      | None => redacted (apiKey q)
      end in
  restored (DEEPSEEK_API_KEY env) (deepseek p') /\
  restored (TONGYI_API_KEY env) (tongyi p') /\
  restored (OPENAI_API_KEY env) (openai p') /\
  (forall q, anthropic p' = Some q \/ custom p' = Some q ->
             redacted (apiKey q)) /\
  map filled (ClientFacts.configured p') = map filled (ClientFacts.configured p).
Proof.
  intros p' restored. subst p' restored. unfold run_overrides, override. simpl.
  split; [|split; [|split; [|split]]].
  - intros q. destruct (or_null (DEEPSEEK_API_KEY env)) as [k|];
      destruct (deepseek p); simpl; try discriminate.
    + now intros [= <-].
    + intros [= <-]. apply redact_key.
  - intros q. destruct (or_null (TONGYI_API_KEY env)) as [k|];
      destruct (tongyi p); simpl; try discriminate.
    + now intros [= <-].
    + intros [= <-]. apply redact_key.
  - intros q. destruct (or_null (OPENAI_API_KEY env)) as [k|];
      destruct (openai p); simpl; try discriminate.
    + now intros [= <-].
    + intros [= <-]. apply redact_key.
  - intros q [H|H]; eapply redact_slot; exact H.
  - unfold ClientFacts.configured, ClientFacts.named; simpl.
    destruct (or_null (DEEPSEEK_API_KEY env)), (or_null (TONGYI_API_KEY env)),
      (or_null (OPENAI_API_KEY env)),
      (deepseek p), (tongyi p), (openai p), (anthropic p), (custom p);
      reflexivity.
Qed.

End ConfigFacts.

(** ** The chat of the message handler: what is kept of a conversation *)

Module HandlerFacts.

Import JS Types Eff Handler.

Section Conversations.

Context {World : Type}.
Variable env : Collaborators World.

(** The conversation that is sent to the model: the one in the table, with
    the system prompt put first when there is nothing yet, and the question
    of the user at the end. *)
Definition opened (stored : option (list ChatMessage)) (content : string)
  : list ChatMessage :=
  let history := default [] stored in
  (if (length history =? 0)%nat
   then history ++ [Agent.said "system" system_prompt]
   else history) ++ [Agent.said "user" content].

(** The answer that is given for a response of the model. *)
Definition reply_of (response : InferenceResponse) : string :=
  or_string (Some (msg_content (message response))) fallback_reply.

Lemma shortened_head (history : list ChatMessage) :
  head (shortened history) = head history.
Proof.
  unfold shortened.
  destruct (20 <? length history)%nat eqn:E; [|reflexivity].
  apply Nat.ltb_lt in E. destruct history; [simpl in E; lia|reflexivity].
Qed.

Lemma shortened_length (history : list ChatMessage) :
  length (shortened history) <= 20 /\
  (length history <= 20 -> shortened history = history) /\
  (20 < length history -> length (shortened history) = 19).
Proof.
  unfold shortened.
  destruct (Nat.ltb_spec 20 (length history)) as [H|H].
  - rewrite length_app, length_take, length_drop. lia.
  - split; [lia|]. split; [reflexivity|lia].
Qed.

Lemma handleChat_checked (userId content : string) (st : MessageHandler World)
  (b : number) (w1 : World) :
  getBalance env userId (world st) = (Returns b, w1) ->
  lt b PRICING_chat_short = false ->
  handleChat env userId content st
  = let history := opened (conversationHistory st !! userId) content in
    let table :=
      match conversationHistory st !! userId with
      | Some _ => <[userId := history]> (conversationHistory st)
      | None => conversationHistory st
      end in
    match chat env history w1 with
    | (Throws e, w2) =>
        (Returns unavailable, {| conversationHistory := table; world := w2 |})
    | (Returns response, w2) =>
        let reply := reply_of response in
        let kept := shortened (history ++ [Agent.said "assistant" reply]) in
        match deduct env userId (calculateChatFee content reply)
                fee_description w2 with
        | (Returns _, w3) =>
            (Returns reply,
             {| conversationHistory := <[userId := kept]> table; world := w3 |})
        | (Throws _, w3) =>
            (Returns unavailable,
             {| conversationHistory := <[userId := kept]> table; world := w3 |})
        end
    end.
Proof.
  intros Hb Hlt. unfold handleChat. unfold bind at 1. unfold call at 1.
  rewrite Hb, Hlt. unfold bind at 1. unfold get. cbn [conversationHistory world].
  fold (opened (conversationHistory st !! userId) content).
  set (history := opened (conversationHistory st !! userId) content).
  unfold bind at 1.
  destruct (conversationHistory st !! userId) as [h|] eqn:Hs.
  - unfold store at 1. unfold modify at 1. unfold try_catch, bind, call, store, modify, ret.
    cbn [conversationHistory world].
    destruct (chat env history w1) as [[response|e] w2]; [|reflexivity].
    cbn [conversationHistory world]. fold (reply_of response).
    destruct (deduct env userId _ _ w2) as [[paid|e] w3]; reflexivity.
  - unfold ret at 1. unfold try_catch, bind, call, store, modify, ret.
    cbn [conversationHistory world].
    destruct (chat env history w1) as [[response|e] w2]; [|reflexivity].
    cbn [conversationHistory world]. fold (reply_of response).
    destruct (deduct env userId _ _ w2) as [[paid|e] w3]; reflexivity.
Qed.

(** When the model fails, the user is told that the service is not
    available and nothing is deducted. The question stays in the conversation
    of a user who had one, without an answer and without any shortening; for
    a user without a conversation nothing is recorded. Other users are not
    touched. *)
Theorem failed_chat_keeps_question (userId content : string)
  (st : MessageHandler World) (b : number) (w1 w2 : World) (e : string) :
  getBalance env userId (world st) = (Returns b, w1) ->
  lt b PRICING_chat_short = false ->
  chat env (opened (conversationHistory st !! userId) content) w1
  = (Throws e, w2) ->
  exists st' : MessageHandler World,
    handleChat env userId content st = (Returns unavailable, st') /\
    world st' = w2 /\
    conversationHistory st' !! userId
    = (fun _ => opened (conversationHistory st !! userId) content)
      <$> (conversationHistory st !! userId) /\
    (forall other, other <> userId ->
       conversationHistory st' !! other = conversationHistory st !! other).
Proof.
  intros Hb Hlt Hc. rewrite (handleChat_checked _ _ _ _ _ Hb Hlt).
  cbv zeta. rewrite Hc. eexists. split; [reflexivity|]. split; [reflexivity|].
  cbn [conversationHistory].
  destruct (conversationHistory st !! userId) as [h|] eqn:Hs.
  - split; [now rewrite lookup_insert_eq|].
    intros other Ho. now rewrite lookup_insert_ne.
  - split; [now rewrite Hs|]. auto.
Qed.

(** When the model answers, the answer is given to the user whether the
    deduction succeeds or not: the result of [deduct] is not looked at, and
    only a throw of it turns the answer into the message that the service is
    not available. The fee is 1, 3 or 5 credits. The conversation that is
    kept ends with the answer, has at most 20 messages and has kept its
    first. *)
Theorem answered_chat (userId content : string) (st : MessageHandler World)
  (b : number) (w1 w2 w3 : World) (response : InferenceResponse)
  (paid : outcome bool) :
  getBalance env userId (world st) = (Returns b, w1) ->
  lt b PRICING_chat_short = false ->
  chat env (opened (conversationHistory st !! userId) content) w1
  = (Returns response, w2) ->
  deduct env userId (calculateChatFee content (reply_of response))
    fee_description w2 = (paid, w3) ->
  exists (st' : MessageHandler World) (kept : list ChatMessage),
    handleChat env userId content st
    = (Returns (match paid with
                | Returns _ => reply_of response
                | Throws _ => unavailable
                end), st') /\
    world st' = w3 /\
    conversationHistory st' !! userId = Some kept /\
    kept = shortened (opened (conversationHistory st !! userId) content
                        ++ [Agent.said "assistant" (reply_of response)]) /\
    length kept <= 20 /\
    head kept = head (opened (conversationHistory st !! userId) content) /\
    In (calculateChatFee content (reply_of response)) [1; 3; 5]%float /\
    truthy_string (reply_of response) = true.
Proof.
  intros Hb Hlt Hc Hd. rewrite (handleChat_checked _ _ _ _ _ Hb Hlt).
  cbv zeta. rewrite Hc, Hd.
  eexists _, _. split; [destruct paid; reflexivity|].
  split; [destruct paid; reflexivity|].
  split; [destruct paid; cbn [conversationHistory]; apply lookup_insert_eq|].
  split; [reflexivity|].
  split; [apply shortened_length|].
  split.
  { rewrite shortened_head. unfold opened.
    destruct (_ =? _)%nat; destruct (default [] _); reflexivity. }
  split.
  { unfold calculateChatFee, PRICING_chat_short, PRICING_chat_medium,
      PRICING_chat_long.
    destruct (_ <? 200)%nat; [simpl; auto|].
    destruct (_ <? 1000)%nat; simpl; auto. }
  unfold reply_of, or_string.
  destruct (truthy_string (msg_content (message response))) eqn:E;
    [exact E|reflexivity].
Qed.

(** The states of the handler: the table is empty at construction, only
    [handleChat] writes it, and anything may happen outside between two
    calls. *)
Inductive reachable : MessageHandler World -> Prop :=
  | reach_new (w : World) :
      reachable {| conversationHistory := ∅; world := w |}
  | reach_outside (st : MessageHandler World) (w : World) :
      reachable st ->
      reachable {| conversationHistory := conversationHistory st; world := w |}
  | reach_chat (userId content : string) (st st' : MessageHandler World)
      (o : outcome string) :
      reachable st ->
      handleChat env userId content st = (o, st') ->
      reachable st'.

(** Every conversation in the table starts with the system prompt and holds
    at least a question and an answer after it, whatever calls were made and
    however they ended. *)
Theorem conversations_start_with_system_prompt (st : MessageHandler World)
  (userId : string) (history : list ChatMessage) :
  reachable st ->
  conversationHistory st !! userId = Some history ->
  head history = Some (Agent.said "system" system_prompt) /\
  3 <= length history.
Proof.
  intros Hr. revert userId history.
  induction Hr as [w|st w Hr IH|user content st st' o Hr IH Hcall];
    intros userId history Hl.
  - discriminate.
  - exact (IH _ _ Hl).
  - unfold handleChat in Hcall. unfold bind at 1 in Hcall.
    unfold call at 1 in Hcall.
    destruct (getBalance env user (world st)) as [[b|e] w1] eqn:Hb.
    2:{ injection Hcall as _ <-. exact (IH _ _ Hl). }
    destruct (lt b PRICING_chat_short) eqn:Hlt.
    { unfold ret in Hcall. injection Hcall as _ <-. exact (IH _ _ Hl). }
    pose proof (handleChat_checked user content st b w1 Hb Hlt) as Heq.
    unfold handleChat in Heq. unfold bind at 1 in Heq.
    unfold call at 1 in Heq. rewrite Hb, Hlt in Heq.
    rewrite Heq in Hcall. clear Heq. cbv zeta in Hcall.
    assert (Hopen : forall h,
               conversationHistory st !! user = Some h ->
               head (opened (Some h) content)
               = Some (Agent.said "system" system_prompt) /\
               3 <= length (opened (Some h) content)).
    { intros h Hh. destruct (IH _ _ Hh) as [Hhead Hlen].
      unfold opened. simpl.
      destruct h as [|m h]; [simpl in Hlen; lia|]. simpl. simpl in Hhead.
      split; [exact Hhead|]. rewrite length_app. simpl in *. lia. }
    assert (Hkept : forall reply,
               let kept := shortened
                             (opened (conversationHistory st !! user) content
                                ++ [Agent.said "assistant" reply]) in
               head kept = Some (Agent.said "system" system_prompt) /\
               3 <= length kept).
    { intros reply kept. subst kept. split.
      - rewrite shortened_head.
        destruct (conversationHistory st !! user) as [h|] eqn:Hs.
        + destruct (Hopen h eq_refl) as [Hh _].
          destruct (opened (Some h) content); [discriminate|exact Hh].
        + reflexivity.
      - set (full := _ ++ [Agent.said "assistant" reply]).
        assert (Hfull : 3 <= length full).
        { subst full. rewrite length_app. simpl.
          destruct (conversationHistory st !! user) as [h|] eqn:Hs.
          - destruct (Hopen h eq_refl) as [_ Hn]. lia.
          - simpl. lia. }
        destruct (shortened_length full) as (_ & Hsame & Hcut).
        destruct (Nat.le_gt_cases (length full) 20) as [Hle|Hgt].
        + now rewrite (Hsame Hle).
        + rewrite (Hcut Hgt). lia. }
    destruct (chat env _ w1) as [[response|e] w2].
    + destruct (deduct env user _ _ w2) as [[paid|e] w3];
        injection Hcall as _ <-; cbn [conversationHistory] in Hl;
        (destruct (decide (userId = user)) as [->|Hne];
         [rewrite lookup_insert_eq in Hl; injection Hl as <-; apply Hkept
         |rewrite lookup_insert_ne in Hl by congruence;
          destruct (conversationHistory st !! user) as [h|] eqn:Hs;
          [rewrite lookup_insert_ne in Hl by congruence|];
          exact (IH _ _ Hl)]).
    + injection Hcall as _ <-. cbn [conversationHistory] in Hl.
      destruct (conversationHistory st !! user) as [h|] eqn:Hs;
        [|exact (IH _ _ Hl)].
      destruct (decide (userId = user)) as [->|Hne].
      * rewrite lookup_insert_eq in Hl. injection Hl as <-. now apply Hopen.
      * rewrite lookup_insert_ne in Hl by congruence. exact (IH _ _ Hl).
Qed.

End Conversations.

End HandlerFacts.

(** ** The built-in services behind the payment gate *)

Module ServicesFacts.

Import JS Types Revenue RevenueFacts Services.

Section Catalogue.

Context {rt : Builtins}.
Variable inference : list Prompt -> outcome InferenceResponse.
Variable cannot_destructure : string.
Variable cannot_convert : string.

Definition defaults : list ServiceConfig :=
  createDefaultServices inference cannot_destructure cannot_convert.

(** A server that is configured with the built-in services serves each of
    them: none sits on a discovery path and no two share a path, so that the
    path of a service resolves to that service. The amounts that the payment
    challenges ask for, in millionths of a USDC, are whole: 1000, 5000, 3000,
    10000 and 8000. *)
Theorem default_services_resolve (port : number) (network : Network)
  (walletAddress : string) :
  let config :=
    {| Revenue.port := port;
       Revenue.network := network;
       Revenue.walletAddress := walletAddress;
       services := defaults |} in
  Forall (fun s => discovery (path s) = false /\
                   resolve config (path s) = Some s) defaults /\
  map (fun s => Math_ceil (priceUsdc s * 1000000)%float) defaults
  = [1000; 5000; 3000; 10000; 8000]%float.
Proof.
  intros config. split.
  - unfold defaults, createDefaultServices.
    repeat constructor.
  - reflexivity.
Qed.


End Catalogue.

End ServicesFacts.

(** ** Runs of the properties on the reference runtime *)

Module Scenarios.

Import JS Types Eff Revenue Monitor Providers Samples.


(** The health check of a catalogue that has a service at /health. *)
Lemma discovery_is_free_witness :
  exists payload : json,
    handle (rt := Reference.runtime) health_config
      (request "/health" (Some "{}") "") fresh
    = (Returns (send (rt := Reference.runtime) 200 [] payload), fresh) /\
    payload = JObj [("status", JStr "ok"); ("services", JNum 1)].
Proof.
  destruct (GateFacts.discovery_is_free (rt := Reference.runtime) health_config
              (request "/health" (Some "{}") "") fresh eq_refl)
    as (payload & Hrun & Hhealth & _).
  exists payload. split; [exact Hrun|]. rewrite (Hhealth eq_refl). reflexivity.
Defined.

(** A paid chat request: the handler is called, and the header had parsed. *)
Lemma handler_needs_parsed_payment_witness :
  let config := chat_config (fun _ => Returns "hi") in
  let req := request "/api/chat" (Some "{}") "hello" in
  In (HandlerInvoked "/api/chat" "hello")
     (GateFacts.new_events (rt := Reference.runtime) config req fresh) /\
  exists (service : ServiceConfig) (h : string) (j : json),
    RevenueFacts.resolve config (pathname req) = Some service /\
    x_payment req = Some h /\
    JSON_parse (Builtins := Reference.runtime) h = Some j.
Proof.
  intros config req.
  assert (Hin : In (HandlerInvoked "/api/chat" "hello")
                  (GateFacts.new_events (rt := Reference.runtime) config req
                     fresh)).
  { right. left. reflexivity. }
  split; [exact Hin|].
  destruct (GateFacts.handler_needs_parsed_payment (rt := Reference.runtime)
              config req fresh "/api/chat" "hello" Hin)
    as (_ & service & h & j & Hs & _ & _ & Hx & Hj & _).
  now exists service, h, j.
Defined.


(** Two earnings of the chat service. *)
Lemma single_service_total_witness :
  let t := TrackerFacts.record_all
             [("/api/chat", 0.001%float); ("/api/chat", 0.002%float)]
             new_tracker in
  fst (getEarnings t) !! "/api/chat" = Some (snd (getEarnings t)).
Proof.
  intros t.
  apply (TrackerFacts.single_service_total "/api/chat"
           [0.001%float; 0.002%float]).
  intros n Hn. simpl in Hn. assert (n = 1) as -> by lia. reflexivity.
Defined.

(** A tracker that was given NaN once. *)
Lemma nan_total_is_permanent_witness :
  let t := recordEarning "/api/chat" nan new_tracker in
  is_nan (snd (getEarnings
                 (TrackerFacts.record_all [("/api/code", 0.01%float)] t)))
  = true /\
  earnings (recordEarning "/api/chat" 0.001 t) !! "/api/chat"
  = Some (0 + 0.001)%float.
Proof.
  intros t.
  destruct (TrackerFacts.nan_total_is_permanent [("/api/code", 0.01%float)]
              t "/api/chat" nan 0.001%float eq_refl) as [Htotal Hservice].
  split; [exact Htotal|]. apply Hservice; reflexivity.
Defined.

(** A poll during which the credits query answers 0, the USDC query
    answers and the sandbox does not. *)
Definition broke_probes : Probes :=
  {| getCreditsBalance := Returns 0%float;
     getUsdcBalance := Returns 25%float;
     exec_exitCode := Throws "ETIMEDOUT";
     now := "2025-01-02T00:00:00.000Z" |}.

(** Two polls that differ in everything but the credits. *)
Lemma tier_ignores_usdc_and_sandbox_witness :
  exists (st st' : ResourceStatus) (out out' : KV),
    checkResources (rt := Reference.runtime) sample_getSurvivalTier
      failing_probes ∅ = (Returns st, out) /\
    checkResources (rt := Reference.runtime) sample_getSurvivalTier
      broke_probes ∅ = (Returns st', out') /\
    tier st = tier st' /\ tierChanged st = false /\
    sandboxHealthy st = true /\ sandboxHealthy st' = false.
Proof.
  destruct (PollFacts.tier_ignores_usdc_and_sandbox (rt := Reference.runtime)
              sample_getSurvivalTier failing_probes broke_probes ∅ ∅
              eq_refl eq_refl)
    as (st & st' & out & out' & H1 & H2 & Ht & _ & _ & _ & Hnone & _).
  exists st, st', out, out'.
  split; [exact H1|]. split; [exact H2|]. split; [exact Ht|].
  split; [exact (Hnone eq_refl)|].
  rewrite (MonitorFacts.checkResources_returns (rt := Reference.runtime)) in H1, H2.
  injection H1 as <- _. injection H2 as <- _. split; reflexivity.
Defined.

(** The client of three providers in low-compute mode. *)
Lemma client_invariant_witness :
  exists (c : Client) (s0 : Closure.t),
    createMultiProviderClient three_providers = Returns (c, s0) /\
    let s := setLowComputeMode c true s0 in
    In (Some (Closure.currentProvider s)) (ClientFacts.configured three_providers) /\
    In (Some (Closure.currentProvider s))
       [Some (primaryProvider c); deepseek three_providers;
        tongyi three_providers] /\
    (Closure.maxTokens s = Closure.maxTokens s0 \/
     Closure.maxTokens s = 2048%float) /\
    In (Closure.currentModel s)
       [defaultModel (primaryProvider c); "deepseek-chat"; "qwen-turbo"].
Proof.
  eexists _, _. split; [reflexivity|]. intros s.
  apply (ClientFacts.client_invariant three_providers _ _ s eq_refl).
  apply reach_set, reach_initial.
Defined.

(** The route of a call in low-compute mode with three providers. *)
Lemma custom_only_when_alone_witness :
  exists (c : Client) (s0 : Closure.t),
    createMultiProviderClient three_providers = Returns (c, s0) /\
    In (Some (ClientFacts.route c (setLowComputeMode c true s0) None))
       (ClientFacts.named three_providers).
Proof.
  eexists _, _. split; [reflexivity|].
  refine (proj1 (ClientFacts.custom_only_when_alone three_providers _ _ _ None
                   eq_refl _) _).
  - apply reach_set, reach_initial.
  - discriminate.
Defined.


Definition offline_anthropic (url key : string) (body : Anthropic.Body)
  : outcome (HttpResponse Anthropic.Data) := Throws "ECONNREFUSED".

Definition answering_openai (url key : string) (body : OpenAI.Body)
  : outcome (HttpResponse OpenAI.Data) :=
  Returns
    {| Types.ok := true; Types.status := 200; Types.text := "";
       Types.json_body :=
         Returns
           {| OpenAI.id := Some "chatcmpl-1";
              OpenAI.model := None;
              OpenAI.choices :=
                Some [{| OpenAI.message :=
                           {| OpenAI.role := "assistant";
                              OpenAI.content := Some "hello";
                              OpenAI.tool_calls := None |};
                         OpenAI.finish_reason := None |}];
              OpenAI.usage := None |} |}.


(** A call that OpenAI answers. *)
Lemma chat_returns_witness :
  exists (c : Client) (s0 : Closure.t) (r : InferenceResponse),
    createMultiProviderClient openai_only = Returns (c, s0) /\
    chat (rt := Reference.runtime) answering_openai offline_anthropic c s0 []
      None = Returns r /\
    toolCalls r = msg_tool_calls (message r) /\
    truthy_string (finishReason r) = true.
Proof.
  eexists _, _, _. split; [reflexivity|].
  split; [reflexivity|].
  match goal with
  | |- toolCalls ?r = _ /\ _ =>
      destruct (ClientFacts.chat_returns (rt := Reference.runtime)
                  answering_openai offline_anthropic
                  {| providers := openai_only;
                     primaryProvider :=
                       sample_provider "openai" "https://api.openai.com"
                         "gpt-4o-mini" (Some 8192%float) |}
                  (initial (sample_provider "openai" "https://api.openai.com"
                              "gpt-4o-mini" (Some 8192%float)))
                  [] None r eq_refl) as (H1 & H2 & _)
  end.
  split; [exact H1|exact H2].
Defined.

(** A model that keeps asking for a tool with arguments that are not JSON,
    on a machine where every tool fails. *)
Definition broken_call : InferenceToolCall :=
  {| call_id := "call_1";
     call_function := {| fn_name := "exec"; fn_arguments := "{command:" |} |}.

Definition broken_response : InferenceResponse :=
  {| Types.id := "1";
     Types.model := "deepseek-chat";
     message := {| msg_role := "assistant";
                   msg_content := "";
                   msg_tool_calls := Some [broken_call] |};
     toolCalls := Some [broken_call];
     usage := {| promptTokens := 0; completionTokens := 0; totalTokens := 0 |};
     finishReason := "tool_calls" |}.

Definition stuck : Agent.Collaborators unit :=
  {| Agent.chat := fun _ _ w => (Returns broken_response, w);
     Agent.conway_exec := fun _ _ w => (Throws "offline", w);
     Agent.conway_readFile := fun _ w => (Throws "offline", w);
     Agent.conway_writeFile := fun _ _ w => (Throws "offline", w);
     Agent.fs_readdirSync := fun _ w => (Throws "offline", w);
     Agent.getUsdcBalance := fun w => (Throws "offline", w);
     Agent.toFixed6 := fun _ => "0.000000";
     Agent.null_property := fun k =>
       "Cannot read properties of null (reading '" +:+ k +:+ "')";
     Agent.not_primitive := "Cannot convert object to primitive value" |}.

(** A tool that was never offered. *)
Lemma unknown_tool_witness :
  Agent.executeToolCall (rt := Reference.runtime) stuck "delete_file" JNull tt
  = (Returns "Unknown tool: delete_file", tt).
Proof.
  apply (AgentFacts.unknown_tool (rt := Reference.runtime) stuck "delete_file").
  simpl. intros [H|[H|[H|[H|[H|[]]]]]]; discriminate.
Defined.

(** A file write on a machine where every tool fails. *)
Lemma offered_tools_handled_witness :
  Agent.executeToolCall (rt := Reference.runtime) stuck "write_file"
    (JObj [("path", JStr "/tmp/notes"); ("content", JStr "remember")]) tt
  = (Returns "Error: offline", tt).
Proof.
  apply (AgentFacts.offered_tools_handled (rt := Reference.runtime) stuck
           "write_file" _ tt "offline");
    [simpl; auto 10|intros; reflexivity..].
Defined.

(** Sixty turns with a model that is stuck: 62 messages. *)
Lemma failed_turns_grow_history_witness :
  exists r' : Agent.Run unit,
    Agent.turns (rt := Reference.runtime) stuck 60
      (Agent.start "You are an agent." "Earn your keep." tt)
    = (Returns tt, r') /\
    length (Agent.conversationHistory r') = 62.
Proof.
  destruct (AgentFacts.failed_turns_grow_history (rt := Reference.runtime)
              stuck broken_response broken_call [] 60
              (Agent.start "You are an agent." "Earn your keep." tt))
    as (r' & Hrun & _ & Hlen).
  - intros h o w. now exists w.
  - reflexivity.
  - reflexivity.
  - exists r'. split; [exact Hrun|exact Hlen].
Defined.

(** A user system with credits and a deduction that is refused, with a
    model that is down and one that answers. *)
Definition greeting : InferenceResponse :=
  {| Types.id := "2";
     Types.model := "deepseek-chat";
     message := {| msg_role := "assistant";
                   msg_content := "hello";
                   msg_tool_calls := None |};
     toolCalls := None;
     usage := {| promptTokens := 0; completionTokens := 0; totalTokens := 0 |};
     finishReason := "stop" |}.

Definition model_down : Handler.Collaborators unit :=
  {| Handler.getBalance := fun _ w => (Returns 100%float, w);
     Handler.deduct := fun _ _ _ w => (Returns false, w);
     Handler.chat := fun _ w => (Throws "ECONNREFUSED", w) |}.

Definition model_up : Handler.Collaborators unit :=
  {| Handler.getBalance := fun _ w => (Returns 1%float, w);
     Handler.deduct := fun _ _ _ w => (Returns false, w);
     Handler.chat := fun _ w => (Returns greeting, w) |}.

Definition earlier : list ChatMessage :=
  [Agent.said "system" Handler.system_prompt; Agent.said "user" "hi";
   Agent.said "assistant" "hello"].

Definition known_user : Handler.MessageHandler unit :=
  {| Handler.conversationHistory := {["u1" := earlier]}; Handler.world := tt |}.

Definition no_user : Handler.MessageHandler unit :=
  {| Handler.conversationHistory := ∅; Handler.world := tt |}.

(** A question of a known user while the model is down. *)
Lemma failed_chat_keeps_question_witness :
  exists st' : Handler.MessageHandler unit,
    Handler.handleChat model_down "u1" "are you there" known_user
    = (Returns Handler.unavailable, st') /\
    Handler.conversationHistory st' !! "u1"
    = Some (earlier ++ [Agent.said "user" "are you there"]).
Proof.
  destruct (HandlerFacts.failed_chat_keeps_question model_down "u1"
              "are you there" known_user 100%float tt tt "ECONNREFUSED"
              eq_refl eq_refl eq_refl)
    as (st' & Hrun & _ & Hkept & _).
  exists st'. split; [exact Hrun|]. rewrite Hkept. reflexivity.
Defined.

(** The first question of a user whose deduction is refused. *)
Lemma answered_chat_witness :
  exists st' : Handler.MessageHandler unit,
    Handler.handleChat model_up "u1" "hi" no_user = (Returns "hello", st') /\
    Handler.conversationHistory st' !! "u1" = Some earlier.
Proof.
  destruct (HandlerFacts.answered_chat model_up "u1" "hi" no_user 1%float
              tt tt tt greeting (Returns false) eq_refl eq_refl eq_refl eq_refl)
    as (st' & kept & Hrun & _ & Hlook & Hkept & _).
  exists st'. split; [exact Hrun|]. rewrite Hlook, Hkept. reflexivity.
Defined.

(** The table after the first answered question. *)
Lemma conversations_start_with_system_prompt_witness :
  let st := snd (Handler.handleChat model_up "u1" "hi" no_user) in
  Handler.conversationHistory st !! "u1" = Some earlier /\
  head earlier = Some (Agent.said "system" Handler.system_prompt) /\
  3 <= length earlier.
Proof.
  intros st.
  assert (Hlook : Handler.conversationHistory st !! "u1" = Some earlier)
    by reflexivity.
  split; [exact Hlook|].
  apply (HandlerFacts.conversations_start_with_system_prompt model_up st "u1"
           earlier); [|exact Hlook].
  apply (HandlerFacts.reach_chat model_up "u1" "hi" no_user st (Returns "hello")).
  - apply HandlerFacts.reach_new.
  - reflexivity.
Defined.

End Scenarios.
